(** * Triple-AI core: label routing and knowledge fusion

    A shallow embedding of the routing/fusion pipeline of the repository:

    - [server/ai/core/types.ts]             (module [Types])
    - [server/ai/knowledge/algorithms.ts]   (module [Algorithms])
    - [server/ai/core/auto-router.ts]       (module [AutoRouter])
    - [server/ai/core/ai-system-handler.ts] (module [Handler])
    - [server/ai/brain/brain-ai.ts]         (module [BrainAI])
    - [server/ai/heart/heart-ai.ts]         (module [HeartAI])

    Conventions of the embedding.

    - A JavaScript [number] is a binary64 float: Rocq's primitive [float],
      whose operations are the IEEE 754 ones.  Lengths and counts are
      natural numbers and enter float arithmetic through [Js.ofNat].
    - A JavaScript string is a sequence of code units.  The model covers the
      code units U+0000..U+00FF, which are exactly Rocq's [ascii]
      characters; on them [toLowerCase], [trim], [includes] and the regular
      expressions of the source are modelled exactly.  The one string
      literal of the source outside this range (the arrow used as a
      separator in diagnostics) is carried as its UTF-8 bytes.
    - A JavaScript [Map] is a [gmap], a [Set] a [gset].
    - Module-level variables, the clock and the backing store are threaded
      through a small state-and-exception monad (module [Async]); the
      console output of the source is left out.
    - The source is taken at its types: a value of type [string] is a
      string, a row has the columns its query selects. *)

From Stdlib Require Import ZArith Floats Ascii String List Bool Lia Sorted.
From Stdlib Require Import Uint63 DecimalString.
From stdpp Require Import base strings list gmap.

Set Warnings "-inexact-float".

Local Open Scope string_scope.
Local Open Scope list_scope.

(* ===================================================================== *)
(** * JavaScript primitives used by the source *)
(* ===================================================================== *)

Module Js.

(** ** Characters *)

Definition code (c : ascii) : N := N_of_ascii c.

Definition inRange (lo hi : N) (c : ascii) : bool :=
  (lo <=? code c)%N && (code c <=? hi)%N.

(** [\d] *)
Definition isDigit (c : ascii) : bool := inRange 48 57 c.

(** [\w] is [[A-Za-z0-9_]]; [\W] is its complement. *)
Definition isWordChar (c : ascii) : bool :=
  inRange 65 90 c || inRange 97 122 c || isDigit c || (code c =? 95)%N.

Definition isNonWordChar (c : ascii) : bool := negb (isWordChar c).

(** [[.!?]] *)
Definition isSentenceEnd (c : ascii) : bool :=
  (code c =? 46)%N || (code c =? 33)%N || (code c =? 63)%N.

(** White space and line terminators stripped by [String.prototype.trim]:
    TAB, LF, VT, FF, CR, SP and NBSP (the others lie above U+00FF). *)
Definition isWhiteSpace (c : ascii) : bool :=
  inRange 9 13 c || (code c =? 32)%N || (code c =? 160)%N.

(** Lower-casing of one code unit: A-Z, and the Latin-1 capitals
    U+00C0..U+00DE except the multiplication sign U+00D7. *)
Definition lowerChar (c : ascii) : ascii :=
  if inRange 65 90 c || (inRange 192 222 c && negb (code c =? 215)%N)
  then ascii_of_N (code c + 32)
  else c.

(** Upper-casing of one code unit.  The sharp s becomes "SS"; the micro sign
    and y-diaeresis, whose capitals lie above U+00FF, are left as they are. *)
Definition upperChar (c : ascii) : string :=
  if (code c =? 223)%N then "SS"
  else if inRange 97 122 c || (inRange 224 254 c && negb (code c =? 247)%N)
  then String (ascii_of_N (code c - 32)) ""
  else String c "".

(** ** Strings *)

Fixpoint toLowerCase (s : string) : string :=
  match s with
  | "" => ""
  | String c s' => String (lowerChar c) (toLowerCase s')
  end.

Fixpoint toUpperCase (s : string) : string :=
  match s with
  | "" => ""
  | String c s' => upperChar c +:+ toUpperCase s'
  end.

Fixpoint startsWith (s p : string) : bool :=
  match p, s with
  | "", _ => true
  | String _ _, "" => false
  | String a p', String b s' => Ascii.eqb a b && startsWith s' p'
  end.

(** [s.includes(sub)] *)
Fixpoint includes (s sub : string) : bool :=
  startsWith s sub ||
  match s with
  | "" => false
  | String _ s' => includes s' sub
  end.

Fixpoint trimStart (s : string) : string :=
  match s with
  | "" => ""
  | String c s' => if isWhiteSpace c then trimStart s' else s
  end.

Fixpoint trimEnd (s : string) : string :=
  match s with
  | "" => ""
  | String c s' =>
      match trimEnd s' with
      | "" => if isWhiteSpace c then "" else String c ""
      | t => String c t
      end
  end.

Definition trim (s : string) : string := trimEnd (trimStart s).

(** Truthiness of a string: the empty string is falsy. *)
Definition truthy (s : string) : bool :=
  match s with "" => false | _ => true end.

(** [s.split(/C+/)] for a character class [C] given by [sep]: the pieces
    between the maximal runs of separators, a leading or trailing run
    leaving an empty first or last piece.  [inRun] says that the character
    before [s] was a separator. *)
Fixpoint splitRuns (sep : ascii -> bool) (inRun : bool) (s : string) : list string :=
  match s with
  | "" => [""]
  | String c s' =>
      if sep c then
        if inRun then splitRuns sep true s' else "" :: splitRuns sep true s'
      else
        match splitRuns sep false s' with
        | t :: ts => String c t :: ts
        | [] => [String c ""]
        end
  end.

Definition split (sep : ascii -> bool) (s : string) : list string :=
  splitRuns sep false s.

(** [s.substring(0, n)] *)
Definition substring0 (n : nat) (s : string) : string := String.substring 0 n s.

(** [xs.join(sep)] *)
Definition join (sep : string) (xs : list string) : string := String.concat sep xs.

(** ** The match [/\d+(\.\d+)?(%|ms|mb|gb|kb)?/g] *)

Definition headIsDigit (s : string) : bool :=
  match s with String c _ => isDigit c | "" => false end.

(** Length of the unit [(%|ms|mb|gb|kb)] that starts with [c] followed by
    [s'], or 0 when there is none. *)
Definition unitAt (c : ascii) (s' : string) : nat :=
  if (code c =? 37)%N then 1
  else match s' with
       | String d _ =>
           if ((code c =? 109)%N && ((code d =? 115)%N || (code d =? 98)%N))
              || (((code c =? 103)%N || (code c =? 107)%N) && (code d =? 98)%N)
           then 2 else 0
       | "" => 0
       end.

Inductive NumScan :=
  | Idle
  | IntPart (acc : string)
  | FracPart (acc : string)
  | UnitTail (acc : string).

Definition snoc (s : string) (c : ascii) : string := s +:+ String c "".

(** All matches, left to right.  The integer part is greedy; the fraction
    is taken when a dot is followed by a digit; then the unit, if any. *)
Fixpoint scanNumbers (st : NumScan) (s : string) : list string :=
  match s with
  | "" =>
      match st with
      | Idle => []
      | IntPart a | FracPart a | UnitTail a => [a]
      end
  | String c s' =>
      match st with
      | UnitTail a => snoc a c :: scanNumbers Idle s'
      | Idle =>
          if isDigit c then scanNumbers (IntPart (String c "")) s'
          else scanNumbers Idle s'
      | IntPart a =>
          if isDigit c then scanNumbers (IntPart (snoc a c)) s'
          else if (code c =? 46)%N && headIsDigit s'
          then scanNumbers (FracPart (snoc a c)) s'
          else match unitAt c s' with
               | 0 => a :: scanNumbers Idle s'
               | 1 => snoc a c :: scanNumbers Idle s'
               | _ => scanNumbers (UnitTail (snoc a c)) s'
               end
      | FracPart a =>
          if isDigit c then scanNumbers (FracPart (snoc a c)) s'
          else match unitAt c s' with
               | 0 => a :: scanNumbers Idle s'
               | 1 => snoc a c :: scanNumbers Idle s'
               | _ => scanNumbers (UnitTail (snoc a c)) s'
               end
      end
  end.

Definition matchNumbers (s : string) : list string := scanNumbers Idle s.

(** ** Numbers *)

Local Open Scope float_scope.

(** A count or length as a number (exact below 2^53). *)
Definition ofNat (n : nat) : float := of_uint63 (Uint63.of_Z (Z.of_nat n)).

Module Math.

(** [Math.min(x, y)]: NaN if either is NaN; -0 is below +0. *)
Definition min (x y : float) : float :=
  if is_nan x then x
  else if is_nan y then y
  else if x <? y then x
  else if y <? x then y
  else if get_sign x then x else y.

End Math.

(** [x.toFixed(1)] for finite [x] of magnitude below 1e21 (above it
    JavaScript switches to exponent notation, which is not modelled: the
    positional form is produced there too).  [n] is the integer nearest to
    [10 * |x|], the larger one on a tie. *)
Definition tenths (m : positive) (e : Z) : Z :=
  match e with
  | Zneg p => (2 * (Zpos m * 10) + 2 ^ Zpos p) / (2 * 2 ^ Zpos p)
  | _ => Zpos m * 10 * 2 ^ e
  end%Z.

Definition decimal (n : Z) : string := NilZero.string_of_uint (N.to_uint (Z.to_N n)).

Definition fixed1 (neg : bool) (n : Z) : string :=
  (if neg then "-" else "") +:+ decimal (n / 10) +:+ "." +:+ decimal (n mod 10).

Definition toFixed1 (x : float) : string :=
  match Prim2SF x with
  | S754_nan => "NaN"
  | S754_infinity s => if s then "-Infinity" else "Infinity"
  | S754_zero _ => "0.0"
  | S754_finite s m e => fixed1 s (tenths m e)
  end.

(** [xs.slice(0, n)] for an integer [n]: a negative [n] counts from the
    end. *)
Definition slice0 {A} (n : Z) (xs : list A) : list A :=
  if (n <? 0)%Z then firstn (length xs - Z.to_nat (- n)) xs
  else firstn (Z.to_nat n) xs.

(** [xs.sort(cmp)]: the sort is stable; [a] goes behind [b] exactly when
    [cmp a b > 0] (a NaN counts as 0).  For a comparator that is a
    consistent order this insertion sort yields the one stable result. *)
Fixpoint insertBy {A} (cmp : A -> A -> float) (x : A) (l : list A) : list A :=
  match l with
  | [] => [x]
  | y :: l' => if 0 <? cmp x y then y :: insertBy cmp x l' else x :: l
  end.

Definition sort {A} (cmp : A -> A -> float) (l : list A) : list A :=
  foldr (insertBy cmp) [] l.

End Js.

(* ===================================================================== *)
(** * server/ai/core/types.ts *)
(* ===================================================================== *)

Module Types.

Inductive AIType := brain | heart | system.
Inductive DeviceMode := standard | professional | advanced.

(** The literal type [1 | 2 | 3] of a model slot. *)
Inductive Slot := slot1 | slot2 | slot3.

#[global] Instance AIType_eq_dec : EqDecision AIType.
Proof. solve_decision. Defined.

#[global] Instance DeviceMode_eq_dec : EqDecision DeviceMode.
Proof. solve_decision. Defined.

#[global] Instance Slot_eq_dec : EqDecision Slot.
Proof. solve_decision. Defined.

#[global] Instance Slot_countable : Countable Slot.
Proof.
  refine (inj_countable'
            (fun s => match s with slot1 => 1 | slot2 => 2 | slot3 => 3 end)
            (fun n => match n with 1 => slot1 | 2 => slot2 | _ => slot3 end) _).
  intros []; reflexivity.
Defined.

(** The strings the values print as in template literals. *)
Definition aiTypeName (t : AIType) : string :=
  match t with brain => "brain" | heart => "heart" | system => "system" end.

Definition modeName (m : DeviceMode) : string :=
  match m with
  | standard => "standard" | professional => "professional" | advanced => "advanced"
  end.

Definition slotDigit (s : Slot) : string :=
  match s with slot1 => "1" | slot2 => "2" | slot3 => "3" end.

Module ModeLimits.
Record t := mk { nodes : Z; stacks : Z; domains : Z }.
End ModeLimits.

(** Mode limits: Standard (2-1-1), Professional (2-2-2), Advanced (3-3-3) *)
Definition MODE_LIMITS (m : DeviceMode) : ModeLimits.t :=
  match m with
  | standard => ModeLimits.mk 2 1 1
  | professional => ModeLimits.mk 2 2 2
  | advanced => ModeLimits.mk 3 3 3
  end.

(** Defaults of the device classes. *)
Inductive DeviceClass := mobile | tablet | laptop | desktop | server.

Definition DEVICE_DEFAULT_MODE (d : DeviceClass) : DeviceMode :=
  match d with
  | mobile => standard
  | tablet => standard
  | laptop => professional
  | desktop => advanced
  | server => advanced
  end.

Module AINode.
Record t := mk {
  id : string;
  aiType : AIType;
  modelSlot : option Slot;
  name : string;
  label : string;
  description : option string;
  keywords : list string;
  priority : float;
  isActive : bool }.
End AINode.

Module AIStack.
Record t := mk {
  id : string;
  nodeId : string;
  aiType : AIType;
  name : string;
  label : string;
  description : option string;
  keywords : list string;
  priority : float;
  isActive : bool }.
End AIStack.

Module AIDomain.
Record t := mk {
  id : string;
  stackId : string;
  nodeId : string;
  aiType : AIType;
  name : string;
  description : option string;
  keywords : list string;
  systemPrompt : option string;
  priority : float;
  isActive : bool }.
End AIDomain.

Module AIMemory.
Record t := mk {
  id : string;
  aiType : string;
  domainId : option string;
  content : string;
  context : gmap string string;
  relevanceScore : float;
  usageCount : float }.
End AIMemory.

Module AIModelConfig.
Record t := mk {
  id : string;
  aiType : AIType;
  modelSlot : Slot;
  provider : string;
  modelName : string;
  isPrimary : bool;
  isBackup : bool;
  priority : float;
  maxTokens : float;
  temperature : float;
  timeoutMs : float;
  isActive : bool }.
End AIModelConfig.

Module SelectedItem.
Record t := mk {
  id : string;
  label : string;
  name : string;
  score : float }.
End SelectedItem.

Module SelectedDomain.
Record t := mk {
  id : string;
  name : string;
  stackId : string;
  stackLabel : string;
  nodeId : string;
  nodeLabel : string;
  keywords : list string;
  systemPrompt : option string;
  score : float }.
End SelectedDomain.

Module RoutingResult.
Record t := mk {
  mode : DeviceMode;
  nodes : list SelectedItem.t;
  stacks : list SelectedItem.t;
  domains : list SelectedDomain.t;
  memories : list AIMemory.t;
  totalDomains : nat;
  confidence : float;
  reasoning : list string }.
End RoutingResult.

Module ModelResponse.
Record t := mk {
  modelSlot : Slot;
  provider : string;
  modelName : string;
  response : string;
  success : bool;
  timeMs : float;
  error : option string;
  routing : RoutingResult.t }.
End ModelResponse.

Module AISystemResult.
Record t := mk {
  aiType : AIType;
  deviceMode : DeviceMode;
  prompt : string;
  model1Response : ModelResponse.t;
  model2Response : ModelResponse.t;
  model3Response : ModelResponse.t;
  knowledgeAlgorithmResult : string;
  finalAnswer : string;
  totalTimeMs : float;
  qualityScore : float }.
End AISystemResult.

Module KnowledgeAlgorithmInput.
Record t := mk {
  aiType : AIType;
  prompt : string;
  responses : list ModelResponse.t }.
End KnowledgeAlgorithmInput.

Module Weights.
Record t := mk { model1 : float; model2 : float; model3 : float }.
End Weights.

Module KnowledgeAlgorithmOutput.
Record t := mk {
  fusedAnswer : string;
  qualityScore : float;
  reasoning : list string;
  selectedPrimary : Slot;
  contributionWeights : Weights.t }.
End KnowledgeAlgorithmOutput.

End Types.

(* ===================================================================== *)
(** * server/ai/knowledge/algorithms.ts *)
(* ===================================================================== *)

Module Algorithms.
Import Types Js.
Local Open Scope float_scope.

(** ** Utilities *)

(** [new Set(text.toLowerCase().split(/\W+/).filter(w => w.length > 3))] *)
Definition wordSet (text : string) : gset string :=
  list_to_set
    (List.filter (fun w => (3 <? String.length w)%nat)
                 (split isNonWordChar (toLowerCase text))).

Definition calculateSimilarity (text1 text2 : string) : float :=
  if negb (truthy text1) || negb (truthy text2) then 0
  else
    let words1 := wordSet text1 in
    let words2 := wordSet text2 in
    if (size words1 =? 0)%nat || (size words2 =? 0)%nat then 0
    else
      let overlap := size (filter (fun w => w ∈ words2) words1) in
      ofNat overlap / ofNat (Nat.max (size words1) (size words2)).

(** [text.split(/[.!?]+/).filter(s => s.trim().length > 10)] *)
Definition sentencesOf (text : string) : list string :=
  List.filter (fun s => (10 <? String.length (trim s))%nat)
              (split isSentenceEnd text).

Definition calculateResponseQuality (response : ModelResponse.t) : float :=
  if negb (ModelResponse.success response)
     || negb (truthy (ModelResponse.response response))
  then 0
  else
    let text := ModelResponse.response response in
    let score := 0.5 in
    (* Length factor *)
    let length := String.length text in
    let score :=
      if (100 <? length)%nat && (length <? 5000)%nat then score + 0.2
      else if (50 <=? length)%nat then score + 0.1
      else score in
    (* Structure factor *)
    let sentences := sentencesOf text in
    let score :=
      if (2 <=? List.length sentences)%nat then score + 0.1 else score in
    (* No error indicators *)
    let score :=
      if negb (includes (toLowerCase text) "error")
         && negb (includes (toLowerCase text) "cannot")
         && negb (includes (toLowerCase text) "unable")
      then score + 0.1 else score in
    (* Response time factor *)
    let score :=
      if (500 <? ModelResponse.timeMs response)
         && (ModelResponse.timeMs response <? 10000)
      then score + 0.1 else score in
    Math.min 1 score.

(** ** Parts the three algorithms share verbatim *)

(** [r => r.success && r.response?.trim()] *)
Definition isValid (r : ModelResponse.t) : bool :=
  ModelResponse.success r && truthy (trim (ModelResponse.response r)).

Definition validResponsesOf (input : KnowledgeAlgorithmInput.t) : list ModelResponse.t :=
  List.filter isValid (KnowledgeAlgorithmInput.responses input).

(** An element of the [scores] array. *)
Module Scored.
Record t := mk { response : ModelResponse.t; quality : float }.
End Scored.

(** [(a, b) => b.quality - a.quality] *)
Definition byQualityDesc (a b : Scored.t) : float :=
  Scored.quality b - Scored.quality a.

(** The similarities of all pairs [i < j], in the order the nested loops
    visit them. *)
Fixpoint pairSimilarities (rs : list ModelResponse.t) : list float :=
  match rs with
  | [] => []
  | r :: rs' =>
      List.map (fun r' => calculateSimilarity (ModelResponse.response r)
                                              (ModelResponse.response r')) rs'
      ++ pairSimilarities rs'
  end.

(** [xs.reduce((a, b) => a + b, 0)] *)
Definition sum (xs : list float) : float :=
  fold_left (fun a b => a + b) xs 0.

(** [scores.reduce((sum, s) => sum + s.quality, 0)] *)
Definition totalQualityOf (scores : list Scored.t) : float :=
  fold_left (fun sum s => sum + Scored.quality s) scores 0.

(** [weights[`model${slot}`] = x] *)
Definition setWeight (weights : Weights.t) (slot : Slot) (x : float) : Weights.t :=
  match slot with
  | slot1 => Weights.mk x (Weights.model2 weights) (Weights.model3 weights)
  | slot2 => Weights.mk (Weights.model1 weights) x (Weights.model3 weights)
  | slot3 => Weights.mk (Weights.model1 weights) (Weights.model2 weights) x
  end.

Definition getWeight (weights : Weights.t) (slot : Slot) : float :=
  match slot with
  | slot1 => Weights.model1 weights
  | slot2 => Weights.model2 weights
  | slot3 => Weights.model3 weights
  end.

(** The block "Calculate weights", the same in the three algorithms;
    [scores] is the array after its in-place sort. *)
Definition weightsOf (scores : list Scored.t) : Weights.t :=
  let totalQuality := totalQualityOf scores in
  fold_left
    (fun weights s =>
       setWeight weights (ModelResponse.modelSlot (Scored.response s))
                 (if 0 <? totalQuality then Scored.quality s / totalQuality else 0))
    scores (Weights.mk 0 0 0).

(** The early return of the three algorithms, which differ in the text. *)
Definition noValidResponses (fusedAnswer : string) : KnowledgeAlgorithmOutput.t :=
  KnowledgeAlgorithmOutput.mk
    fusedAnswer 0 ["No valid responses from any model"] slot1 (Weights.mk 0 0 0).

Definition percent (x : float) : string := toFixed1 (x * 100).

(** ** Brain AI *)

Definition brainFailure : string :=
  "I apologize, but I was unable to generate a response. Please try again.".

(** [`M${r.modelSlot}: ${nodeLabels}`] *)
Definition routeLine (r : ModelResponse.t) : string :=
  "M" +:+ slotDigit (ModelResponse.modelSlot r) +:+ ": "
  +:+ join "→" (List.map SelectedItem.label
                         (RoutingResult.nodes (ModelResponse.routing r))).

Definition brainCoherence (validResponses : list ModelResponse.t) : float :=
  if (2 <=? List.length validResponses)%nat then
    let sims := pairSimilarities validResponses in
    let totalSim := sum sims in
    let pairs := List.length sims in
    if (0 <? pairs)%nat then totalSim / ofNat pairs else 1
  else 1.

Definition brainScores (validResponses : list ModelResponse.t) : list Scored.t :=
  List.map (fun r => Scored.mk r (calculateResponseQuality r)) validResponses.

Definition brainKnowledgeAlgorithm (input : KnowledgeAlgorithmInput.t)
  : KnowledgeAlgorithmOutput.t :=
  let validResponses := validResponsesOf input in
  if (List.length validResponses =? 0)%nat then noValidResponses brainFailure
  else
    (* Check coherence *)
    let coherenceScore := brainCoherence validResponses in
    (* Score responses, select best response *)
    match sort byQualityDesc (brainScores validResponses) with
    | [] => noValidResponses brainFailure (* not reached: [scores] is not empty *)
    | (primary :: _) as scores =>
        let reasoning :=
          ["Coherence: " +:+ percent coherenceScore +:+ "%";
           "Primary: Model "
             +:+ slotDigit (ModelResponse.modelSlot (Scored.response primary))
             +:+ " (" +:+ percent (Scored.quality primary) +:+ "%)"]
          ++ List.map routeLine validResponses in
        let qualityScore := (Scored.quality primary + coherenceScore) / 2 in
        KnowledgeAlgorithmOutput.mk
          (ModelResponse.response (Scored.response primary))
          qualityScore
          reasoning
          (ModelResponse.modelSlot (Scored.response primary))
          (weightsOf scores)
    end.

(** ** Heart AI *)

Definition heartFailure : string :=
  "// Unable to generate code fix. Please provide more details.".

Definition heartQuality (r : ModelResponse.t) : float :=
  let quality := calculateResponseQuality r in
  let text := ModelResponse.response r in
  let quality := if includes text "```" then quality + 0.15 else quality in
  let quality :=
    if includes text "function " || includes text "const " || includes text "class "
    then quality + 0.1 else quality in
  let quality :=
    if includes text "import " || includes text "require("
    then quality + 0.05 else quality in
  let quality :=
    if includes text "1." || includes text "Step "
    then quality + 0.05 else quality in
  Math.min 1 quality.

Definition heartScores (validResponses : list ModelResponse.t) : list Scored.t :=
  List.map (fun r => Scored.mk r (heartQuality r)) validResponses.

(** Whether the consensus bonus applies. *)
Definition heartConsensus (validResponses : list ModelResponse.t) : bool :=
  if (2 <=? List.length validResponses)%nat then
    let similarities := pairSimilarities validResponses in
    let avgSim := sum similarities / ofNat (List.length similarities) in
    0.3 <? avgSim
  else false.

Definition heartKnowledgeAlgorithm (input : KnowledgeAlgorithmInput.t)
  : KnowledgeAlgorithmOutput.t :=
  let validResponses := validResponsesOf input in
  if (List.length validResponses =? 0)%nat then noValidResponses heartFailure
  else
    match sort byQualityDesc (heartScores validResponses) with
    | [] => noValidResponses heartFailure
    | (primary :: _) as scores =>
        let consensus := heartConsensus validResponses in
        let consensusBonus := if consensus then 0.1 else 0 in
        let reasoning :=
          ["Primary code response: Model "
             +:+ slotDigit (ModelResponse.modelSlot (Scored.response primary))]
          ++ (if consensus then ["Consensus detected: +10%"] else []) in
        KnowledgeAlgorithmOutput.mk
          (ModelResponse.response (Scored.response primary))
          (Math.min 1 (Scored.quality primary + consensusBonus))
          reasoning
          (ModelResponse.modelSlot (Scored.response primary))
          (weightsOf scores)
    end.

(** ** System AI *)

Definition systemFailure : string :=
  "System diagnostic unavailable. Manual inspection recommended.".

Definition systemQuality (r : ModelResponse.t) : float :=
  let quality := calculateResponseQuality r in
  let text := toLowerCase (ModelResponse.response r) in
  let numberMatches := matchNumbers text in
  let quality :=
    if (2 <=? List.length numberMatches)%nat then quality + 0.1 else quality in
  let quality :=
    if includes text "healthy" || includes text "normal"
       || includes text "warning" || includes text "critical"
    then quality + 0.1 else quality in
  let quality :=
    if includes text "recommend" || includes text "should" || includes text "action"
    then quality + 0.1 else quality in
  Math.min 1 quality.

Definition systemScores (validResponses : list ModelResponse.t) : list Scored.t :=
  List.map (fun r => Scored.mk r (systemQuality r)) validResponses.

Definition severityIndicators : list string :=
  ["critical"; "warning"; "healthy"; "normal"; "error"].

(** [severityIndicators.find(s => text.includes(s)) || 'unknown'] *)
Definition detectedSeverity (r : ModelResponse.t) : string :=
  let text := toLowerCase (ModelResponse.response r) in
  match List.find (fun s => includes text s) severityIndicators with
  | Some s => s
  | None => "unknown"
  end.

Definition severityConsensusOf (validResponses : list ModelResponse.t) : bool :=
  let detectedSeverities := List.map detectedSeverity validResponses in
  (size (list_to_set detectedSeverities : gset string) =? 1)%nat.

Definition systemKnowledgeAlgorithm (input : KnowledgeAlgorithmInput.t)
  : KnowledgeAlgorithmOutput.t :=
  let validResponses := validResponsesOf input in
  if (List.length validResponses =? 0)%nat then noValidResponses systemFailure
  else
    match sort byQualityDesc (systemScores validResponses) with
    | [] => noValidResponses systemFailure
    | (primary :: _) as scores =>
        let severityConsensus := severityConsensusOf validResponses in
        let reasoning :=
          ["Primary diagnostic: Model "
             +:+ slotDigit (ModelResponse.modelSlot (Scored.response primary))]
          ++ (if severityConsensus then []
              else ["Warning: Models disagree on severity"]) in
        let qualityScore :=
          if severityConsensus then Scored.quality primary
          else Scored.quality primary * 0.8 in
        KnowledgeAlgorithmOutput.mk
          (ModelResponse.response (Scored.response primary))
          qualityScore
          reasoning
          (ModelResponse.modelSlot (Scored.response primary))
          (weightsOf scores)
    end.

(** ** Dispatcher

    The [default] branch of the switch throws; [AIType] has no fourth
    value, so it has no counterpart here. *)
Definition runKnowledgeAlgorithm (input : KnowledgeAlgorithmInput.t)
  : KnowledgeAlgorithmOutput.t :=
  match KnowledgeAlgorithmInput.aiType input with
  | brain => brainKnowledgeAlgorithm input
  | heart => heartKnowledgeAlgorithm input
  | system => systemKnowledgeAlgorithm input
  end.

End Algorithms.

(* ===================================================================== *)
(** * The runtime: backing store, clock, module-level variables *)
(* ===================================================================== *)

(** ** Rows of the relational store, with the column names of the queries *)

Module Store.
Import Types.

Module NodeRow.
Record t := mk {
  id : string;
  ai_type : AIType;
  model_slot : option Slot;
  name : string;
  label : string;
  description : option string;
  keywords : option (list string);
  priority : float;
  is_active : bool }.
End NodeRow.

Module StackRow.
Record t := mk {
  id : string;
  node_id : string;
  ai_type : AIType;
  name : string;
  label : string;
  description : option string;
  keywords : option (list string);
  priority : float;
  is_active : bool }.
End StackRow.

Module DomainRow.
Record t := mk {
  id : string;
  stack_id : string;
  node_id : string;
  ai_type : AIType;
  name : string;
  description : option string;
  keywords : option (list string);
  system_prompt : option string;
  priority : float;
  is_active : bool }.
End DomainRow.

Module MemoryRow.
Record t := mk {
  id : string;
  ai_type : string;
  domain_id : option string;
  content : string;
  context : option (gmap string string);
  relevance_score : float;
  usage_count : float }.
End MemoryRow.

Module ConfigRow.
Record t := mk {
  id : string;
  ai_type : AIType;
  model_slot : Slot;
  provider : string;
  model_name : string;
  is_primary : bool;
  is_backup : bool;
  priority : float;
  max_tokens : float;
  temperature : float;
  timeout_ms : float;
  is_active : bool }.
End ConfigRow.

(** The statements the core passes to [db.execute].  The two INSERTs carry
    the values their parameters are computed from (the random row id and the
    base64 rendering of the prompt prefix are left out). *)
Inductive Statement :=
  | SelectNodes
  | SelectStacks
  | SelectDomains
  | SelectMemories (memoryType : string) (domainIds : list string) (limit : Z)
  | SelectModelConfig
  | InsertRoutingLog (aiType : AIType) (modelSlot : Slot) (mode : DeviceMode)
      (promptPrefix : string) (nodes stacks domains : list string)
      (memoriesUsed : nat) (timeMs confidence : float)
  | InsertResponseLog (result : AISystemResult.t).

End Store.

(** ** Exceptions and outcomes *)

Module Eff.

(** A thrown [Error] object. *)
Record Error := mkError { message : string }.

Inductive Outcome (A : Type) :=
  | Returned (a : A)
  | Thrown (e : Error).

Arguments Returned {A} a.
Arguments Thrown {A} e.

End Eff.

(** ** What the process cannot control: the clock, the store, the model
    backend.  The n-th reading of the clock and the reply to the statement
    executed n-th are arbitrary. *)

Module Env.
Import Types Store Eff.

Record t := mk {
  (** the n-th value of [Date.now()] *)
  Date_now : nat -> float;
  (** replies of the store when the statement is the n-th one executed *)
  nodeRows : nat -> Outcome (list NodeRow.t);
  stackRows : nat -> Outcome (list StackRow.t);
  domainRows : nat -> Outcome (list DomainRow.t);
  memoryRows : nat -> string -> list string -> Z -> Outcome (list MemoryRow.t);
  configRows : nat -> Outcome (list ConfigRow.t);
  insertReply : nat -> Statement -> Outcome unit;
  (** the body of the [try] block of [callAIModel]: the model client *)
  generate : AIModelConfig.t -> string -> Outcome (string * bool) }.

End Env.

(** ** Module-level variables *)

Module LabelIndex.
Import Types.
Record t := mk {
  nodes : gmap string AINode.t;
  stacks : gmap string (list AIStack.t);
  domains : gmap string (list AIDomain.t);
  nodesByModel : gmap Slot (list AINode.t) }.
Definition empty : t := mk ∅ ∅ ∅ ∅.
End LabelIndex.

(** The variables of auto-router.ts. *)
Module Cache.
Import Types.
Record t := mk {
  labelIndex : LabelIndex.t;
  allNodes : list AINode.t;
  allStacks : list AIStack.t;
  allDomains : list AIDomain.t;
  lastCacheRefresh : float }.

(** The state at module load. *)
Definition initial : t := mk LabelIndex.empty [] [] [] 0%float.

Definition setLabelIndex (x : LabelIndex.t) (c : t) : t :=
  mk x (allNodes c) (allStacks c) (allDomains c) (lastCacheRefresh c).
Definition setAllNodes (x : list AINode.t) (c : t) : t :=
  mk (labelIndex c) x (allStacks c) (allDomains c) (lastCacheRefresh c).
Definition setAllStacks (x : list AIStack.t) (c : t) : t :=
  mk (labelIndex c) (allNodes c) x (allDomains c) (lastCacheRefresh c).
Definition setAllDomains (x : list AIDomain.t) (c : t) : t :=
  mk (labelIndex c) (allNodes c) (allStacks c) x (lastCacheRefresh c).
Definition setLastCacheRefresh (x : float) (c : t) : t :=
  mk (labelIndex c) (allNodes c) (allStacks c) (allDomains c) x.
End Cache.

(** The variables of ai-system-handler.ts. *)
Module ConfigCache.
Import Types.
Record t := mk {
  modelConfigCache : gmap string (list AIModelConfig.t);
  lastConfigRefresh : float }.
Definition initial : t := mk ∅ 0%float.
End ConfigCache.

Module World.
Import Store.
Record t := mk {
  router : Cache.t;
  handler : ConfigCache.t;
  (** readings of [Date.now()] taken so far *)
  clock : nat;
  (** statements passed to [db.execute] so far, oldest first *)
  executed : list Statement }.

Definition initial : t := mk Cache.initial ConfigCache.initial 0 [].

Definition setRouter (x : Cache.t) (w : t) : t :=
  mk x (handler w) (clock w) (executed w).
Definition setHandler (x : ConfigCache.t) (w : t) : t :=
  mk (router w) x (clock w) (executed w).
End World.

(** ** The monad of the asynchronous functions

    An [async] function is a computation that reads the environment,
    updates the world and returns or throws.  Awaited calls run to
    completion in program order. *)

Module Async.
Import Store Eff.

Definition M (A : Type) : Type := Env.t -> World.t -> Outcome A * World.t.

Definition ret {A} (a : A) : M A := fun _ w => (Returned a, w).

Definition throw {A} (e : Error) : M A := fun _ w => (Thrown e, w).

Definition bind {A B} (c : M A) (k : A -> M B) : M B :=
  fun env w =>
    match c env w with
    | (Returned a, w') => k a env w'
    | (Thrown e, w') => (Thrown e, w')
    end.

(** [try { body } catch (error) { handler }] *)
Definition tryCatch {A} (body : M A) (handler : Error -> M A) : M A :=
  fun env w =>
    match body env w with
    | (Returned a, w') => (Returned a, w')
    | (Thrown e, w') => handler e env w'
    end.

Definition gets {A} (f : World.t -> A) : M A := fun _ w => (Returned (f w), w).

Definition modify (f : World.t -> World.t) : M unit := fun _ w => (Returned tt, f w).

(** [Date.now()] *)
Definition Date_now : M float :=
  fun env w =>
    (Returned (Env.Date_now env (World.clock w)),
     World.mk (World.router w) (World.handler w) (S (World.clock w)) (World.executed w)).

(** [await db.execute(stmt)]: the statement is recorded, and the reply of
    the store is returned or thrown. *)
Definition execute {A} (stmt : Statement) (reply : Env.t -> nat -> Outcome A) : M A :=
  fun env w =>
    (reply env (List.length (World.executed w)),
     World.mk (World.router w) (World.handler w) (World.clock w)
              (World.executed w ++ [stmt])).

Declare Scope async_scope.
Delimit Scope async_scope with async.
Notation "x <- c ;; k" := (bind c (fun x => k))
  (at level 100, c at next level, right associativity) : async_scope.
Notation "c ;; k" := (bind c (fun _ => k))
  (at level 100, right associativity) : async_scope.

End Async.

(* ===================================================================== *)
(** * server/ai/core/auto-router.ts *)
(* ===================================================================== *)

Module AutoRouter.
Import Types Store Eff Async Js.
Local Open Scope float_scope.
Local Open Scope async_scope.

Definition CACHE_TTL_MS : float := 60000.

(** ** Cache refresh *)

Definition nodeOfRow (row : NodeRow.t) : AINode.t :=
  AINode.mk (NodeRow.id row) (NodeRow.ai_type row) (NodeRow.model_slot row)
    (NodeRow.name row) (NodeRow.label row) (NodeRow.description row)
    (default [] (NodeRow.keywords row)) (NodeRow.priority row)
    (NodeRow.is_active row).

Definition stackOfRow (row : StackRow.t) : AIStack.t :=
  AIStack.mk (StackRow.id row) (StackRow.node_id row) (StackRow.ai_type row)
    (StackRow.name row) (StackRow.label row) (StackRow.description row)
    (default [] (StackRow.keywords row)) (StackRow.priority row)
    (StackRow.is_active row).

Definition domainOfRow (row : DomainRow.t) : AIDomain.t :=
  AIDomain.mk (DomainRow.id row) (DomainRow.stack_id row) (DomainRow.node_id row)
    (DomainRow.ai_type row) (DomainRow.name row) (DomainRow.description row)
    (default [] (DomainRow.keywords row)) (DomainRow.system_prompt row)
    (DomainRow.priority row) (DomainRow.is_active row).

(** [if (!m.has(k)) m.set(k, []); m.get(k).push(x)] *)
Definition pushAt `{Countable K} {A} (k : K) (x : A) (m : gmap K (list A))
  : gmap K (list A) :=
  <[k := default [] (m !! k) ++ [x]]> m.

Definition indexNode (idx : LabelIndex.t) (node : AINode.t) : LabelIndex.t :=
  let byLabel := <[toUpperCase (AINode.label node) := node]> (LabelIndex.nodes idx) in
  let byModel :=
    match AINode.modelSlot node with
    | Some slot => pushAt slot node (LabelIndex.nodesByModel idx)
    | None => LabelIndex.nodesByModel idx
    end in
  LabelIndex.mk byLabel (LabelIndex.stacks idx) (LabelIndex.domains idx) byModel.

Definition indexStack (idx : LabelIndex.t) (stack : AIStack.t) : LabelIndex.t :=
  LabelIndex.mk (LabelIndex.nodes idx)
    (pushAt (AIStack.nodeId stack) stack (LabelIndex.stacks idx))
    (LabelIndex.domains idx) (LabelIndex.nodesByModel idx).

Definition indexDomain (idx : LabelIndex.t) (domain : AIDomain.t) : LabelIndex.t :=
  LabelIndex.mk (LabelIndex.nodes idx) (LabelIndex.stacks idx)
    (pushAt (AIDomain.stackId domain) domain (LabelIndex.domains idx))
    (LabelIndex.nodesByModel idx).

(** The index built from the three arrays. *)
Definition labelIndexOf (nodes : list AINode.t) (stacks : list AIStack.t)
  (domains : list AIDomain.t) : LabelIndex.t :=
  let idx := LabelIndex.empty in
  (* Index nodes by label and model slot *)
  let idx := fold_left indexNode nodes idx in
  (* Index stacks by nodeId *)
  let idx := fold_left indexStack stacks idx in
  (* Index domains by stackId *)
  fold_left indexDomain domains idx.

Definition buildLabelIndex (c : Cache.t) : Cache.t :=
  Cache.setLabelIndex
    (labelIndexOf (Cache.allNodes c) (Cache.allStacks c) (Cache.allDomains c)) c.

(** Assignment to a variable of this module. *)
Definition update (f : Cache.t -> Cache.t) : M unit :=
  modify (fun w => World.setRouter (f (World.router w)) w).

Definition refreshCache : M unit :=
  now <- Date_now ;;
  lastCacheRefresh <- gets (fun w => Cache.lastCacheRefresh (World.router w)) ;;
  if now - lastCacheRefresh <? CACHE_TTL_MS then ret tt
  else
    tryCatch
      ((* Load nodes *)
       nodesResult <- execute SelectNodes Env.nodeRows ;;
       update (Cache.setAllNodes (List.map nodeOfRow nodesResult)) ;;
       (* Load stacks *)
       stacksResult <- execute SelectStacks Env.stackRows ;;
       update (Cache.setAllStacks (List.map stackOfRow stacksResult)) ;;
       (* Load domains *)
       domainsResult <- execute SelectDomains Env.domainRows ;;
       update (Cache.setAllDomains (List.map domainOfRow domainsResult)) ;;
       (* Build label index for fast lookup *)
       update buildLabelIndex ;;
       update (Cache.setLastCacheRefresh now))
      (fun error => ret tt).

(** ** Keyword scoring

    The score is a sum of the integers 5, 2 and 1, one term per keyword; it
    is kept as a natural number and becomes a float where the source adds
    the priority to it. *)

Definition scoreByKeywords (prompt : string) (keywords : list string)
  (label : option string) : nat :=
  let promptLower := toLowerCase prompt in
  let words :=
    List.filter (fun w => (2 <? String.length w)%nat)
                (split isNonWordChar promptLower) in
  let score := 0%nat in
  (* Label match (highest priority) *)
  let score :=
    match label with
    | Some label =>
        if truthy label && includes promptLower (toLowerCase label)
        then (score + 5)%nat else score
    | None => score
    end in
  (* Keyword matches *)
  fold_left
    (fun score keyword =>
       let kwLower := toLowerCase keyword in
       if includes promptLower kwLower then (score + 2)%nat
       else if existsb (fun w => includes w kwLower || includes kwLower w) words
       then (score + 1)%nat
       else score)
    keywords score.

(** ** Node selection (per model) *)

(** [(a, b) => b.score - a.score] *)
Definition byScoreDesc (a b : SelectedItem.t) : float :=
  SelectedItem.score b - SelectedItem.score a.

Definition scoreNode (prompt : string) (node : AINode.t) : SelectedItem.t :=
  SelectedItem.mk (AINode.id node) (AINode.label node) (AINode.name node)
    (ofNat (scoreByKeywords prompt (AINode.keywords node) (Some (AINode.label node)))
     + AINode.priority node / 100).

Definition selectTopItems (nodes : list AINode.t) (prompt : string) (limit : Z)
  : list SelectedItem.t :=
  let scored := List.map (scoreNode prompt) nodes in
  slice0 limit (sort byScoreDesc scored).

Definition hasType (aiType : AIType) (n : AINode.t) : bool :=
  bool_decide (AINode.aiType n = aiType).

Definition selectNodes (c : Cache.t) (aiType : AIType) (modelSlot : Slot)
  (prompt : string) (limit : Z) : list SelectedItem.t :=
  (* Get nodes assigned to this model *)
  let modelNodes :=
    default [] (LabelIndex.nodesByModel (Cache.labelIndex c) !! modelSlot) in
  let relevantNodes := List.filter (hasType aiType) modelNodes in
  if (List.length relevantNodes =? 0)%nat then
    (* Fallback to all nodes of this type *)
    let fallbackNodes := List.filter (hasType aiType) (Cache.allNodes c) in
    selectTopItems fallbackNodes prompt limit
  else selectTopItems relevantNodes prompt limit.

(** ** Stack selection (within selected nodes) *)

Definition scoreStack (prompt : string) (stack : AIStack.t) : SelectedItem.t :=
  SelectedItem.mk (AIStack.id stack) (AIStack.label stack) (AIStack.name stack)
    (ofNat (scoreByKeywords prompt (AIStack.keywords stack) (Some (AIStack.label stack)))
     + AIStack.priority stack / 100).

Definition selectStacks (c : Cache.t) (selectedNodes : list SelectedItem.t)
  (prompt : string) (limitPerNode : Z) : list SelectedItem.t :=
  List.flat_map
    (fun node =>
       let nodeStacks :=
         default [] (LabelIndex.stacks (Cache.labelIndex c) !! SelectedItem.id node) in
       let scored := List.map (scoreStack prompt) nodeStacks in
       slice0 limitPerNode (sort byScoreDesc scored))
    selectedNodes.

(** ** Domain selection (within selected stacks) *)

Definition byDomainScoreDesc (a b : SelectedDomain.t) : float :=
  SelectedDomain.score b - SelectedDomain.score a.

(** [new Map(selectedNodes.map(n => [n.id, n]))]: a later entry replaces an
    earlier one with the same key. *)
Definition nodeMapOf (selectedNodes : list SelectedItem.t) : gmap string SelectedItem.t :=
  fold_left (fun m n => <[SelectedItem.id n := n]> m) selectedNodes ∅.

Definition scoreDomain (prompt : string) (stack : SelectedItem.t)
  (node : option SelectedItem.t) (domain : AIDomain.t) : SelectedDomain.t :=
  SelectedDomain.mk (AIDomain.id domain) (AIDomain.name domain)
    (AIDomain.stackId domain) (SelectedItem.label stack) (AIDomain.nodeId domain)
    (match node with Some n => SelectedItem.label n | None => "" end)
    (AIDomain.keywords domain) (AIDomain.systemPrompt domain)
    (ofNat (scoreByKeywords prompt (AIDomain.keywords domain) None)
     + AIDomain.priority domain / 100).

Definition selectDomains (c : Cache.t) (selectedStacks selectedNodes : list SelectedItem.t)
  (prompt : string) (limitPerStack : Z) : list SelectedDomain.t :=
  let nodeMap := nodeMapOf selectedNodes in
  List.flat_map
    (fun stack =>
       let stackDomains :=
         default [] (LabelIndex.domains (Cache.labelIndex c) !! SelectedItem.id stack) in
       (* Find parent node *)
       let parentStack :=
         List.find (fun s => String.eqb (AIStack.id s) (SelectedItem.id stack))
                   (Cache.allStacks c) in
       let nodeId := match parentStack with Some s => AIStack.nodeId s | None => "" end in
       let node := nodeMap !! nodeId in
       let scored := List.map (scoreDomain prompt stack node) stackDomains in
       slice0 limitPerStack (sort byDomainScoreDesc scored))
    selectedStacks.

(** ** Memory retrieval *)

Definition memoryOfRow (row : MemoryRow.t) : AIMemory.t :=
  AIMemory.mk (MemoryRow.id row) (MemoryRow.ai_type row) (MemoryRow.domain_id row)
    (MemoryRow.content row) (default ∅ (MemoryRow.context row))
    (MemoryRow.relevance_score row) (MemoryRow.usage_count row).

Definition getMemories (aiType : AIType) (domainIds : list string) (limit : Z)
  : M (list AIMemory.t) :=
  if (List.length domainIds =? 0)%nat then ret []
  else
    tryCatch
      (let memoryType := if bool_decide (aiType = brain) then "brain" else "shared" in
       result <- execute (SelectMemories memoryType domainIds limit)
                   (fun env n => Env.memoryRows env n memoryType domainIds limit) ;;
       ret (List.map memoryOfRow result))
      (fun error => ret []).

(** ** Main auto-route function *)

Definition showZ (n : Z) : string :=
  if (n <? 0)%Z then "-" +:+ decimal (- n) else decimal n.

Definition confidenceOf (domains : list SelectedDomain.t) : float :=
  let avgScore :=
    if (0 <? List.length domains)%nat
    then fold_left (fun sum d => sum + SelectedDomain.score d) domains 0
         / ofNat (List.length domains)
    else 0 in
  Math.min 1 (avgScore / 5).

Definition autoRoute (aiType : AIType) (modelSlot : Slot) (prompt : string)
  (mode : DeviceMode) : M RoutingResult.t :=
  refreshCache ;;
  c <- gets World.router ;;
  let limits := MODE_LIMITS mode in
  let line0 :=
    "[MODE: " +:+ toUpperCase (modeName mode) +:+ "] Limits: "
    +:+ showZ (ModeLimits.nodes limits) +:+ "-" +:+ showZ (ModeLimits.stacks limits)
    +:+ "-" +:+ showZ (ModeLimits.domains limits) in
  (* Step 1: Select nodes (by label matching) *)
  let nodes := selectNodes c aiType modelSlot prompt (ModeLimits.nodes limits) in
  let line1 := "[NODES] Selected: " +:+ join ", " (List.map SelectedItem.label nodes) in
  (* Step 2: Select stacks within nodes (by label matching) *)
  let stacks := selectStacks c nodes prompt (ModeLimits.stacks limits) in
  let line2 := "[STACKS] Selected: " +:+ join ", " (List.map SelectedItem.label stacks) in
  (* Step 3: Select domains within stacks (by keyword matching) *)
  let domains := selectDomains c stacks nodes prompt (ModeLimits.domains limits) in
  let line3 := "[DOMAINS] Selected: " +:+ join ", " (List.map SelectedDomain.name domains) in
  (* Step 4: Get memories *)
  let domainIds := List.map SelectedDomain.id domains in
  memories <- getMemories aiType domainIds 5 ;;
  let line4 := "[MEMORIES] Found: " +:+ showZ (Z.of_nat (List.length memories)) in
  (* Calculate confidence *)
  let confidence := confidenceOf domains in
  ret (RoutingResult.mk mode nodes stacks domains memories (List.length domains)
         confidence [line0; line1; line2; line3; line4]).

(** ** Utilities *)

Definition forceRefreshCache : M unit :=
  update (Cache.setLastCacheRefresh 0) ;;
  refreshCache.

Definition getNodesByLabel (c : Cache.t) (label : string) : option AINode.t :=
  LabelIndex.nodes (Cache.labelIndex c) !! toUpperCase label.

Definition getNodesForModel (c : Cache.t) (modelSlot : Slot) : list AINode.t :=
  default [] (LabelIndex.nodesByModel (Cache.labelIndex c) !! modelSlot).

Definition getAllNodes (c : Cache.t) (aiType : AIType) : list AINode.t :=
  List.filter (hasType aiType) (Cache.allNodes c).

Definition getStacksForNode (c : Cache.t) (nodeId : string) : list AIStack.t :=
  default [] (LabelIndex.stacks (Cache.labelIndex c) !! nodeId).

Definition getDomainsForStack (c : Cache.t) (stackId : string) : list AIDomain.t :=
  default [] (LabelIndex.domains (Cache.labelIndex c) !! stackId).

End AutoRouter.

(* ===================================================================== *)
(** * server/ai/core/ai-system-handler.ts *)
(* ===================================================================== *)

Module Handler.
Import Types Store Eff Async Js.
Local Open Scope float_scope.
Local Open Scope async_scope.

Definition CONFIG_CACHE_TTL_MS : float := 60000.

(** ** Model config cache *)

(** [`${aiType}-${slot}`] *)
Definition configKey (aiType : AIType) (slot : Slot) : string :=
  aiTypeName aiType +:+ "-" +:+ slotDigit slot.

Definition configOfRow (row : ConfigRow.t) : AIModelConfig.t :=
  AIModelConfig.mk (ConfigRow.id row) (ConfigRow.ai_type row) (ConfigRow.model_slot row)
    (ConfigRow.provider row) (ConfigRow.model_name row) (ConfigRow.is_primary row)
    (ConfigRow.is_backup row) (ConfigRow.priority row) (ConfigRow.max_tokens row)
    (ConfigRow.temperature row) (ConfigRow.timeout_ms row) (ConfigRow.is_active row).

Definition addConfigRow (cache : gmap string (list AIModelConfig.t)) (row : ConfigRow.t)
  : gmap string (list AIModelConfig.t) :=
  AutoRouter.pushAt (configKey (ConfigRow.ai_type row) (ConfigRow.model_slot row))
                    (configOfRow row) cache.

(** [modelConfigCache.clear()] followed by the loop over the rows. *)
Definition configCacheOf (rows : list ConfigRow.t) : gmap string (list AIModelConfig.t) :=
  fold_left addConfigRow rows ∅.

Definition update (f : ConfigCache.t -> ConfigCache.t) : M unit :=
  modify (fun w => World.setHandler (f (World.handler w)) w).

Definition refreshModelConfig : M unit :=
  now <- Date_now ;;
  lastConfigRefresh <- gets (fun w => ConfigCache.lastConfigRefresh (World.handler w)) ;;
  if now - lastConfigRefresh <? CONFIG_CACHE_TTL_MS then ret tt
  else
    tryCatch
      (result <- execute SelectModelConfig Env.configRows ;;
       update (fun h => ConfigCache.mk (configCacheOf result)
                                       (ConfigCache.lastConfigRefresh h)) ;;
       update (fun h => ConfigCache.mk (ConfigCache.modelConfigCache h) now))
      (fun error => ret tt).

(** [configs.find(c => c.isPrimary) || configs[0] || null] *)
Definition getModelConfig (h : ConfigCache.t) (aiType : AIType) (slot : Slot)
  : option AIModelConfig.t :=
  let key := configKey aiType slot in
  let configs := default [] (ConfigCache.modelConfigCache h !! key) in
  match List.find AIModelConfig.isPrimary configs with
  | Some c => Some c
  | None => head configs
  end.

(** ** Build context prompt *)

Definition pathOf (d : SelectedDomain.t) : string :=
  SelectedDomain.nodeLabel d +:+ "→" +:+ SelectedDomain.stackLabel d
  +:+ "→" +:+ SelectedDomain.name d.

(** [.filter(d => d.systemPrompt).map(d => d.systemPrompt!)] *)
Definition systemPromptsOf (domains : list SelectedDomain.t) : list string :=
  List.flat_map
    (fun d => match SelectedDomain.systemPrompt d with
              | Some p => if truthy p then [p] else []
              | None => []
              end)
    domains.

Definition buildContextPrompt (originalPrompt : string) (routing : RoutingResult.t)
  : string :=
  (* Context header with routing path *)
  let pathStr := join " | " (List.map pathOf (RoutingResult.domains routing)) in
  let parts := ["[Context: " +:+ pathStr +:+ "]"] in
  (* System prompts from domains *)
  let systemPrompts := slice0 2 (systemPromptsOf (RoutingResult.domains routing)) in
  let parts :=
    if (0 <? List.length systemPrompts)%nat
    then parts ++ [""; "[Domain Expertise:]"; join (String "010" "") systemPrompts]
    else parts in
  (* Memories *)
  let parts :=
    if (0 <? List.length (RoutingResult.memories routing))%nat
    then parts ++ [""; "[Relevant Memories:]"]
         ++ List.map (fun mem => "- " +:+ substring0 200 (AIMemory.content mem) +:+ "...")
                     (slice0 3 (RoutingResult.memories routing))
    else parts in
  (* User prompt *)
  let parts := parts ++ [""; "[User Request:]"; originalPrompt] in
  join (String "010" "") parts.

(** ** The model call

    The source wraps the call of the model client in a [try]; the client is
    the environment's [generate].  [placeholder] is the stand-in the source
    ships in its place. *)

Definition placeholder (config : AIModelConfig.t) (prompt : string)
  : Outcome (string * bool) :=
  Returned ("[" +:+ AIModelConfig.provider config +:+ "/"
            +:+ AIModelConfig.modelName config +:+ "] Response to: "
            +:+ substring0 50 prompt +:+ "...", true).

Definition callAIModel (config : AIModelConfig.t) (prompt : string)
  : M (string * bool) :=
  tryCatch
    (fun env w => (Env.generate env config prompt, w))
    (fun error => ret ("", false)).

(** ** Logging *)

Definition logRoutingDecision (aiType : AIType) (modelSlot : Slot) (mode : DeviceMode)
  (prompt : string) (routing : RoutingResult.t) (timeMs : float) : M unit :=
  tryCatch
    (let stmt :=
       InsertRoutingLog aiType modelSlot mode (substring0 100 prompt)
         (List.map SelectedItem.label (RoutingResult.nodes routing))
         (List.map SelectedItem.label (RoutingResult.stacks routing))
         (List.map SelectedDomain.name (RoutingResult.domains routing))
         (List.length (RoutingResult.memories routing))
         timeMs (RoutingResult.confidence routing) in
     execute stmt (fun env n => Env.insertReply env n stmt))
    (fun error => ret tt (* Non-critical *)).

Definition logResponse (result : AISystemResult.t) : M unit :=
  tryCatch
    (let stmt := InsertResponseLog result in
     execute stmt (fun env n => Env.insertReply env n stmt))
    (fun error => ret tt).

(** [promise.catch(() => {})] *)
Definition swallow (c : M unit) : M unit := tryCatch c (fun _ => ret tt).

(** ** Execute single model *)

Definition errorRouting (mode : DeviceMode) : RoutingResult.t :=
  RoutingResult.mk mode [] [] [] [] 0 0 ["Error during execution"].

Definition executeModel (aiType : AIType) (modelSlot : Slot) (prompt : string)
  (mode : DeviceMode) (config : AIModelConfig.t) : M ModelResponse.t :=
  startTime <- Date_now ;;
  tryCatch
    ((* Step 1: Auto-route for this model *)
     routing <- AutoRouter.autoRoute aiType modelSlot prompt mode ;;
     (* Step 2: Build enriched prompt *)
     let enrichedPrompt := buildContextPrompt prompt routing in
     (* Step 3: Call AI model *)
     response <- callAIModel config enrichedPrompt ;;
     now <- Date_now ;;
     let timeMs := now - startTime in
     (* Log routing decision *)
     swallow (logRoutingDecision aiType modelSlot mode prompt routing timeMs) ;;
     ret (ModelResponse.mk modelSlot (AIModelConfig.provider config)
            (AIModelConfig.modelName config) (fst response) (snd response)
            timeMs None routing))
    (fun error =>
       now <- Date_now ;;
       let timeMs := now - startTime in
       ret (ModelResponse.mk modelSlot (AIModelConfig.provider config)
              (AIModelConfig.modelName config) "" false timeMs
              (Some (message error)) (errorRouting mode))).

(** ** Main execution

    [Promise.all] starts the three model tasks and joins them; here they run
    one after the other, slot 1 first. *)

Definition missingConfiguration (aiType : AIType) : Error :=
  mkError ("Missing model configuration for AI type: " +:+ aiTypeName aiType).

Definition executeAISystem (aiType : AIType) (prompt : string) (mode : DeviceMode)
  : M AISystemResult.t :=
  startTime <- Date_now ;;
  refreshModelConfig ;;
  (* Get model configs *)
  h <- gets World.handler ;;
  match getModelConfig h aiType slot1,
        getModelConfig h aiType slot2,
        getModelConfig h aiType slot3 with
  | Some config1, Some config2, Some config3 =>
      (* Execute all 3 models in parallel *)
      model1Response <- executeModel aiType slot1 prompt mode config1 ;;
      model2Response <- executeModel aiType slot2 prompt mode config2 ;;
      model3Response <- executeModel aiType slot3 prompt mode config3 ;;
      (* Run knowledge algorithm *)
      let knowledgeResult :=
        Algorithms.runKnowledgeAlgorithm
          (KnowledgeAlgorithmInput.mk aiType prompt
             [model1Response; model2Response; model3Response]) in
      now <- Date_now ;;
      let totalTimeMs := now - startTime in
      let result :=
        AISystemResult.mk aiType mode prompt
          model1Response model2Response model3Response
          (join (String "010" "") (KnowledgeAlgorithmOutput.reasoning knowledgeResult))
          (KnowledgeAlgorithmOutput.fusedAnswer knowledgeResult)
          totalTimeMs
          (KnowledgeAlgorithmOutput.qualityScore knowledgeResult) in
      (* Log (non-blocking) *)
      swallow (logResponse result) ;;
      ret result
  | _, _, _ => throw (missingConfiguration aiType)
  end.

(** The default value of the parameter [mode]. *)
Definition defaultMode : DeviceMode := professional.

Definition refreshAllCaches : M unit :=
  update (fun h => ConfigCache.mk (ConfigCache.modelConfigCache h) 0) ;;
  refreshModelConfig ;;
  AutoRouter.forceRefreshCache.

End Handler.

(* ===================================================================== *)
(** * server/ai/brain/brain-ai.ts *)
(* ===================================================================== *)

Module BrainAI.
Import Types Eff Async Js Handler.
Local Open Scope float_scope.
Local Open Scope async_scope.

Module BrainAIRequest.
Record t := mk {
  prompt : string;
  deviceClass : option DeviceClass;
  mode : option DeviceMode;
  userId : option string;
  conversationId : option string }.
End BrainAIRequest.

Module ModelMetrics.
Record t := mk {
  provider : string;
  model : string;
  timeMs : float;
  success : bool;
  nodes : list string;
  stacks : list string;
  domains : list string }.
End ModelMetrics.

Module Metrics.
Record t := mk {
  totalTimeMs : float;
  qualityScore : float;
  totalDomains : nat;
  model1 : ModelMetrics.t;
  model2 : ModelMetrics.t;
  model3 : ModelMetrics.t }.
End Metrics.

Module BrainAIResponse.
Record t := mk {
  success : bool;
  answer : string;
  mode : DeviceMode;
  metrics : Metrics.t;
  knowledgeAlgorithmLog : string }.
End BrainAIResponse.

Definition modelMetricsOf (r : ModelResponse.t) : ModelMetrics.t :=
  ModelMetrics.mk (ModelResponse.provider r) (ModelResponse.modelName r)
    (ModelResponse.timeMs r) (ModelResponse.success r)
    (List.map SelectedItem.label (RoutingResult.nodes (ModelResponse.routing r)))
    (List.map SelectedItem.label (RoutingResult.stacks (ModelResponse.routing r)))
    (List.map SelectedDomain.name (RoutingResult.domains (ModelResponse.routing r))).

(** The sum of the three [routing.totalDomains]. *)
Definition totalDomainsOf (result : AISystemResult.t) : nat :=
  (RoutingResult.totalDomains (ModelResponse.routing (AISystemResult.model1Response result))
   + RoutingResult.totalDomains (ModelResponse.routing (AISystemResult.model2Response result))
   + RoutingResult.totalDomains (ModelResponse.routing (AISystemResult.model3Response result)))%nat.

Definition extractMetrics (result : AISystemResult.t) : Metrics.t :=
  Metrics.mk (AISystemResult.totalTimeMs result) (AISystemResult.qualityScore result)
    (totalDomainsOf result)
    (modelMetricsOf (AISystemResult.model1Response result))
    (modelMetricsOf (AISystemResult.model2Response result))
    (modelMetricsOf (AISystemResult.model3Response result)).

(** [request.mode || (request.deviceClass ? DEVICE_DEFAULT_MODE[request.deviceClass]
    : 'professional')] *)
Definition modeOf (mode : option DeviceMode) (deviceClass : option DeviceClass) : DeviceMode :=
  match mode with
  | Some m => m
  | None =>
      match deviceClass with
      | Some d => DEVICE_DEFAULT_MODE d
      | None => professional
      end
  end.

Definition failedModel : ModelMetrics.t := ModelMetrics.mk "" "" 0 false [] [] [].

Definition brainError : string := "Brain AI encountered an error. Please try again.".

Definition executeBrainAI (request : BrainAIRequest.t) : M BrainAIResponse.t :=
  (* Determine mode *)
  let mode := modeOf (BrainAIRequest.mode request) (BrainAIRequest.deviceClass request) in
  tryCatch
    (result <- executeAISystem brain (BrainAIRequest.prompt request) mode ;;
     ret (BrainAIResponse.mk true (AISystemResult.finalAnswer result) mode
            (extractMetrics result) (AISystemResult.knowledgeAlgorithmResult result)))
    (fun error =>
       ret (BrainAIResponse.mk false brainError mode
              (Metrics.mk 0 0 0 failedModel failedModel failedModel)
              ("Error: " +:+ message error))).

Definition executeBrainAIStandard (prompt : string) : M BrainAIResponse.t :=
  executeBrainAI (BrainAIRequest.mk prompt None (Some standard) None None).

Definition executeBrainAIProfessional (prompt : string) : M BrainAIResponse.t :=
  executeBrainAI (BrainAIRequest.mk prompt None (Some professional) None None).

Definition executeBrainAIAdvanced (prompt : string) : M BrainAIResponse.t :=
  executeBrainAI (BrainAIRequest.mk prompt None (Some advanced) None None).

End BrainAI.

(* ===================================================================== *)
(** * server/ai/heart/heart-ai.ts *)
(* ===================================================================== *)

Module HeartAI.
Import Types Eff Async Js Handler.
Local Open Scope float_scope.
Local Open Scope async_scope.

Module Context.
Record t := mk {
  codeFile : option string;
  errorMessage : option string;
  stackTrace : option string }.
End Context.

Module HeartAIRequest.
Record t := mk {
  prompt : string;
  deviceClass : option DeviceClass;
  mode : option DeviceMode;
  context : option Context.t }.
End HeartAIRequest.

Module Metrics.
Record t := mk {
  totalTimeMs : float;
  qualityScore : float;
  totalDomains : nat }.
End Metrics.

Module HeartAIResponse.
Record t := mk {
  success : bool;
  answer : string;
  codeBlocks : list string;
  mode : DeviceMode;
  metrics : Metrics.t;
  knowledgeAlgorithmLog : string }.
End HeartAIResponse.

(** ** The matches of [/```[\w]*\n([\s\S]*?)```/g] *)

Definition fence : string := "```".

Definition newline : string := String "010" "".

(** [s] without its first [n] characters. *)
Fixpoint drop (n : nat) (s : string) : string :=
  match n, s with
  | S k, String _ s' => drop k s'
  | _, _ => s
  end.

(** [[\w]*\n] at the head of [s]: the text behind the line feed and the
    number of word characters before it. *)
Fixpoint afterInfo (s : string) : option (string * nat) :=
  match s with
  | "" => None
  | String c s' =>
      if isWordChar c then
        match afterInfo s' with
        | Some (rest, n) => Some (rest, S n)
        | None => None
        end
      else if (code c =? 10)%N then Some (s', 0%nat)
      else None
  end.

(** [([\s\S]*?)```] at the head of [s]: the shortest text followed by a
    fence. *)
Fixpoint untilFence (s : string) : option string :=
  if startsWith s fence then Some ""
  else match s with
       | "" => None
       | String c s' =>
           match untilFence s' with
           | Some body => Some (String c body)
           | None => None
           end
       end.

(** The match that starts at the head of [s], if there is one: its capture
    group and its length. *)
Definition matchAt (s : string) : option (string * nat) :=
  if startsWith s fence then
    match afterInfo (drop 3 s) with
    | Some (rest, n) =>
        match untilFence rest with
        | Some body => Some (body, (3 + n + 1 + String.length body + 3)%nat)
        | None => None
        end
    | None => None
    end
  else None.

(** The loop over [regex.exec]: the leftmost match from each position on,
    the search resuming behind a match ([skip] characters of [s] belong to
    the match found last). *)
Fixpoint blocksFrom (skip : nat) (s : string) : list string :=
  match s with
  | "" => []
  | String _ s' =>
      match skip with
      | S k => blocksFrom k s'
      | O =>
          match matchAt s with
          | Some (body, len) => trim body :: blocksFrom (len - 1)%nat s'
          | None => blocksFrom 0 s'
          end
      end
  end.

Definition extractCodeBlocks (text : string) : list string := blocksFrom 0 text.

(** ** Heart AI *)

(** A property that is present and not the empty string. *)
Definition present (x : option string) : option string :=
  match x with
  | Some s => if truthy s then Some s else None
  | None => None
  end.

Definition field (f : Context.t -> option string) (context : option Context.t)
  : option string :=
  match context with
  | Some c => present (f c)
  | None => None
  end.

(** Build enriched prompt *)
Definition enrich (request : HeartAIRequest.t) : string :=
  let context := HeartAIRequest.context request in
  let enrichedPrompt := HeartAIRequest.prompt request in
  let enrichedPrompt :=
    match field Context.codeFile context with
    | Some codeFile => "[File: " +:+ codeFile +:+ "]" +:+ newline +:+ newline +:+ enrichedPrompt
    | None => enrichedPrompt
    end in
  let enrichedPrompt :=
    match field Context.errorMessage context with
    | Some errorMessage =>
        "[Error: " +:+ errorMessage +:+ "]" +:+ newline +:+ newline +:+ enrichedPrompt
    | None => enrichedPrompt
    end in
  match field Context.stackTrace context with
  | Some stackTrace =>
      enrichedPrompt +:+ newline +:+ newline +:+ "[Stack Trace:]" +:+ newline +:+ stackTrace
  | None => enrichedPrompt
  end.

Definition heartError : string := "// Heart AI error. Manual inspection required.".

Definition executeHeartAI (request : HeartAIRequest.t) : M HeartAIResponse.t :=
  let mode :=
    BrainAI.modeOf (HeartAIRequest.mode request) (HeartAIRequest.deviceClass request) in
  let enrichedPrompt := enrich request in
  tryCatch
    (result <- executeAISystem heart enrichedPrompt mode ;;
     let codeBlocks := extractCodeBlocks (AISystemResult.finalAnswer result) in
     ret (HeartAIResponse.mk true (AISystemResult.finalAnswer result) codeBlocks mode
            (Metrics.mk (AISystemResult.totalTimeMs result)
                        (AISystemResult.qualityScore result)
                        (BrainAI.totalDomainsOf result))
            (AISystemResult.knowledgeAlgorithmResult result)))
    (fun error =>
       ret (HeartAIResponse.mk false heartError [] mode (Metrics.mk 0 0 0)
              ("Error: " +:+ message error))).

Definition executeCodeRepair (errorMessage codeFile codeContent : string)
  : M HeartAIResponse.t :=
  let prompt :=
    "Fix this error:" +:+ newline +:+ newline +:+ "Error: " +:+ errorMessage
    +:+ newline +:+ newline +:+ "File: " +:+ codeFile +:+ newline +:+ newline
    +:+ fence +:+ newline +:+ codeContent +:+ newline +:+ fence in
  executeHeartAI
    (HeartAIRequest.mk prompt None None
       (Some (Context.mk (Some codeFile) (Some errorMessage) None))).

Definition executeCodeOptimize (codeFile codeContent goal : string)
  : M HeartAIResponse.t :=
  let prompt :=
    "Optimize for: " +:+ goal +:+ newline +:+ newline +:+ "File: " +:+ codeFile
    +:+ newline +:+ newline +:+ fence +:+ newline +:+ codeContent +:+ newline +:+ fence in
  executeHeartAI
    (HeartAIRequest.mk prompt None None (Some (Context.mk (Some codeFile) None None))).

End HeartAI.

(* ===================================================================== *)
(** * Vocabulary of the statements *)
(* ===================================================================== *)

Module Spec.
Import Types Store Eff Async Js Algorithms AutoRouter Handler.
Local Open Scope float_scope.

(** ** Knowledge algorithms *)

(** The algorithm of a variant, whatever the [aiType] field of its input. *)
Definition algorithm (t : AIType) : KnowledgeAlgorithmInput.t -> KnowledgeAlgorithmOutput.t :=
  match t with
  | brain => brainKnowledgeAlgorithm
  | heart => heartKnowledgeAlgorithm
  | system => systemKnowledgeAlgorithm
  end.

(** The quality a variant computes for a response. *)
Definition qualityIn (t : AIType) (r : ModelResponse.t) : float :=
  match t with
  | brain => calculateResponseQuality r
  | heart => heartQuality r
  | system => systemQuality r
  end.

Definition scoresIn (t : AIType) (validResponses : list ModelResponse.t) : list Scored.t :=
  match t with
  | brain => brainScores validResponses
  | heart => heartScores validResponses
  | system => systemScores validResponses
  end.

Definition failureText (t : AIType) : string :=
  match t with
  | brain => brainFailure
  | heart => heartFailure
  | system => systemFailure
  end.

(** The [scores] array of a call after its sort, and its total. *)
Definition sortedScores (t : AIType) (input : KnowledgeAlgorithmInput.t) : list Scored.t :=
  sort byQualityDesc (scoresIn t (validResponsesOf input)).

Definition totalQuality (t : AIType) (input : KnowledgeAlgorithmInput.t) : float :=
  totalQualityOf (sortedScores t input).

(** [Math.abs(model1 + model2 + model3 - 1) <= 1e-9] *)
Definition sumsToOne (w : Weights.t) : bool :=
  abs (Weights.model1 w + Weights.model2 w + Weights.model3 w - 1) <=? 1e-9.

(** Strictly positive binary64 values, finite or infinite. *)
Definition positiveSF (x : spec_float) : Prop :=
  match x with
  | S754_finite false _ _ | S754_infinity false => True
  | _ => False
  end.

Definition emin64 : Z := SpecFloat.emin prec emax.

(** *** The values a quality can take

    A quality is 0.5 plus a subset of a few fixed bonuses, capped at 1, so
    it ranges over a finite set of floats. *)

Definition qualityOfFeatures (inBand atLeast50 structured clean timely : bool) : float :=
  let score := 0.5 in
  let score :=
    if inBand then score + 0.2 else if atLeast50 then score + 0.1 else score in
  let score := if structured then score + 0.1 else score in
  let score := if clean then score + 0.1 else score in
  let score := if timely then score + 0.1 else score in
  Math.min 1 score.

Definition heartOfFeatures (q : float) (fenced declares imports steps : bool) : float :=
  let quality := q in
  let quality := if fenced then quality + 0.15 else quality in
  let quality := if declares then quality + 0.1 else quality in
  let quality := if imports then quality + 0.05 else quality in
  let quality := if steps then quality + 0.05 else quality in
  Math.min 1 quality.

Definition systemOfFeatures (q : float) (numbers severity advice : bool) : float :=
  let quality := q in
  let quality := if numbers then quality + 0.1 else quality in
  let quality := if severity then quality + 0.1 else quality in
  let quality := if advice then quality + 0.1 else quality in
  Math.min 1 quality.

Fixpoint nub (xs : list float) : list float :=
  match xs with
  | [] => []
  | x :: xs' => x :: List.filter (fun y => negb (PrimFloat.Leibniz.eqb x y)) (nub xs')
  end.

Definition bools : list bool := [true; false].

Definition baseValues : list float :=
  Eval vm_compute in
    nub (List.flat_map (fun a => List.flat_map (fun b => List.flat_map (fun c =>
         List.flat_map (fun d => List.map (qualityOfFeatures a b c d) bools)
         bools) bools) bools) bools).

Definition qualityValues : list float :=
  Eval vm_compute in
    nub (baseValues
         ++ List.flat_map (fun q => List.flat_map (fun a => List.flat_map (fun b =>
              List.flat_map (fun c => List.map (heartOfFeatures q a b c) bools)
              bools) bools) bools) baseValues
         ++ List.flat_map (fun q => List.flat_map (fun a => List.flat_map (fun b =>
              List.map (systemOfFeatures q a b) bools) bools) bools) baseValues).

Definition isQualityValue (x : float) : bool :=
  existsb (PrimFloat.Leibniz.eqb x) qualityValues.

(** *** The weight computation on (slot, quality) pairs *)

Definition pairOf (s : Scored.t) : Slot * float :=
  (ModelResponse.modelSlot (Scored.response s), Scored.quality s).

Definition byPairDesc (a b : Slot * float) : float := snd b - snd a.

Definition totalOfPairs (l : list (Slot * float)) : float :=
  fold_left (fun sum p => sum + snd p) l 0.

Definition weightsOfPairs (l : list (Slot * float)) : Weights.t :=
  let total := totalOfPairs l in
  fold_left
    (fun weights p =>
       setWeight weights (fst p) (if 0 <? total then snd p / total else 0))
    l (Weights.mk 0 0 0).

(** The (slot, quality) pairs of the valid responses of a call. *)
Definition pairsIn (t : AIType) (input : KnowledgeAlgorithmInput.t) : list (Slot * float) :=
  List.map (fun r => (ModelResponse.modelSlot r, qualityIn t r)) (validResponsesOf input).

(** What the claim on contribution weights asks of a list of valid
    (slot, quality) pairs. *)
Definition checkPairs (l : list (Slot * float)) : bool :=
  let sorted := sort byPairDesc l in
  let total := totalOfPairs sorted in
  let w := weightsOfPairs sorted in
  (0 <? total)
  && sumsToOne w
  && forallb (fun p => PrimFloat.Leibniz.eqb (getWeight w (fst p)) (snd p / total)) l
  && forallb (fun s => existsb (fun p => bool_decide (fst p = s)) l
                       || PrimFloat.Leibniz.eqb (getWeight w s) 0)
             [slot1; slot2; slot3].

(** ** Keyword scoring: the reference definition *)

Definition headIsWord (s : string) : bool :=
  match s with String c _ => isWordChar c | "" => false end.

(** The maximal runs of word characters of a string. *)
Fixpoint wordRuns (s : string) : list string :=
  match s with
  | "" => []
  | String c s' =>
      if isWordChar c then
        if headIsWord s' then
          match wordRuns s' with
          | t :: ts => String c t :: ts
          | [] => [String c ""]
          end
        else String c "" :: wordRuns s'
      else wordRuns s'
  end.

Definition tokensOf (lowered : string) : list string :=
  List.filter (fun t => (2 <? String.length t)%nat) (wordRuns lowered).

Definition keywordPoints (lowered : string) (tokens : list string) (keyword : string) : nat :=
  let kw := toLowerCase keyword in
  if includes lowered kw then 2
  else if existsb (fun t => includes kw t || includes t kw) tokens then 1
  else 0.

(** The reference definition as the specification words it: the label
    counts whenever its lower-cased form occurs in the lowered prompt. *)
Definition referenceScore (prompt : string) (keywords : list string)
  (label : option string) : nat :=
  let lowered := toLowerCase prompt in
  let tokens := tokensOf lowered in
  (match label with
   | Some l => if includes lowered (toLowerCase l) then 5 else 0
   | None => 0
   end
   + list_sum (List.map (keywordPoints lowered tokens) keywords))%nat.

(** The same with the label counted only when it is a non-empty string. *)
Definition referenceScoreNonEmptyLabel (prompt : string) (keywords : list string)
  (label : option string) : nat :=
  let lowered := toLowerCase prompt in
  let tokens := tokensOf lowered in
  (match label with
   | Some l => if truthy l && includes lowered (toLowerCase l) then 5 else 0
   | None => 0
   end
   + list_sum (List.map (keywordPoints lowered tokens) keywords))%nat.

(** *** The loop of [scoreByKeywords], taken apart *)

(** One step of the loop over the keywords. *)
Definition step (promptLower : string) (words : list string) (score : nat)
  (keyword : string) : nat :=
  let kwLower := toLowerCase keyword in
  if includes promptLower kwLower then (score + 2)%nat
  else if existsb (fun w => includes w kwLower || includes kwLower w) words
  then (score + 1)%nat
  else score.

(** The [words] of a call. *)
Definition wordsOf (prompt : string) : list string :=
  List.filter (fun w => (2 <? String.length w)%nat)
              (split isNonWordChar (toLowerCase prompt)).

(** The score before the loop. *)
Definition labelPoints (prompt : string) (label : option string) : nat :=
  match label with
  | Some label =>
      if truthy label && includes (toLowerCase prompt) (toLowerCase label)
      then 5%nat else 0%nat
  | None => 0%nat
  end.

(** ** Routing *)

(** No item is directly followed by one the comparator puts before it. *)
Fixpoint locallySorted {A} (cmp : A -> A -> float) (l : list A) : Prop :=
  match l with
  | a :: (b :: _) as l' => (0 <? cmp a b) = false /\ locallySorted cmp l'
  | _ => True
  end.

(** The order of the binary64 values other than NaN, read off their
    representation: the sign class first, then the exponent, then the
    mantissa, the last two reversed below zero. *)
Definition rank (x : spec_float) : Z * Z * Z :=
  match x with
  | S754_nan => (0, 0, 0)
  | S754_zero _ => (0, 0, 0)
  | S754_infinity true => (-2, 0, 0)
  | S754_infinity false => (2, 0, 0)
  | S754_finite true m e => (-1, - e, - Zpos m)
  | S754_finite false m e => (1, e, Zpos m)
  end%Z.

Definition rankLt (a b : Z * Z * Z) : Prop :=
  let '(a1, a2, a3) := a in
  let '(b1, b2, b3) := b in
  (a1 < b1 \/ a1 = b1 /\ (a2 < b2 \/ a2 = b2 /\ a3 < b3))%Z.

Definition rankLe (a b : Z * Z * Z) : Prop :=
  let '(a1, a2, a3) := a in
  let '(b1, b2, b3) := b in
  (a1 < b1 \/ a1 = b1 /\ (a2 < b2 \/ a2 = b2 /\ a3 <= b3))%Z.

(** The cached snapshot: the three arrays and the label indices. *)
Definition snapshot (c : Cache.t)
  : LabelIndex.t * list AINode.t * list AIStack.t * list AIDomain.t :=
  (Cache.labelIndex c, Cache.allNodes c, Cache.allStacks c, Cache.allDomains c).

(** The world after a call within the window: one more clock reading. *)
Definition tick (w : World.t) : World.t :=
  World.mk (World.router w) (World.handler w) (S (World.clock w)) (World.executed w).

(** ** The entry point *)

(** [total c P]: from every world and in every environment [c] returns a
    value that satisfies [P], and leaves the model configuration cache as
    it found it. *)
Definition total {A} (c : M A) (P : A -> Prop) : Prop :=
  forall env w, exists a w',
    c env w = (Returned a, w') /\ World.handler w' = World.handler w /\ P a.


(** No configuration row is cached for a slot of the type. *)
Definition noConfigRows (h : ConfigCache.t) (aiType : AIType) (slot : Slot) : Prop :=
  default [] (ConfigCache.modelConfigCache h !! configKey aiType slot) = [].

Definition wellFormed (aiType : AIType) (prompt : string) (mode : DeviceMode)
  (r : AISystemResult.t) : Prop :=
  let knowledge :=
    runKnowledgeAlgorithm
      (KnowledgeAlgorithmInput.mk aiType prompt
         [AISystemResult.model1Response r; AISystemResult.model2Response r;
          AISystemResult.model3Response r]) in
  AISystemResult.aiType r = aiType
  /\ AISystemResult.deviceMode r = mode
  /\ AISystemResult.prompt r = prompt
  /\ ModelResponse.modelSlot (AISystemResult.model1Response r) = slot1
  /\ ModelResponse.modelSlot (AISystemResult.model2Response r) = slot2
  /\ ModelResponse.modelSlot (AISystemResult.model3Response r) = slot3
  /\ AISystemResult.finalAnswer r = KnowledgeAlgorithmOutput.fusedAnswer knowledge
  /\ AISystemResult.qualityScore r = KnowledgeAlgorithmOutput.qualityScore knowledge
  /\ AISystemResult.finalAnswer r <> "".

End Spec.

(* ===================================================================== *)
(** * Concrete inputs *)
(* ===================================================================== *)

Module Examples.
Import Types Store Eff Async Js Algorithms AutoRouter Handler.
Local Open Scope float_scope.

Definition noRouting : RoutingResult.t :=
  RoutingResult.mk standard [] [] [] [] 0 0 [].

Definition reply (slot : Slot) (text : string) (ok : bool) (ms : float) : ModelResponse.t :=
  ModelResponse.mk slot "provider" "model" text ok ms None noRouting.

(** Three slots, none valid: an empty text, a failure, white space only. *)
Definition allFailed : KnowledgeAlgorithmInput.t :=
  KnowledgeAlgorithmInput.mk brain "q"
    [reply slot1 "" true 600; reply slot2 "timeout" false 30000; reply slot3 "   " true 700].

(** One valid response per slot. *)
Definition threeValid : KnowledgeAlgorithmInput.t :=
  KnowledgeAlgorithmInput.mk brain "q"
    [reply slot1 "Use indexes on foreign keys. It will be much faster that way!" true 600;
     reply slot2 "Use indexes on foreign keys for speed" true 100;
     reply slot3 "Completely unrelated text about weather" true 900].

(** Two valid responses that both carry slot 1. *)
Definition twoOnSlot1 : KnowledgeAlgorithmInput.t :=
  KnowledgeAlgorithmInput.mk brain "q"
    [reply slot1 "Use indexes on foreign keys" true 600;
     reply slot1 "Use indexes on foreign keys for speed" true 100].

Definition nodeRow (id : string) (t : AIType) (slot : option Slot) (label : string)
  (kws : list string) (priority : float) : NodeRow.t :=
  NodeRow.mk id t slot label label None (Some kws) priority true.

Definition stackRow (id nodeId : string) (t : AIType) (label : string)
  (kws : list string) (priority : float) : StackRow.t :=
  StackRow.mk id nodeId t label label None (Some kws) priority true.

Definition domainRow (id stackId nodeId : string) (t : AIType) (name : string)
  (kws : list string) (priority : float) : DomainRow.t :=
  DomainRow.mk id stackId nodeId t name None (Some kws) (Some "Be precise.") priority true.

Definition configRow (t : AIType) (slot : Slot) (provider : string) : ConfigRow.t :=
  ConfigRow.mk "cfg" t slot provider "model" true false 1 1024 0 30000 true.

Definition someNodes : list NodeRow.t :=
  [nodeRow "n1" brain (Some slot1) "Database" ["sql"; "index"] 10;
   nodeRow "n2" brain None "Weather" ["rain"] 5].

Definition someStacks : list StackRow.t :=
  [stackRow "s1" "n1" brain "Postgres" ["postgres"] 1].

Definition someDomains : list DomainRow.t :=
  [domainRow "d1" "s1" "n1" brain "Indexing" ["index"; "btree"] 3].

(** A clock that starts in November 2023 and advances a second a reading. *)
Definition clock (n : nat) : float := 1700000000000 + ofNat n * 1000.

(** A healthy store with all three model slots of [brain] configured. *)
Definition healthy : Env.t :=
  Env.mk clock
    (fun _ => Returned someNodes)
    (fun _ => Returned someStacks)
    (fun _ => Returned someDomains)
    (fun _ _ _ _ => Returned [])
    (fun _ => Returned [configRow brain slot1 "a"; configRow brain slot2 "b";
                        configRow brain slot3 "c"])
    (fun _ _ => Returned tt)
    placeholder.

(** A store in which slot 3 of [brain] has no configuration row. *)
Definition slot3Unconfigured : Env.t :=
  Env.mk clock
    (fun _ => Returned someNodes)
    (fun _ => Returned someStacks)
    (fun _ => Returned someDomains)
    (fun _ _ _ _ => Returned [])
    (fun _ => Returned [configRow brain slot1 "a"; configRow brain slot2 "b"])
    (fun _ _ => Returned tt)
    placeholder.

(** A store that answers the first three statements and then loses the
    stacks table, read by a clock on which every reading is 61 seconds
    after the one before. *)
Definition moreNodes : list NodeRow.t :=
  someNodes ++ [nodeRow "n3" brain (Some slot2) "Billing" ["invoice"] 7].

Definition slowClock (n : nat) : float := 1700000000000 + ofNat n * 61000.

Definition flaky : Env.t :=
  Env.mk slowClock
    (fun n => if (n <? 3)%nat then Returned someNodes else Returned moreNodes)
    (fun n => if (n <? 3)%nat then Returned someStacks
              else Thrown (mkError "connection reset"))
    (fun _ => Returned someDomains)
    (fun _ _ _ _ => Returned [])
    (fun _ => Returned [])
    (fun _ _ => Returned tt)
    placeholder.

(** The world after a first, successful refresh against [flaky]. *)
Definition refreshedOnce : World.t := snd (refreshCache flaky World.initial).

(** A cache whose slot-2 index holds no node, with two [brain] nodes. *)
Definition fallbackCache : Cache.t :=
  buildLabelIndex
    (Cache.mk LabelIndex.empty (List.map nodeOfRow someNodes) [] [] 0).

(** Five [brain] nodes without a slot, one of them with a NaN priority: on a
    prompt that matches no label their scores are 2, NaN, 5, 3 and 1. *)
Definition unrankedNodes : list NodeRow.t :=
  [nodeRow "a" brain None "Alpha" [] 200;
   nodeRow "b" brain None "Beta" [] nan;
   nodeRow "c" brain None "Gamma" [] 500;
   nodeRow "d" brain None "Delta" [] 300;
   nodeRow "e" brain None "Epsilon" [] 100].

Definition unrankedCache : Cache.t :=
  buildLabelIndex
    (Cache.mk LabelIndex.empty (List.map nodeOfRow unrankedNodes) [] [] 0).

End Examples.

(* ===================================================================== *)
(** * Vocabulary of the further properties *)
(* ===================================================================== *)

Module Props.
Import Types Store Eff Async Js Algorithms AutoRouter Handler.

(** Every list of the index sits under the key its members carry. *)
Definition keyedIndex (idx : LabelIndex.t) : Prop :=
  (forall nodeId stacks,
      LabelIndex.stacks idx !! nodeId = Some stacks ->
      forall s, In s stacks -> AIStack.nodeId s = nodeId)
  /\ (forall stackId domains,
         LabelIndex.domains idx !! stackId = Some domains ->
         forall d, In d domains -> AIDomain.stackId d = stackId)
  /\ (forall slot nodes,
         LabelIndex.nodesByModel idx !! slot = Some nodes ->
         forall n, In n nodes -> AINode.modelSlot n = Some slot).

(** The index is the one of the three arrays. *)
Definition indexed (c : Cache.t) : Prop :=
  Cache.labelIndex c
  = labelIndexOf (Cache.allNodes c) (Cache.allStacks c) (Cache.allDomains c).

(** A routing result of the mode, within its limits. *)
Definition withinLimits (mode : DeviceMode) (routing : RoutingResult.t) : Prop :=
  RoutingResult.mode routing = mode
  /\ (Z.of_nat (List.length (RoutingResult.nodes routing))
      <= ModeLimits.nodes (MODE_LIMITS mode))%Z
  /\ (Z.of_nat (List.length (RoutingResult.stacks routing))
      <= ModeLimits.stacks (MODE_LIMITS mode)
         * Z.of_nat (List.length (RoutingResult.nodes routing)))%Z
  /\ (Z.of_nat (List.length (RoutingResult.domains routing))
      <= ModeLimits.domains (MODE_LIMITS mode)
         * Z.of_nat (List.length (RoutingResult.stacks routing)))%Z
  /\ RoutingResult.totalDomains routing = List.length (RoutingResult.domains routing).

(** What the model client yields once [callAIModel] has caught its
    exceptions. *)
Definition replyOf (env : Env.t) (config : AIModelConfig.t) (prompt : string)
  : string * bool :=
  match Env.generate env config prompt with
  | Returned reply => reply
  | Thrown _ => ("", false)
  end.

(** The response of a model task that ran to its end: the client's reply to
    the enriched prompt, with the routing it was built from and no error. *)
Definition answered (env : Env.t) (prompt : string) (mode : DeviceMode) (slot : Slot)
  (config : AIModelConfig.t) (r : ModelResponse.t) : Prop :=
  ModelResponse.modelSlot r = slot
  /\ ModelResponse.provider r = AIModelConfig.provider config
  /\ ModelResponse.modelName r = AIModelConfig.modelName config
  /\ ModelResponse.error r = None
  /\ (ModelResponse.response r, ModelResponse.success r)
     = replyOf env config (buildContextPrompt prompt (ModelResponse.routing r))
  /\ withinLimits mode (ModelResponse.routing r).

(** The three responses of a result. *)
Definition responsesOf (r : AISystemResult.t) : list ModelResponse.t :=
  [AISystemResult.model1Response r; AISystemResult.model2Response r;
   AISystemResult.model3Response r].

(** The handler's state once [executeAISystem] has refreshed it: the call
    reads the clock and then refreshes. *)
Definition refreshed (env : Env.t) (w : World.t) : ConfigCache.t :=
  World.handler (snd (refreshModelConfig env (Spec.tick w))).

(** All three slots of the type have a configuration. *)
Definition configured (h : ConfigCache.t) (aiType : AIType) : bool :=
  match getModelConfig h aiType slot1, getModelConfig h aiType slot2,
        getModelConfig h aiType slot3 with
  | Some _, Some _, Some _ => true
  | _, _, _ => false
  end.

(** The rows of a slot. *)
Definition rowsOf (aiType : AIType) (slot : Slot) (rows : list ConfigRow.t)
  : list ConfigRow.t :=
  List.filter
    (fun row => bool_decide (ConfigRow.ai_type row = aiType /\ ConfigRow.model_slot row = slot))
    rows.

(** Strings without a back-tick, and strings of word characters. *)
Definition backtickFree (s : string) : bool :=
  forallb (fun c => negb (code c =? 96)%N) (list_ascii_of_string s).

Definition wordChars (s : string) : bool :=
  forallb isWordChar (list_ascii_of_string s).

(** A store like [Examples.healthy], with the slots of [brain] and [heart]
    configured, whose model client always fails. *)
Definition unreachable : Env.t :=
  Env.mk Examples.clock
    (fun _ => Returned Examples.someNodes)
    (fun _ => Returned Examples.someStacks)
    (fun _ => Returned Examples.someDomains)
    (fun _ _ _ _ => Returned [])
    (fun _ => Returned [Examples.configRow brain slot1 "a"; Examples.configRow brain slot2 "b";
                        Examples.configRow brain slot3 "c"; Examples.configRow heart slot1 "a";
                        Examples.configRow heart slot2 "b"; Examples.configRow heart slot3 "c"])
    (fun _ _ => Returned tt)
    (fun _ _ => Thrown (mkError "connect ETIMEDOUT")).

End Props.

(* ===================================================================== *)
(** * Facts about binary64 addition *)
(* ===================================================================== *)

Module FloatFacts.

Import Spec.

Lemma shr_1_m (mrs : shr_record) :
  (0 <= shr_m mrs)%Z -> shr_m (shr_1 mrs) = Z.div2 (shr_m mrs).
Proof.
  destruct mrs as [m r s]; simpl.
  destruct m as [|[p|p|]|p]; simpl; intros; try reflexivity; lia.
Qed.

Lemma iter_shr_1_m (p : positive) :
  forall mrs, (0 <= shr_m mrs)%Z ->
    shr_m (SpecFloat.iter_pos shr_1 p mrs) = (shr_m mrs / 2 ^ Zpos p)%Z.
Proof.
  induction p as [p IH|p IH|]; intros mrs Hm; simpl SpecFloat.iter_pos.
  - assert (H1 : (0 <= shr_m (shr_1 mrs))%Z).
    { rewrite shr_1_m by assumption. rewrite Z.div2_div. apply Z.div_pos; lia. }
    assert (H2 : (0 <= shr_m (SpecFloat.iter_pos shr_1 p (shr_1 mrs)))%Z).
    { rewrite IH by assumption. apply Z.div_pos; [assumption|apply Z.pow_pos_nonneg; lia]. }
    rewrite IH by assumption. rewrite IH by assumption.
    rewrite shr_1_m by assumption. rewrite Z.div2_div.
    rewrite !Z.div_div by (try apply Z.pow_pos_nonneg; lia).
    f_equal.
    replace (2 ^ Zpos p~1)%Z with (2 ^ (1 + Zpos p + Zpos p))%Z by (f_equal; lia).
    rewrite !Z.pow_add_r by lia. lia.
  - assert (H2 : (0 <= shr_m (SpecFloat.iter_pos shr_1 p mrs))%Z).
    { rewrite IH by assumption. apply Z.div_pos; [assumption|apply Z.pow_pos_nonneg; lia]. }
    rewrite IH by assumption. rewrite IH by assumption.
    rewrite !Z.div_div by (try apply Z.pow_pos_nonneg; lia).
    f_equal.
    replace (2 ^ Zpos p~0)%Z with (2 ^ (Zpos p + Zpos p))%Z by (f_equal; lia).
    rewrite !Z.pow_add_r by lia. lia.
  - rewrite shr_1_m by assumption. rewrite Z.div2_div. reflexivity.
Qed.

Lemma digits2_pos_lower (m : positive) :
  (2 ^ (Zpos (digits2_pos m) - 1) <= Zpos m)%Z.
Proof.
  induction m as [m IH|m IH|]; simpl digits2_pos.
  - rewrite Pos2Z.inj_succ.
    replace (Z.succ (Zpos (digits2_pos m)) - 1)%Z with (1 + (Zpos (digits2_pos m) - 1))%Z by lia.
    rewrite Z.pow_add_r by lia. lia.
  - rewrite Pos2Z.inj_succ.
    replace (Z.succ (Zpos (digits2_pos m)) - 1)%Z with (1 + (Zpos (digits2_pos m) - 1))%Z by lia.
    rewrite Z.pow_add_r by lia. lia.
  - simpl. lia.
Qed.

(** Rounding a positive mantissa to the format never yields zero, provided
    the exponent is not below the least one. *)
Lemma shr_fexp_positive (m : positive) (e : Z) :
  (emin64 <= e)%Z ->
  exists m', shr_m (fst (shr_fexp prec emax (Zpos m) e loc_Exact)) = Zpos m'
             /\ (emin64 <= snd (shr_fexp prec emax (Zpos m) e loc_Exact))%Z.
Proof.
  intros He. unfold shr_fexp, shr. simpl Zdigits2. simpl shr_record_of_loc.
  set (d := Zpos (digits2_pos m)).
  destruct (fexp prec emax (d + e) - e)%Z as [|p|p] eqn:Hn; simpl fst; simpl snd; simpl shr_m.
  - eauto.
  - rewrite iter_shr_1_m by (simpl; lia). simpl shr_m.
    assert (Hp : (Zpos p = d - prec)%Z).
    { unfold fexp in Hn. fold emin64 in Hn. lia. }
    assert (Hlow : (2 ^ (d - 1) <= Zpos m)%Z) by apply digits2_pos_lower.
    assert (Hq : (1 <= Zpos m / 2 ^ Zpos p)%Z).
    { apply Z.div_le_lower_bound; [apply Z.pow_pos_nonneg; lia|].
      rewrite Z.mul_1_r. etransitivity; [|exact Hlow].
      apply Z.pow_le_mono_r; [lia|]. rewrite Hp. unfold prec. lia. }
    destruct (Zpos m / 2 ^ Zpos p)%Z as [|q|q] eqn:Hdiv; try lia.
    exists q. split; [reflexivity|lia].
  - eauto.
Qed.

Lemma binary_round_aux_positive (m : positive) (e : Z) :
  (emin64 <= e)%Z ->
  positiveSF (binary_round_aux prec emax false (Zpos m) e loc_Exact).
Proof.
  intros He. unfold binary_round_aux.
  destruct (shr_fexp_positive m e He) as (m1 & Hm1 & He1).
  destruct (shr_fexp prec emax (Zpos m) e loc_Exact) as [mrs' e'].
  simpl in Hm1, He1.
  assert (Hr : exists m2, round_nearest_even (shr_m mrs') (loc_of_shr_record mrs') = Zpos m2).
  { rewrite Hm1. unfold round_nearest_even.
    destruct (loc_of_shr_record mrs') as [|[]]; try destruct (Z.even _); simpl; eauto. }
  destruct Hr as (m2 & Hm2). rewrite Hm2.
  destruct (shr_fexp_positive m2 e' He1) as (m3 & Hm3 & _).
  destruct (shr_fexp prec emax (Zpos m2) e' loc_Exact) as [mrs'' e''].
  simpl in Hm3. rewrite Hm3.
  destruct (e'' <=? emax - prec)%Z; exact I.
Qed.

Lemma binary_round_positive (m : positive) (e : Z) :
  (emin64 <= e)%Z -> positiveSF (binary_round prec emax false m e).
Proof.
  intros He. unfold binary_round, shl_align.
  destruct (fexp prec emax (Zpos (digits2_pos m) + e) - e)%Z eqn:Hd;
    try (apply binary_round_aux_positive; exact He).
  apply binary_round_aux_positive.
  unfold fexp. fold emin64. lia.
Qed.

Lemma valid_exponent (s : bool) (m : positive) (e : Z) :
  valid_binary (S754_finite s m e) = true -> (emin64 <= e)%Z.
Proof.
  simpl. unfold bounded, canonical_mantissa, fexp. fold emin64.
  intros H. apply andb_prop in H as [H _]. apply Z.eqb_eq in H. lia.
Qed.

Lemma SFadd_positive (x y : spec_float) :
  valid_binary x = true -> valid_binary y = true ->
  positiveSF x -> positiveSF y -> positiveSF (SFadd prec emax x y).
Proof.
  intros Vx Vy Px Py.
  destruct x as [sx|sx| |sx mx ex]; try destruct sx; try contradiction;
  destruct y as [sy|sy| |sy my ey]; try destruct sy; try contradiction;
    try exact I.
  unfold SFadd. simpl cond_Zopp.
  apply valid_exponent in Vx, Vy.
  apply binary_round_positive. lia.
Qed.

(** [0 < x] on primitive floats. *)
Lemma ltb_0_positive (x : float) :
  (0 <? x)%float = true <-> positiveSF (Prim2SF x).
Proof.
  rewrite FloatAxioms.ltb_spec. change (Prim2SF 0) with (S754_zero false).
  unfold SFltb. destruct (Prim2SF x) as [s|s| |s m e]; simpl;
    try destruct s; simpl; intuition congruence.
Qed.

Lemma add_positive (x y : float) :
  (0 <? x)%float = true -> (0 <? y)%float = true -> (0 <? x + y)%float = true.
Proof.
  rewrite !ltb_0_positive, FloatAxioms.add_spec. apply SFadd_positive; apply Prim2SF_valid.
Qed.

Lemma add_zero_l (y : float) :
  (0 <? y)%float = true -> (0 + y)%float = y.
Proof.
  intros Hy. apply ltb_0_positive in Hy. apply Prim2SF_inj.
  rewrite FloatAxioms.add_spec. change (Prim2SF 0) with (S754_zero false).
  destruct (Prim2SF y) as [s|s| |s m e]; try destruct s; try contradiction; reflexivity.
Qed.

End FloatFacts.

(* ===================================================================== *)
(** * Lists and the sort *)
(* ===================================================================== *)

Module SortFacts.
Import Js.

Lemma insertBy_length {A} (cmp : A -> A -> float) (x : A) (l : list A) :
  List.length (insertBy cmp x l) = S (List.length l).
Proof.
  induction l as [|y l IH]; simpl; [reflexivity|].
  destruct (0 <? cmp x y)%float; simpl; [rewrite IH|]; reflexivity.
Qed.

Lemma sort_length {A} (cmp : A -> A -> float) (l : list A) :
  List.length (sort cmp l) = List.length l.
Proof.
  induction l as [|x l IH]; simpl; [reflexivity|].
  unfold sort in *. simpl. rewrite insertBy_length, IH. reflexivity.
Qed.

Lemma insertBy_perm {A} (cmp : A -> A -> float) (x : A) (l : list A) :
  Permutation (insertBy cmp x l) (x :: l).
Proof.
  induction l as [|y l IH]; simpl; [reflexivity|].
  destruct (0 <? cmp x y)%float; [|reflexivity].
  rewrite IH. apply perm_swap.
Qed.

Lemma sort_perm {A} (cmp : A -> A -> float) (l : list A) :
  Permutation (sort cmp l) l.
Proof.
  induction l as [|x l IH]; [reflexivity|].
  unfold sort in *. simpl. rewrite insertBy_perm. constructor. exact IH.
Qed.

Lemma sort_In {A} (cmp : A -> A -> float) (l : list A) (x : A) :
  In x (sort cmp l) <-> In x l.
Proof.
  split; apply Permutation_in; [|symmetry]; apply sort_perm.
Qed.

Lemma sort_nil_inv {A} (cmp : A -> A -> float) (l : list A) :
  sort cmp l = [] -> l = [].
Proof.
  intros H. apply (f_equal (@List.length A)) in H.
  rewrite sort_length in H. destruct l; [reflexivity|discriminate].
Qed.

(** The sort commutes with a projection the comparator factors through. *)
Lemma insertBy_map {A B} (f : A -> B) (cmpA : A -> A -> float) (cmpB : B -> B -> float) :
  (forall a b, cmpA a b = cmpB (f a) (f b)) ->
  forall x l, List.map f (insertBy cmpA x l) = insertBy cmpB (f x) (List.map f l).
Proof.
  intros Hc x l. induction l as [|y l IH]; simpl; [reflexivity|].
  rewrite <- Hc. destruct (0 <? cmpA x y)%float; simpl; [rewrite IH|]; reflexivity.
Qed.

Lemma sort_map {A B} (f : A -> B) (cmpA : A -> A -> float) (cmpB : B -> B -> float) :
  (forall a b, cmpA a b = cmpB (f a) (f b)) ->
  forall l, List.map f (sort cmpA l) = sort cmpB (List.map f l).
Proof.
  intros Hc l. induction l as [|x l IH]; [reflexivity|].
  unfold sort in *. simpl. rewrite (insertBy_map f cmpA cmpB Hc), IH. reflexivity.
Qed.

Lemma slice0_length_le {A} (n : Z) (l : list A) :
  (0 <= n)%Z -> (Z.of_nat (List.length (slice0 n l)) <= n)%Z.
Proof.
  intros Hn. unfold slice0.
  destruct (n <? 0)%Z eqn:E; [apply Z.ltb_lt in E; lia|].
  rewrite length_firstn. lia.
Qed.

Lemma slice0_firstn {A} (n : Z) (l : list A) :
  (0 <= n)%Z -> slice0 n l = firstn (Z.to_nat n) l.
Proof.
  intros Hn. unfold slice0.
  destruct (n <? 0)%Z eqn:E; [apply Z.ltb_lt in E; lia|reflexivity].
Qed.

Lemma flat_map_length_le {A B} (f : A -> list B) (k : Z) (l : list A) :
  (forall a, (Z.of_nat (List.length (f a)) <= k)%Z) ->
  (Z.of_nat (List.length (List.flat_map f l)) <= k * Z.of_nat (List.length l))%Z.
Proof.
  intros Hf. induction l as [|a l IH]; simpl List.flat_map; simpl List.length; [lia|].
  rewrite length_app. specialize (Hf a). lia.
Qed.

End SortFacts.

(* ===================================================================== *)
(** * The knowledge algorithms *)
(* ===================================================================== *)

Module AlgorithmFacts.
Import Types Js Algorithms Spec SortFacts.
Local Open Scope float_scope.

Lemma truthy_true (s : string) : truthy s = true <-> s <> "".
Proof. destruct s; simpl; split; congruence. Qed.

Lemma trim_nonempty (s : string) : trim s <> "" -> s <> "".
Proof. intros H E. apply H. rewrite E. reflexivity. Qed.

Lemma isValid_spec (r : ModelResponse.t) :
  isValid r = true
  <-> ModelResponse.success r = true /\ trim (ModelResponse.response r) <> "".
Proof.
  unfold isValid. rewrite andb_true_iff, truthy_true. reflexivity.
Qed.

Lemma scoresIn_map (t : AIType) (rs : list ModelResponse.t) :
  scoresIn t rs = List.map (fun r => Scored.mk r (qualityIn t r)) rs.
Proof. destruct t; reflexivity. Qed.

(** Without a valid response the algorithms take their early return. *)
Lemma algorithm_no_valid (t : AIType) (input : KnowledgeAlgorithmInput.t) :
  validResponsesOf input = [] ->
  algorithm t input = noValidResponses (failureText t).
Proof.
  intros H. destruct t; simpl;
    unfold brainKnowledgeAlgorithm, heartKnowledgeAlgorithm, systemKnowledgeAlgorithm;
    rewrite H; reflexivity.
Qed.

(** With one, the output is built from the head of the sorted scores. *)
Lemma algorithm_valid (t : AIType) (input : KnowledgeAlgorithmInput.t) :
  validResponsesOf input <> [] ->
  exists primary rest,
    sortedScores t input = primary :: rest
    /\ KnowledgeAlgorithmOutput.fusedAnswer (algorithm t input)
       = ModelResponse.response (Scored.response primary)
    /\ KnowledgeAlgorithmOutput.selectedPrimary (algorithm t input)
       = ModelResponse.modelSlot (Scored.response primary)
    /\ KnowledgeAlgorithmOutput.contributionWeights (algorithm t input)
       = weightsOf (sortedScores t input).
Proof.
  intros Hv.
  assert (Hs : sortedScores t input <> []).
  { intros E. apply sort_nil_inv in E. rewrite scoresIn_map in E.
    apply map_eq_nil in E. contradiction. }
  destruct (sortedScores t input) as [|primary rest] eqn:Es; [contradiction|].
  exists primary, rest. split; [reflexivity|].
  assert (Hl : (List.length (validResponsesOf input) =? 0)%nat = false).
  { destruct (validResponsesOf input); [contradiction|reflexivity]. }
  unfold sortedScores in Es.
  destruct t; simpl in Es |- *;
    unfold brainKnowledgeAlgorithm, heartKnowledgeAlgorithm, systemKnowledgeAlgorithm;
    rewrite Hl, Es; simpl; auto.
Qed.

End AlgorithmFacts.

(* ===================================================================== *)
(** * Claims *)
(* ===================================================================== *)

Import Types Store Eff Async Js Algorithms AutoRouter Handler Spec.

(** C1.  A knowledge algorithm (brain, heart or system) called on a list
    that holds no response with [success = true] and a text that is
    non-empty after trimming returns - the functions are total, nothing is
    raised - the canned failure answer of its variant, which is not the
    empty string, with [qualityScore = 0] and the three contribution
    weights equal to 0. *)
Theorem fusion_degrades_without_valid_response
  (t : AIType) (input : KnowledgeAlgorithmInput.t) :
  (forall r, In r (KnowledgeAlgorithmInput.responses input) ->
             ~ (ModelResponse.success r = true
                /\ trim (ModelResponse.response r) <> "")) ->
  KnowledgeAlgorithmOutput.qualityScore (algorithm t input) = 0%float
  /\ KnowledgeAlgorithmOutput.fusedAnswer (algorithm t input) = failureText t
  /\ KnowledgeAlgorithmOutput.fusedAnswer (algorithm t input) <> ""
  /\ KnowledgeAlgorithmOutput.contributionWeights (algorithm t input)
     = Weights.mk 0 0 0.
Proof.
  intros Hnone.
  assert (Hv : validResponsesOf input = []).
  { unfold validResponsesOf.
    induction (KnowledgeAlgorithmInput.responses input) as [|r rs IH]; [reflexivity|].
    simpl. destruct (isValid r) eqn:Er.
    - exfalso. apply (Hnone r); [left; reflexivity|].
      apply AlgorithmFacts.isValid_spec. exact Er.
    - apply IH. intros r' Hr'. apply Hnone. right. exact Hr'. }
  rewrite (AlgorithmFacts.algorithm_no_valid t input Hv). simpl.
  repeat split. destruct t; discriminate.
Qed.

Lemma fusion_degrades_witness :
  KnowledgeAlgorithmOutput.qualityScore (heartKnowledgeAlgorithm Examples.allFailed) = 0%float
  /\ KnowledgeAlgorithmOutput.fusedAnswer (heartKnowledgeAlgorithm Examples.allFailed)
     = "// Unable to generate code fix. Please provide more details."
  /\ KnowledgeAlgorithmOutput.fusedAnswer (heartKnowledgeAlgorithm Examples.allFailed) <> ""
  /\ KnowledgeAlgorithmOutput.contributionWeights (heartKnowledgeAlgorithm Examples.allFailed)
     = Weights.mk 0 0 0.
Proof.
  apply (fusion_degrades_without_valid_response heart Examples.allFailed).
  intros r [E|[E|[E|[]]]] [Hs Ht]; subst r; vm_compute in Hs, Ht; congruence.
Defined.

(* ===================================================================== *)
(** * Quality values *)
(* ===================================================================== *)

Module QualityFacts.
Import Types Js Algorithms Spec SortFacts AlgorithmFacts FloatFacts.
Local Open Scope float_scope.

(** The quality of a successful response with a text is determined by five
    yes/no features of the response. *)
Lemma calculateResponseQuality_features (r : ModelResponse.t) :
  ModelResponse.success r = true -> ModelResponse.response r <> "" ->
  exists a b c d e, calculateResponseQuality r = qualityOfFeatures a b c d e.
Proof.
  intros Hs Ht. apply truthy_true in Ht.
  unfold calculateResponseQuality. rewrite Hs, Ht. simpl negb. simpl orb. cbv zeta.
  eexists _, _, _, _, _. unfold qualityOfFeatures. reflexivity.
Qed.

Lemma calculateResponseQuality_zero (r : ModelResponse.t) :
  ModelResponse.success r = false \/ ModelResponse.response r = "" ->
  calculateResponseQuality r = 0.
Proof.
  intros [H|H]; unfold calculateResponseQuality; rewrite H;
    [|rewrite orb_comm]; reflexivity.
Qed.

Lemma isQualityValue_In (x : float) : isQualityValue x = true -> In x qualityValues.
Proof.
  unfold isQualityValue. rewrite existsb_exists. intros (y & Hy & E).
  apply FloatAxioms.Leibniz.eqb_spec in E. subst. exact Hy.
Qed.

Lemma base_isQualityValue (a b c d e : bool) :
  isQualityValue (qualityOfFeatures a b c d e) = true.
Proof. destruct a, b, c, d, e; vm_compute; reflexivity. Qed.

Lemma heart_isQualityValue (a b c d e f g h i : bool) :
  isQualityValue (heartOfFeatures (qualityOfFeatures a b c d e) f g h i) = true.
Proof. destruct a, b, c, d, e, f, g, h, i; vm_compute; reflexivity. Qed.

Lemma system_isQualityValue (a b c d e f g h : bool) :
  isQualityValue (systemOfFeatures (qualityOfFeatures a b c d e) f g h) = true.
Proof. destruct a, b, c, d, e, f, g, h; vm_compute; reflexivity. Qed.

(** Every variant scores a valid response with one of the quality values. *)
Lemma qualityIn_value (t : AIType) (r : ModelResponse.t) :
  isValid r = true -> In (qualityIn t r) qualityValues.
Proof.
  intros Hv. apply isValid_spec in Hv as [Hs Ht]. apply trim_nonempty in Ht.
  destruct (calculateResponseQuality_features r Hs Ht) as (a & b & c & d & e & Eq).
  apply isQualityValue_In. destruct t; simpl.
  - rewrite Eq. apply base_isQualityValue.
  - unfold heartQuality. rewrite Eq. cbv zeta. apply heart_isQualityValue.
  - unfold systemQuality. rewrite Eq. cbv zeta. apply system_isQualityValue.
Qed.

Lemma qualityValues_positive (x : float) :
  In x qualityValues -> (0 <? x) = true.
Proof.
  assert (H : forallb (fun x => 0 <? x) qualityValues = true) by (vm_compute; reflexivity).
  rewrite forallb_forall in H. apply H.
Qed.

(** A sum of positive floats that starts from a non-negative total is
    positive as soon as one term is added. *)
Lemma fold_add_positive {A} (f : A -> float) (l : list A) :
  (forall a, In a l -> (0 <? f a) = true) ->
  forall acc, (0 <? acc) = true ->
  (0 <? fold_left (fun sum a => sum + f a) l acc) = true.
Proof.
  induction l as [|a l IH]; intros Hf acc Hacc; simpl; [exact Hacc|].
  apply IH.
  - intros b Hb. apply Hf. right. exact Hb.
  - apply add_positive; [exact Hacc|apply Hf; left; reflexivity].
Qed.

Lemma totalQualityOf_positive (scores : list Scored.t) :
  scores <> [] ->
  (forall s, In s scores -> (0 <? Scored.quality s) = true) ->
  (0 <? totalQualityOf scores) = true.
Proof.
  intros Hne Hpos. unfold totalQualityOf.
  destruct scores as [|s scores]; [contradiction|]. simpl.
  apply fold_add_positive.
  - intros a Ha. apply Hpos. right. exact Ha.
  - rewrite add_zero_l; apply Hpos; left; reflexivity.
Qed.

Lemma sortedScores_In (t : AIType) (input : KnowledgeAlgorithmInput.t) (s : Scored.t) :
  In s (sortedScores t input) ->
  exists r, In r (validResponsesOf input) /\ s = Scored.mk r (qualityIn t r).
Proof.
  unfold sortedScores. rewrite sort_In, scoresIn_map, in_map_iff.
  intros (r & E & Hr). exists r. split; [exact Hr|symmetry; exact E].
Qed.

Lemma validResponsesOf_In (input : KnowledgeAlgorithmInput.t) (r : ModelResponse.t) :
  In r (validResponsesOf input) -> isValid r = true.
Proof. unfold validResponsesOf. rewrite filter_In. tauto. Qed.

Lemma totalQuality_positive (t : AIType) (input : KnowledgeAlgorithmInput.t) :
  validResponsesOf input <> [] -> (0 <? totalQuality t input) = true.
Proof.
  intros Hv. unfold totalQuality. apply totalQualityOf_positive.
  - intros E. apply sort_nil_inv in E. rewrite scoresIn_map in E.
    apply map_eq_nil in E. contradiction.
  - intros s Hs. apply sortedScores_In in Hs as (r & Hr & ->). simpl.
    apply qualityValues_positive, qualityIn_value, (validResponsesOf_In input), Hr.
Qed.

Lemma positive_not_zero (x : float) : (0 <? x) = true -> (x =? 0) = false.
Proof.
  rewrite ltb_0_positive, FloatAxioms.eqb_spec.
  change (Prim2SF 0) with (S754_zero false).
  destruct (Prim2SF x) as [s|s| |s m e]; try destruct s; simpl; tauto.
Qed.

End QualityFacts.

(** C10.  [calculateResponseQuality] returns a value in [0.5, 1] for a
    response with [success = true] and a non-empty text, and exactly 0 for
    one with [success = false] or an empty text.  Consequently, for each
    variant and each input with at least one valid response, the total
    quality the weights are divided by is strictly positive: the guard
    [totalQuality > 0] holds and the divisor is not zero. *)
Theorem response_quality_range_and_positive_total :
  (forall r, ModelResponse.success r = true -> ModelResponse.response r <> "" ->
             (0.5 <=? calculateResponseQuality r)%float = true
             /\ (calculateResponseQuality r <=? 1)%float = true)
  /\ (forall r, ModelResponse.success r = false \/ ModelResponse.response r = "" ->
                calculateResponseQuality r = 0%float)
  /\ (forall t input, validResponsesOf input <> [] ->
                      (0 <? totalQuality t input)%float = true
                      /\ (totalQuality t input =? 0)%float = false).
Proof.
  split; [|split].
  - intros r Hs Ht.
    destruct (QualityFacts.calculateResponseQuality_features r Hs Ht)
      as (a & b & c & d & e & ->).
    destruct a, b, c, d, e; vm_compute; split; reflexivity.
  - apply QualityFacts.calculateResponseQuality_zero.
  - intros t input Hv.
    pose proof (QualityFacts.totalQuality_positive t input Hv) as Hp.
    split; [exact Hp|apply QualityFacts.positive_not_zero; exact Hp].
Qed.

Lemma response_quality_witness :
  ((0.5 <=? calculateResponseQuality (Examples.reply slot1 "ok" true 600))%float = true
   /\ (calculateResponseQuality (Examples.reply slot1 "ok" true 600) <=? 1)%float = true)
  /\ calculateResponseQuality (Examples.reply slot2 "timeout" false 30000) = 0%float
  /\ (0 <? totalQuality heart Examples.threeValid)%float = true.
Proof.
  destruct response_quality_range_and_positive_total as (Hrange & Hzero & Htotal).
  split; [|split].
  - apply Hrange; [reflexivity|discriminate].
  - apply Hzero. left. reflexivity.
  - apply Htotal. vm_compute. discriminate.
Defined.

(* ===================================================================== *)
(** * Contribution weights *)
(* ===================================================================== *)

Module WeightFacts.
Import Types Js Algorithms Spec SortFacts AlgorithmFacts QualityFacts.
Local Open Scope float_scope.

Lemma byQualityDesc_pair (a b : Scored.t) :
  byQualityDesc a b = byPairDesc (pairOf a) (pairOf b).
Proof. reflexivity. Qed.

Lemma totalQualityOf_pairs (scores : list Scored.t) :
  totalQualityOf scores = totalOfPairs (List.map pairOf scores).
Proof.
  unfold totalQualityOf, totalOfPairs. generalize 0.
  induction scores as [|s scores IH]; intros acc; simpl; [reflexivity|apply IH].
Qed.

Lemma weightsOf_pairs (scores : list Scored.t) :
  weightsOf scores = weightsOfPairs (List.map pairOf scores).
Proof.
  unfold weightsOf, weightsOfPairs. rewrite totalQualityOf_pairs.
  generalize (totalOfPairs (List.map pairOf scores)). intros total.
  generalize (Weights.mk 0 0 0).
  induction scores as [|s scores IH]; intros w; simpl; [reflexivity|apply IH].
Qed.

Lemma sortedScores_pairs (t : AIType) (input : KnowledgeAlgorithmInput.t) :
  List.map pairOf (sortedScores t input) = sort byPairDesc (pairsIn t input).
Proof.
  unfold sortedScores, pairsIn.
  rewrite (sort_map pairOf byQualityDesc byPairDesc byQualityDesc_pair).
  rewrite scoresIn_map, List.map_map. reflexivity.
Qed.

Lemma forallb_In3 (V : list float) (P : float -> float -> float -> bool) :
  forallb (fun a => forallb (fun b => forallb (fun c => P a b c) V) V) V = true ->
  forall a b c, In a V -> In b V -> In c V -> P a b c = true.
Proof.
  intros H a b c Ha Hb Hc.
  rewrite forallb_forall in H. specialize (H a Ha).
  rewrite forallb_forall in H. specialize (H b Hb).
  rewrite forallb_forall in H. exact (H c Hc).
Qed.

Lemma forallb_In2 (V : list float) (P : float -> float -> bool) :
  forallb (fun a => forallb (fun b => P a b) V) V = true ->
  forall a b, In a V -> In b V -> P a b = true.
Proof.
  intros H a b Ha Hb.
  rewrite forallb_forall in H. specialize (H a Ha).
  rewrite forallb_forall in H. exact (H b Hb).
Qed.

Lemma forallb_In1 (V : list float) (P : float -> bool) :
  forallb P V = true -> forall a, In a V -> P a = true.
Proof. intros H. rewrite forallb_forall in H. exact H. Qed.

Ltac distinct_slots :=
  match goal with
  | H : List.NoDup _ |- _ =>
      exfalso; clear - H;
      repeat (apply List.NoDup_cons_iff in H; destruct H as [? H]);
      simpl in *; intuition congruence
  end.

(** With at most one pair per slot there are at most three pairs, and the
    qualities range over [qualityValues]: the check is run on all cases. *)
Lemma checkPairs_all (l : list (Slot * float)) :
  l <> [] -> List.NoDup (List.map fst l) ->
  (forall p, In p l -> In (snd p) qualityValues) ->
  checkPairs l = true.
Proof.
  intros Hne Hnd Hq.
  destruct l as [|[s1 q1] [|[s2 q2] [|[s3 q3] [|[s4 q4] l]]]]; [contradiction| | | |].
  - assert (H1 : In q1 qualityValues) by (apply (Hq (s1, q1)); simpl; auto).
    clear Hq Hnd Hne. revert q1 H1.
    destruct s1; apply forallb_In1; vm_compute; reflexivity.
  - assert (H1 : In q1 qualityValues) by (apply (Hq (s1, q1)); simpl; auto).
    assert (H2 : In q2 qualityValues) by (apply (Hq (s2, q2)); simpl; auto).
    clear Hq Hne. simpl in Hnd.
    destruct s1, s2; try distinct_slots; clear Hnd; revert q1 q2 H1 H2;
      apply forallb_In2; vm_compute; reflexivity.
  - assert (H1 : In q1 qualityValues) by (apply (Hq (s1, q1)); simpl; auto).
    assert (H2 : In q2 qualityValues) by (apply (Hq (s2, q2)); simpl; auto).
    assert (H3 : In q3 qualityValues) by (apply (Hq (s3, q3)); simpl; auto).
    clear Hq Hne. simpl in Hnd.
    destruct s1, s2, s3; try distinct_slots; clear Hnd; revert q1 q2 q3 H1 H2 H3;
      apply forallb_In3; vm_compute; reflexivity.
  - simpl in Hnd. destruct s1, s2, s3, s4; distinct_slots.
Qed.

Lemma pairsIn_check (t : AIType) (input : KnowledgeAlgorithmInput.t) :
  validResponsesOf input <> [] ->
  List.NoDup (List.map ModelResponse.modelSlot (validResponsesOf input)) ->
  checkPairs (pairsIn t input) = true.
Proof.
  intros Hv Hnd. apply checkPairs_all.
  - unfold pairsIn. intros E. apply map_eq_nil in E. contradiction.
  - unfold pairsIn. rewrite List.map_map. exact Hnd.
  - unfold pairsIn. intros p Hp. apply in_map_iff in Hp as (r & <- & Hr). simpl.
    apply qualityIn_value, (validResponsesOf_In input), Hr.
Qed.

End WeightFacts.

(** C7, as amended.  For a knowledge algorithm (brain, heart or system)
    called on an input with at least one valid response in which no two
    valid responses carry the same model slot, the contribution weights of
    model1, model2 and model3 sum to 1 within 1e-9, the weight of the slot
    of each valid response is its computed quality divided by the total
    quality of the valid responses, and a slot without a valid response has
    weight 0. *)
Theorem contribution_weights_are_quality_shares
  (t : AIType) (input : KnowledgeAlgorithmInput.t) :
  validResponsesOf input <> [] ->
  List.NoDup (List.map ModelResponse.modelSlot (validResponsesOf input)) ->
  sumsToOne (KnowledgeAlgorithmOutput.contributionWeights (algorithm t input)) = true
  /\ (forall r, In r (validResponsesOf input) ->
        getWeight (KnowledgeAlgorithmOutput.contributionWeights (algorithm t input))
                  (ModelResponse.modelSlot r)
        = (qualityIn t r / totalQuality t input)%float)
  /\ (forall s, ~ In s (List.map ModelResponse.modelSlot (validResponsesOf input)) ->
        getWeight (KnowledgeAlgorithmOutput.contributionWeights (algorithm t input)) s
        = 0%float).
Proof.
  intros Hv Hnd.
  destruct (AlgorithmFacts.algorithm_valid t input Hv) as (_ & _ & _ & _ & _ & ->).
  pose proof (WeightFacts.pairsIn_check t input Hv Hnd) as Hc.
  unfold checkPairs in Hc. cbv zeta in Hc.
  rewrite <- WeightFacts.sortedScores_pairs in Hc.
  rewrite <- WeightFacts.weightsOf_pairs, <- WeightFacts.totalQualityOf_pairs in Hc.
  fold (totalQuality t input) in Hc.
  rewrite !andb_true_iff in Hc. destruct Hc as (((_ & Hsum) & Hshare) & Hzero).
  split; [exact Hsum|split].
  - intros r Hr. rewrite forallb_forall in Hshare.
    specialize (Hshare (ModelResponse.modelSlot r, qualityIn t r)).
    apply FloatAxioms.Leibniz.eqb_spec. apply Hshare.
    unfold pairsIn. apply in_map_iff. exists r. split; [reflexivity|exact Hr].
  - intros s Hs. rewrite forallb_forall in Hzero.
    assert (Hin : In s [slot1; slot2; slot3]) by (destruct s; simpl; auto).
    specialize (Hzero s Hin). apply orb_true_iff in Hzero as [Hex|Hz].
    + exfalso. apply Hs. apply existsb_exists in Hex as (p & Hp & E).
      apply bool_decide_eq_true in E. subst s.
      unfold pairsIn in Hp. apply in_map_iff in Hp as (r & <- & Hr).
      apply in_map_iff. exists r. split; [reflexivity|exact Hr].
    + apply FloatAxioms.Leibniz.eqb_spec. exact Hz.
Qed.

Lemma contribution_weights_witness :
  sumsToOne (KnowledgeAlgorithmOutput.contributionWeights
               (brainKnowledgeAlgorithm Examples.threeValid)) = true.
Proof.
  apply (contribution_weights_are_quality_shares brain Examples.threeValid).
  - vm_compute. discriminate.
  - vm_compute. repeat constructor; simpl; intuition discriminate.
Defined.

(** C7 as stated fails: two valid responses that both carry slot 1 write
    the same weight, and the three weights sum to about a half. *)
Lemma contribution_weights_counterexample :
  validResponsesOf Examples.twoOnSlot1 <> []
  /\ sumsToOne (KnowledgeAlgorithmOutput.contributionWeights
                  (brainKnowledgeAlgorithm Examples.twoOnSlot1)) = false.
Proof. split; [vm_compute; discriminate|vm_compute; reflexivity]. Qed.

(* ===================================================================== *)
(** * Keyword scoring *)
(* ===================================================================== *)

Module ScoreFacts.
Import Types Js AutoRouter Spec.

Lemma scoreByKeywords_fold (prompt : string) (keywords : list string) (label : option string) :
  scoreByKeywords prompt keywords label
  = fold_left (step (toLowerCase prompt) (wordsOf prompt)) keywords (labelPoints prompt label).
Proof.
  unfold scoreByKeywords, labelPoints. cbv zeta. f_equal.
Qed.

Lemma step_points (promptLower : string) (words : list string) (score : nat) (k : string) :
  step promptLower words score k
  = score + (if includes promptLower (toLowerCase k) then 2
             else if existsb (fun w => includes w (toLowerCase k)
                                       || includes (toLowerCase k) w) words
             then 1 else 0).
Proof.
  unfold step. cbv zeta.
  destruct (includes promptLower (toLowerCase k)); [reflexivity|].
  destruct (existsb _ words); lia.
Qed.

Lemma fold_step_sum (promptLower : string) (words : list string) (keywords : list string) :
  forall score,
    fold_left (step promptLower words) keywords score
    = score + list_sum (List.map (fun k => step promptLower words 0 k) keywords).
Proof.
  induction keywords as [|k ks IH]; intros score; simpl; [lia|].
  rewrite IH, (step_points _ _ score), (step_points _ _ 0). lia.
Qed.

(** The pieces of [split] other than the empty ones are the word runs. *)
Lemma splitRuns_head_word (b : bool) (s : string) :
  headIsWord s = true ->
  exists c t ts, splitRuns isNonWordChar b s = String c t :: ts.
Proof.
  destruct s as [|c s']; simpl; [discriminate|]. intros Hc.
  unfold isNonWordChar. rewrite Hc. simpl.
  destruct (splitRuns (fun c0 => negb (isWordChar c0)) false s') as [|t ts]; eauto.
Qed.

Lemma splitRuns_head_sep (s : string) :
  headIsWord s = false ->
  exists ts, splitRuns isNonWordChar false s = "" :: ts.
Proof.
  destruct s as [|c s']; simpl; [eauto|]. intros Hc.
  unfold isNonWordChar. rewrite Hc. simpl. eauto.
Qed.

Lemma splitRuns_wordRuns (s : string) :
  forall b, List.filter truthy (splitRuns isNonWordChar b s) = wordRuns s.
Proof.
  induction s as [|c s' IH]; intros b; [reflexivity|].
  simpl splitRuns. simpl wordRuns. unfold isNonWordChar at 1.
  destruct (isWordChar c) eqn:Ec; simpl negb; cbv iota.
  - destruct (headIsWord s') eqn:Eh.
    + destruct (splitRuns_head_word false s' Eh) as (d & t & ts & Es).
      rewrite <- (IH false), Es. reflexivity.
    + destruct (splitRuns_head_sep s' Eh) as (ts & Es).
      rewrite <- (IH false), Es. reflexivity.
  - destruct b; [apply IH|]. simpl. apply IH.
Qed.

Lemma filter_filter_truthy (l : list string) :
  List.filter (fun w => (2 <? String.length w)%nat) (List.filter truthy l)
  = List.filter (fun w => (2 <? String.length w)%nat) l.
Proof.
  induction l as [|w l IH]; simpl; [reflexivity|].
  destruct w as [|c w]; simpl; [exact IH|].
  destruct (2 <? S (String.length w))%nat; [f_equal|]; exact IH.
Qed.

Lemma wordsOf_tokens (prompt : string) : wordsOf prompt = tokensOf (toLowerCase prompt).
Proof.
  unfold wordsOf, tokensOf, split.
  rewrite <- (splitRuns_wordRuns _ false). symmetry. apply filter_filter_truthy.
Qed.

Lemma step_keywordPoints (lowered : string) (tokens : list string) (k : string) :
  step lowered tokens 0 k = keywordPoints lowered tokens k.
Proof.
  unfold step, keywordPoints. cbv zeta.
  destruct (includes lowered (toLowerCase k)); [reflexivity|].
  replace (existsb (fun w => includes w (toLowerCase k) || includes (toLowerCase k) w) tokens)
    with (existsb (fun t => includes (toLowerCase k) t || includes t (toLowerCase k)) tokens).
  - destruct (existsb _ tokens); reflexivity.
  - induction tokens as [|t ts IH]; simpl; [reflexivity|].
    rewrite IH, (orb_comm (includes (toLowerCase k) t)). reflexivity.
Qed.

End ScoreFacts.

(** C9.  For a fixed prompt, label and keyword list, appending a keyword
    whose lower-cased form occurs in the lower-cased prompt never decreases
    the score. *)
Theorem exact_keyword_never_lowers_score
  (prompt : string) (label : option string) (ks : list string) (k : string) :
  includes (toLowerCase prompt) (toLowerCase k) = true ->
  scoreByKeywords prompt ks label <= scoreByKeywords prompt (ks ++ [k]) label.
Proof.
  intros Hk. rewrite !ScoreFacts.scoreByKeywords_fold, fold_left_app. simpl.
  rewrite ScoreFacts.step_points, Hk. lia.
Qed.

Lemma exact_keyword_witness :
  scoreByKeywords "How do I index a table?" ["sql"] (Some "Database")
  <= scoreByKeywords "How do I index a table?" (["sql"] ++ ["Index"]) (Some "Database").
Proof.
  apply (exact_keyword_never_lowers_score
           "How do I index a table?" (Some "Database") ["sql"] "Index").
  reflexivity.
Defined.

(** C5, as amended.  [scoreByKeywords] equals the reference definition -
    lower-case the prompt; the tokens are the maximal runs of word
    characters longer than 2; 5 for a label that is present, not the empty
    string and whose lower-cased form occurs in the lowered prompt; and per
    keyword 2 if its lower-cased form occurs in the lowered prompt, else 1
    if a token is a substring of it or it is a substring of a token,
    else 0. *)
Theorem scoreByKeywords_is_reference
  (prompt : string) (keywords : list string) (label : option string) :
  scoreByKeywords prompt keywords label
  = referenceScoreNonEmptyLabel prompt keywords label.
Proof.
  rewrite ScoreFacts.scoreByKeywords_fold, ScoreFacts.fold_step_sum.
  unfold referenceScoreNonEmptyLabel. cbv zeta.
  rewrite ScoreFacts.wordsOf_tokens. f_equal.
  f_equal. apply List.map_ext. intros k. apply ScoreFacts.step_keywordPoints.
Qed.

(** C5 as stated fails for a label that is the empty string: it occurs in
    every prompt, yet the guard [label &&] of the source gives it nothing. *)
Lemma scoreByKeywords_counterexample :
  scoreByKeywords "abc" [] (Some "") = 0
  /\ referenceScore "abc" [] (Some "") = 5
  /\ scoreByKeywords "abc" [] (Some "") <> referenceScore "abc" [] (Some "").
Proof. repeat split; try reflexivity. vm_compute. discriminate. Qed.

(* ===================================================================== *)
(** * Order of the sorted items *)
(* ===================================================================== *)

Module OrderFacts.
Import Js Spec FloatFacts.
Local Open Scope float_scope.

Lemma binary_round_aux_negative (m e : Z) (l : location) :
  ~ positiveSF (binary_round_aux prec emax true m e l).
Proof.
  unfold binary_round_aux.
  destruct (shr_fexp prec emax m e l) as [mrs' e'].
  destruct (shr_fexp prec emax _ e' loc_Exact) as [mrs'' e''].
  destruct (shr_m mrs''); simpl; [tauto| |tauto].
  destruct (e'' <=? emax - prec)%Z; simpl; tauto.
Qed.

Lemma binary_normalize_positive_inv (m e : Z) :
  positiveSF (binary_normalize prec emax m e false) -> (0 < m)%Z.
Proof.
  destruct m as [|p|p]; simpl; [tauto|lia|].
  unfold binary_round. destruct (shl_align _ _ _) as [mz ez].
  intros H. exfalso. exact (binary_round_aux_negative _ _ _ H).
Qed.

(** If [x - y] is positive then [y - x] is not. *)
Lemma SFsub_antisym (x y : spec_float) :
  positiveSF (SFsub prec emax x y) -> ~ positiveSF (SFsub prec emax y x).
Proof.
  destruct x as [sx|sx| |sx mx ex]; destruct y as [sy|sy| |sy my ey];
    try (destruct sx, sy; simpl; tauto);
    try (destruct sx; simpl; tauto);
    try (destruct sy; simpl; tauto); try (simpl; tauto).
  unfold SFsub. rewrite (Z.min_comm ey ex).
  intros H1 H2.
  apply binary_normalize_positive_inv in H1, H2. lia.
Qed.

Lemma sub_antisym (a b : float) :
  (0 <? b - a) = true -> (0 <? a - b) = false.
Proof.
  intros H. apply ltb_0_positive in H. rewrite FloatAxioms.sub_spec in H.
  apply SFsub_antisym in H.
  destruct (0 <? a - b) eqn:E; [|reflexivity].
  apply ltb_0_positive in E. rewrite FloatAxioms.sub_spec in E. contradiction.
Qed.

Section Sorted.
Context {A : Type} (cmp : A -> A -> float).
Hypothesis cmp_antisym : forall a b, (0 <? cmp a b) = true -> (0 <? cmp b a) = false.

Lemma insertBy_head (x : A) (l : list A) :
  (exists l', insertBy cmp x l = x :: l')
  \/ (exists y l0 l', l = y :: l0 /\ (0 <? cmp x y) = true /\ insertBy cmp x l = y :: l').
Proof.
  destruct l as [|y l]; simpl; [left; eauto|].
  destruct (0 <? cmp x y) eqn:E.
  - right. exists y, l, (insertBy cmp x l). auto.
  - left. eauto.
Qed.

Lemma insertBy_locallySorted (x : A) (l : list A) :
  locallySorted cmp l -> locallySorted cmp (insertBy cmp x l).
Proof.
  induction l as [|y l IH]; intros Hl; simpl insertBy; [exact I|].
  destruct (0 <? cmp x y) eqn:E.
  - assert (Hl' : locallySorted cmp l) by (destruct l; simpl in *; tauto).
    specialize (IH Hl').
    destruct (insertBy_head x l) as [(l' & Ei)|(z & l0 & l' & El & Ez & Ei)];
      rewrite Ei in *; simpl; split; auto.
    subst l. simpl in Hl. tauto.
  - simpl. split; assumption.
Qed.

Lemma sort_locallySorted (l : list A) : locallySorted cmp (sort cmp l).
Proof.
  induction l as [|x l IH]; [exact I|].
  unfold sort in *. simpl. apply insertBy_locallySorted. exact IH.
Qed.

End Sorted.

End OrderFacts.

(* ===================================================================== *)
(** * The auto-router *)
(* ===================================================================== *)

Module RouterFacts.
Import Types Store Eff Async Js AutoRouter Spec SortFacts.
Local Open Scope float_scope.

Lemma byScoreDesc_antisym (a b : SelectedItem.t) :
  (0 <? byScoreDesc a b) = true -> (0 <? byScoreDesc b a) = false.
Proof. apply OrderFacts.sub_antisym. Qed.

Lemma selectTopItems_length (nodes : list AINode.t) (prompt : string) (limit : Z) :
  (0 <= limit)%Z ->
  (Z.of_nat (List.length (selectTopItems nodes prompt limit)) <= limit)%Z.
Proof. intros H. unfold selectTopItems. apply slice0_length_le, H. Qed.

Lemma selectNodes_length (c : Cache.t) (aiType : AIType) (slot : Slot)
  (prompt : string) (limit : Z) :
  (0 <= limit)%Z ->
  (Z.of_nat (List.length (selectNodes c aiType slot prompt limit)) <= limit)%Z.
Proof.
  intros H. unfold selectNodes.
  destruct (List.length _ =? 0)%nat; apply selectTopItems_length, H.
Qed.

Lemma selectStacks_length (c : Cache.t) (selectedNodes : list SelectedItem.t)
  (prompt : string) (limitPerNode : Z) :
  (0 <= limitPerNode)%Z ->
  (Z.of_nat (List.length (selectStacks c selectedNodes prompt limitPerNode))
   <= limitPerNode * Z.of_nat (List.length selectedNodes))%Z.
Proof.
  intros H. unfold selectStacks. apply flat_map_length_le.
  intros node. apply slice0_length_le, H.
Qed.

Lemma selectDomains_length (c : Cache.t) (selectedStacks selectedNodes : list SelectedItem.t)
  (prompt : string) (limitPerStack : Z) :
  (0 <= limitPerStack)%Z ->
  (Z.of_nat (List.length (selectDomains c selectedStacks selectedNodes prompt limitPerStack))
   <= limitPerStack * Z.of_nat (List.length selectedStacks))%Z.
Proof.
  intros H. unfold selectDomains. cbv zeta. apply flat_map_length_le.
  intros stack. apply slice0_length_le, H.
Qed.

(** [refreshCache] always returns: every error of the store is caught. *)
Lemma refreshCache_returns (env : Env.t) (w : World.t) :
  exists w', refreshCache env w = (Returned tt, w').
Proof.
  unfold refreshCache, bind, Date_now, gets, ret, tryCatch, execute, update, modify.
  cbn.
  destruct (_ <? CACHE_TTL_MS); [eauto|].
  destruct (Env.nodeRows env _); [|eauto].
  destruct (Env.stackRows env _); [|eauto].
  destruct (Env.domainRows env _); eauto.
Qed.

Lemma getMemories_returns (aiType : AIType) (domainIds : list string) (limit : Z)
  (env : Env.t) (w : World.t) :
  exists ms w', getMemories aiType domainIds limit env w = (Returned ms, w').
Proof.
  unfold getMemories, bind, ret, tryCatch, execute.
  destruct (List.length domainIds =? 0)%nat; [eauto|].
  destruct (Env.memoryRows env _ _ _ _); eauto.
Qed.

(** [autoRoute] always returns, and its result is the selection made on the
    cache as [refreshCache] left it. *)
Lemma autoRoute_returns (aiType : AIType) (slot : Slot) (prompt : string)
  (mode : DeviceMode) (env : Env.t) (w : World.t) :
  exists r w' c,
    autoRoute aiType slot prompt mode env w = (Returned r, w')
    /\ RoutingResult.nodes r
       = selectNodes c aiType slot prompt (ModeLimits.nodes (MODE_LIMITS mode))
    /\ RoutingResult.stacks r
       = selectStacks c (RoutingResult.nodes r) prompt (ModeLimits.stacks (MODE_LIMITS mode))
    /\ RoutingResult.domains r
       = selectDomains c (RoutingResult.stacks r) (RoutingResult.nodes r) prompt
           (ModeLimits.domains (MODE_LIMITS mode)).
Proof.
  unfold autoRoute.
  destruct (refreshCache_returns env w) as (w1 & E1).
  unfold bind at 1. rewrite E1.
  unfold bind at 1. unfold gets at 1. cbv zeta.
  set (c := World.router w1).
  set (nodes := selectNodes c aiType slot prompt _).
  set (stacks := selectStacks c nodes prompt _).
  set (domains := selectDomains c stacks nodes prompt _).
  destruct (getMemories_returns aiType (List.map SelectedDomain.id domains) 5 env w1)
    as (ms & w2 & E2).
  unfold bind. rewrite E2. unfold ret.
  eexists _, w2, c. split; [reflexivity|]. simpl. auto.
Qed.

End RouterFacts.

(** C2.  Every [autoRoute] call, in each mode and from any world (any cache
    snapshot, any behaviour of the store), returns a result with
    [nodes.length <= MODE_LIMITS[m].nodes],
    [stacks.length <= MODE_LIMITS[m].stacks * nodes.length] and
    [domains.length <= MODE_LIMITS[m].domains * stacks.length], where the
    limits are (2,1,1), (2,2,2) and (3,3,3). *)
Theorem autoRoute_respects_mode_limits
  (aiType : AIType) (slot : Slot) (prompt : string) (mode : DeviceMode)
  (env : Env.t) (w : World.t) :
  exists r w',
    autoRoute aiType slot prompt mode env w = (Returned r, w')
    /\ (Z.of_nat (List.length (RoutingResult.nodes r))
        <= ModeLimits.nodes (MODE_LIMITS mode))%Z
    /\ (Z.of_nat (List.length (RoutingResult.stacks r))
        <= ModeLimits.stacks (MODE_LIMITS mode)
           * Z.of_nat (List.length (RoutingResult.nodes r)))%Z
    /\ (Z.of_nat (List.length (RoutingResult.domains r))
        <= ModeLimits.domains (MODE_LIMITS mode)
           * Z.of_nat (List.length (RoutingResult.stacks r)))%Z
    /\ (ModeLimits.nodes (MODE_LIMITS mode), ModeLimits.stacks (MODE_LIMITS mode),
        ModeLimits.domains (MODE_LIMITS mode))
       = match mode with
         | standard => (2, 1, 1)
         | professional => (2, 2, 2)
         | advanced => (3, 3, 3)
         end%Z.
Proof.
  destruct (RouterFacts.autoRoute_returns aiType slot prompt mode env w)
    as (r & w' & c & E & En & Es & Ed).
  exists r, w'. split; [exact E|].
  rewrite Ed, Es, En.
  split; [|split; [|split]].
  - apply RouterFacts.selectNodes_length. destruct mode; simpl; lia.
  - apply RouterFacts.selectStacks_length. destruct mode; simpl; lia.
  - apply RouterFacts.selectDomains_length. destruct mode; simpl; lia.
  - destruct mode; reflexivity.
Qed.

(* ===================================================================== *)
(** * The order of the scores *)
(* ===================================================================== *)

Module RankFacts.
Import Types Js AutoRouter Spec SortFacts FloatFacts OrderFacts.
Local Open Scope float_scope.

(** The comparisons of the format are the lexicographic order of the
    ranks. *)
Lemma SFltb_rank (x y : spec_float) :
  x <> S754_nan -> y <> S754_nan -> (SFltb x y = true <-> rankLt (rank x) (rank y)).
Proof.
  intros Hx Hy. unfold SFltb.
  destruct x as [sx|sx| |sx mx ex]; try congruence;
    destruct y as [sy|sy| |sy my ey]; try congruence;
    try destruct sx; try destruct sy; simpl;
    try (split; [discriminate|lia]); try (split; [lia|reflexivity]).
  all: destruct (Z.compare_spec ex ey); try (split; [discriminate|lia]);
    try (split; [lia|reflexivity]).
  all: change (Pos.compare_cont Eq mx my) with (Pos.compare mx my);
    destruct (Pos.compare_spec mx my); simpl;
    try (split; [discriminate|lia]); try (split; [lia|reflexivity]).
Qed.

Lemma SFleb_rank (x y : spec_float) :
  x <> S754_nan -> y <> S754_nan -> (SFleb x y = true <-> rankLe (rank x) (rank y)).
Proof.
  intros Hx Hy. unfold SFleb.
  destruct x as [sx|sx| |sx mx ex]; try congruence;
    destruct y as [sy|sy| |sy my ey]; try congruence;
    try destruct sx; try destruct sy; simpl;
    try (split; [discriminate|lia]); try (split; [lia|reflexivity]).
  all: destruct (Z.compare_spec ex ey); try (split; [discriminate|lia]);
    try (split; [lia|reflexivity]).
  all: change (Pos.compare_cont Eq mx my) with (Pos.compare mx my);
    destruct (Pos.compare_spec mx my); simpl;
    try (split; [discriminate|lia]); try (split; [lia|reflexivity]).
Qed.

Lemma digits2_pos_upper (m : positive) : (Zpos m < 2 ^ Zpos (digits2_pos m))%Z.
Proof.
  induction m as [m IH|m IH|]; simpl digits2_pos.
  - rewrite Pos2Z.inj_succ, Z.pow_succ_r by lia. lia.
  - rewrite Pos2Z.inj_succ, Z.pow_succ_r by lia. lia.
  - simpl. lia.
Qed.

Lemma iter_xO (d m : positive) : Zpos (Pos.iter xO m d) = (Zpos m * 2 ^ Zpos d)%Z.
Proof.
  induction d as [|d IH] using Pos.peano_ind.
  - simpl. lia.
  - rewrite Pos.iter_succ, Pos2Z.inj_xO, IH, Pos2Z.inj_succ, Z.pow_succ_r by lia. lia.
Qed.

Lemma shl_align_value (m : positive) (e ez : Z) :
  (ez <= e)%Z -> Zpos (fst (shl_align m e ez)) = (Zpos m * 2 ^ (e - ez))%Z.
Proof.
  intros H. unfold shl_align.
  destruct (ez - e)%Z as [|d|d] eqn:Ed; simpl fst; try lia.
  - replace (e - ez)%Z with 0%Z by lia. simpl. lia.
  - rewrite iter_xO. f_equal. f_equal. lia.
Qed.

(** The mantissa of a valid number has at most [prec] digits, and exactly
    [prec] above the least exponent. *)
Lemma valid_digits (s : bool) (m : positive) (e : Z) :
  valid_binary (S754_finite s m e) = true ->
  (emin64 <= e)%Z
  /\ (Zpos (digits2_pos m) <= prec)%Z
  /\ ((emin64 < e)%Z -> Zpos (digits2_pos m) = prec).
Proof.
  simpl. unfold bounded, canonical_mantissa, fexp. fold emin64.
  intros H. apply andb_prop in H as [H _]. apply Z.eqb_eq in H. lia.
Qed.

(** Of two valid numbers of the same sign, the one with the greater
    exponent has the greater magnitude. *)
Lemma aligned_lt (m1 m2 : positive) (e1 e2 : Z) (s1 s2 : bool) :
  valid_binary (S754_finite s1 m1 e1) = true ->
  valid_binary (S754_finite s2 m2 e2) = true ->
  (e1 < e2)%Z ->
  (Zpos m1 < Zpos m2 * 2 ^ (e2 - e1))%Z.
Proof.
  intros V1 V2 He.
  apply valid_digits in V1 as (Hmin & Hd1 & _).
  apply valid_digits in V2 as (_ & _ & Hd2).
  specialize (Hd2 ltac:(lia)).
  pose proof (digits2_pos_upper m1) as Hu.
  pose proof (digits2_pos_lower m2) as Hl. rewrite Hd2 in Hl.
  assert (H1 : (2 ^ Zpos (digits2_pos m1) <= 2 ^ prec)%Z)
    by (apply Z.pow_le_mono_r; lia).
  assert (H2 : (2 ^ 1 <= 2 ^ (e2 - e1))%Z) by (apply Z.pow_le_mono_r; lia).
  assert (H3 : (2 ^ prec = 2 ^ (prec - 1) * 2 ^ 1)%Z).
  { rewrite <- Z.pow_add_r by (unfold prec; lia). f_equal; lia. }
  assert (H4 : (0 < 2 ^ (prec - 1))%Z) by (apply Z.pow_pos_nonneg; unfold prec; lia).
  nia.
Qed.

Lemma binary_normalize_positive (m e : Z) :
  (0 < m)%Z -> (emin64 <= e)%Z -> positiveSF (binary_normalize prec emax m e false).
Proof.
  intros Hm He. destruct m as [|p|p]; try lia. simpl.
  apply binary_round_positive, He.
Qed.

(** The difference of a greater and a smaller number is positive: it is
    never rounded to zero. *)
Lemma SFsub_positive (x y : spec_float) :
  valid_binary x = true -> valid_binary y = true ->
  SFltb x y = true -> positiveSF (SFsub prec emax y x).
Proof.
  intros Vx Vy. unfold SFltb.
  destruct x as [sx|sx| |sx mx ex]; destruct y as [sy|sy| |sy my ey];
    try destruct sx; try destruct sy; simpl SFcompare; try discriminate;
    try (intros _; exact I).
  - (* both negative *)
    intros H. unfold SFsub. simpl cond_Zopp.
    pose proof (valid_digits _ _ _ Vx) as (Hx & _).
    pose proof (valid_digits _ _ _ Vy) as (Hy & _).
    apply binary_normalize_positive; [|lia].
    destruct (Z.compare_spec ex ey) as [E|E|E]; try discriminate.
    + subst ey. rewrite Z.min_id, !shl_align_value by lia.
      rewrite Z.sub_diag, Z.pow_0_r.
      change (Pos.compare_cont Eq mx my) with (Pos.compare mx my) in H.
      destruct (Pos.compare_spec mx my) as [E|E|E]; simpl in H; try discriminate.
      apply Pos2Z.pos_lt_pos in E. lia.
    + rewrite Z.min_l by lia. rewrite !shl_align_value by lia.
      rewrite Z.sub_diag. pose proof (aligned_lt _ _ _ _ _ _ Vy Vx E). rewrite Z.pow_0_r. lia.
  - (* negative below positive *)
    intros _. unfold SFsub. simpl cond_Zopp.
    pose proof (valid_digits _ _ _ Vx) as (Hx & _).
    pose proof (valid_digits _ _ _ Vy) as (Hy & _).
    apply binary_normalize_positive; lia.
  - (* both positive *)
    intros H. unfold SFsub. simpl cond_Zopp.
    pose proof (valid_digits _ _ _ Vx) as (Hx & _).
    pose proof (valid_digits _ _ _ Vy) as (Hy & _).
    apply binary_normalize_positive; [|lia].
    destruct (Z.compare_spec ex ey) as [E|E|E]; try discriminate.
    + subst ey. rewrite Z.min_id, !shl_align_value by lia.
      rewrite Z.sub_diag, Z.pow_0_r.
      change (Pos.compare_cont Eq mx my) with (Pos.compare mx my) in H.
      destruct (Pos.compare_spec mx my) as [E|E|E]; simpl in H; try discriminate.
      apply Pos2Z.pos_lt_pos in E. lia.
    + rewrite Z.min_r by lia. rewrite !shl_align_value by lia.
      rewrite Z.sub_diag. pose proof (aligned_lt _ _ _ _ _ _ Vx Vy E). rewrite Z.pow_0_r. lia.
Qed.

Lemma lt_sub_positive (a b : float) : (a <? b) = true -> (0 <? b - a) = true.
Proof.
  rewrite FloatAxioms.ltb_spec. intros H.
  apply ltb_0_positive. rewrite FloatAxioms.sub_spec.
  apply SFsub_positive; try apply Prim2SF_valid. exact H.
Qed.

Lemma not_nan (a : float) : is_nan a = false -> Prim2SF a <> S754_nan.
Proof.
  unfold is_nan. rewrite FloatAxioms.eqb_spec. intros H E. rewrite E in H. discriminate.
Qed.

(** On numbers other than NaN [<=] is total and transitive. *)
Lemma leb_total (a b : float) :
  is_nan a = false -> is_nan b = false -> (a <? b) = false -> (b <=? a) = true.
Proof.
  intros Ha Hb. apply not_nan in Ha, Hb.
  rewrite FloatAxioms.ltb_spec, FloatAxioms.leb_spec. intros H.
  apply (SFleb_rank _ _ Hb Ha).
  assert (Hn : ~ rankLt (rank (Prim2SF a)) (rank (Prim2SF b))).
  { intros Hlt. apply (SFltb_rank _ _ Ha Hb) in Hlt. congruence. }
  destruct (rank (Prim2SF a)) as [[a1 a2] a3], (rank (Prim2SF b)) as [[b1 b2] b3].
  simpl in *. lia.
Qed.

Lemma leb_trans (a b c : float) :
  is_nan a = false -> is_nan b = false -> is_nan c = false ->
  (a <=? b) = true -> (b <=? c) = true -> (a <=? c) = true.
Proof.
  intros Ha Hb Hc. apply not_nan in Ha, Hb, Hc.
  rewrite !FloatAxioms.leb_spec. intros H1 H2.
  apply (SFleb_rank _ _ Ha Hb) in H1. apply (SFleb_rank _ _ Hb Hc) in H2.
  apply (SFleb_rank _ _ Ha Hc).
  destruct (rank (Prim2SF a)) as [[a1 a2] a3], (rank (Prim2SF b)) as [[b1 b2] b3],
    (rank (Prim2SF c)) as [[c1 c2] c3].
  simpl in *. lia.
Qed.

Lemma byScoreDesc_before (x y : SelectedItem.t) :
  is_nan (SelectedItem.score x) = false -> is_nan (SelectedItem.score y) = false ->
  (0 <? byScoreDesc x y) = true ->
  (SelectedItem.score x <=? SelectedItem.score y) = true.
Proof.
  intros Hx Hy H. unfold byScoreDesc in H.
  apply leb_total; try assumption.
  destruct (SelectedItem.score y <? SelectedItem.score x) eqn:E; [|reflexivity].
  apply lt_sub_positive in E. rewrite (sub_antisym _ _ H) in E. discriminate.
Qed.

Lemma byScoreDesc_stay (x y : SelectedItem.t) :
  is_nan (SelectedItem.score x) = false -> is_nan (SelectedItem.score y) = false ->
  (0 <? byScoreDesc x y) = false ->
  (SelectedItem.score y <=? SelectedItem.score x) = true.
Proof.
  intros Hx Hy H. unfold byScoreDesc in H.
  apply leb_total; try assumption.
  destruct (SelectedItem.score x <? SelectedItem.score y) eqn:E; [|reflexivity].
  apply lt_sub_positive in E. congruence.
Qed.

Lemma insertBy_descending (x : SelectedItem.t) (l : list SelectedItem.t) :
  is_nan (SelectedItem.score x) = false ->
  (forall y, In y l -> is_nan (SelectedItem.score y) = false) ->
  StronglySorted (fun a b => (SelectedItem.score b <=? SelectedItem.score a) = true) l ->
  StronglySorted (fun a b => (SelectedItem.score b <=? SelectedItem.score a) = true)
    (insertBy byScoreDesc x l).
Proof.
  intros Hx. induction l as [|y l IH]; intros Hl Hs; simpl insertBy.
  - constructor; constructor.
  - assert (Hy : is_nan (SelectedItem.score y) = false) by (apply Hl; left; reflexivity).
    assert (Hl' : forall z, In z l -> is_nan (SelectedItem.score z) = false)
      by (intros z Hz; apply Hl; right; exact Hz).
    apply StronglySorted_inv in Hs as [Hs Hall].
    destruct (0 <? byScoreDesc x y) eqn:E.
    + constructor; [apply IH; assumption|].
      apply List.Forall_forall. intros z Hz.
      apply (Permutation_in _ (insertBy_perm byScoreDesc x l)) in Hz.
      destruct Hz as [<-|Hz].
      * apply byScoreDesc_before; assumption.
      * rewrite List.Forall_forall in Hall. apply Hall, Hz.
    + pose proof (byScoreDesc_stay x y Hx Hy E) as Hxy.
      constructor; [constructor; assumption|].
      constructor; [exact Hxy|].
      apply List.Forall_forall. intros z Hz.
      rewrite List.Forall_forall in Hall.
      apply (leb_trans _ (SelectedItem.score y)); auto.
Qed.

Lemma sort_descending (l : list SelectedItem.t) :
  (forall y, In y l -> is_nan (SelectedItem.score y) = false) ->
  StronglySorted (fun a b => (SelectedItem.score b <=? SelectedItem.score a) = true)
    (sort byScoreDesc l).
Proof.
  induction l as [|x l IH]; intros Hl; [constructor|].
  unfold sort in *. simpl. apply insertBy_descending.
  - apply Hl. left. reflexivity.
  - intros y Hy. apply Hl. right. apply (sort_In byScoreDesc). exact Hy.
  - apply IH. intros y Hy. apply Hl. right. exact Hy.
Qed.

End RankFacts.

(** C6, as amended.  If the model-slot index holds no node of the requested
    type for the slot, the limit is not negative and no cached node of the
    type has a NaN score, [selectNodes] returns the top [limit] of all
    cached nodes of the type: there is an arrangement [ranked] of the items
    [{id, label, name, score}] of those nodes, with
    [score = scoreByKeywords(prompt, keywords, label) + priority / 100],
    in which every item's score is at least the score of every item behind
    it, and the result is its first [limit] items.  It is what the
    unfiltered selection returns. *)
Theorem selectNodes_fallback
  (c : Cache.t) (aiType : AIType) (slot : Slot) (prompt : string) (limit : Z) :
  List.filter (hasType aiType) (getNodesForModel c slot) = [] ->
  (0 <= limit)%Z ->
  (forall n, In n (Cache.allNodes c) -> AINode.aiType n = aiType ->
     is_nan (ofNat (scoreByKeywords prompt (AINode.keywords n) (Some (AINode.label n)))
             + AINode.priority n / 100)%float = false) ->
  exists ranked,
    Permutation ranked
      (List.map
         (fun n => SelectedItem.mk (AINode.id n) (AINode.label n) (AINode.name n)
                     (ofNat (scoreByKeywords prompt (AINode.keywords n)
                               (Some (AINode.label n)))
                      + AINode.priority n / 100)%float)
         (List.filter (fun n => bool_decide (AINode.aiType n = aiType)) (Cache.allNodes c)))
    /\ StronglySorted
         (fun a b => (SelectedItem.score b <=? SelectedItem.score a)%float = true) ranked
    /\ selectNodes c aiType slot prompt limit = firstn (Z.to_nat limit) ranked
    /\ selectNodes c aiType slot prompt limit
       = selectTopItems (getAllNodes c aiType) prompt limit.
Proof.
  intros Hnone Hlimit Hnan.
  assert (E : selectNodes c aiType slot prompt limit
              = selectTopItems (getAllNodes c aiType) prompt limit).
  { unfold selectNodes. fold (getNodesForModel c slot). rewrite Hnone. reflexivity. }
  exists (sort byScoreDesc (List.map (scoreNode prompt) (getAllNodes c aiType))).
  split; [apply SortFacts.sort_perm|]. split; [|split; [|exact E]].
  - apply RankFacts.sort_descending. intros y Hy.
    apply in_map_iff in Hy as (n & <- & Hn).
    apply filter_In in Hn as [Hn Ht]. apply bool_decide_eq_true in Ht.
    apply Hnan; assumption.
  - rewrite E. apply SortFacts.slice0_firstn, Hlimit.
Qed.

Lemma selectNodes_fallback_witness :
  exists ranked,
    Permutation ranked
      (List.map
         (fun n => SelectedItem.mk (AINode.id n) (AINode.label n) (AINode.name n)
                     (ofNat (scoreByKeywords "How do I index a table?" (AINode.keywords n)
                               (Some (AINode.label n)))
                      + AINode.priority n / 100)%float)
         (List.filter (fun n => bool_decide (AINode.aiType n = brain))
                      (Cache.allNodes Examples.fallbackCache)))
    /\ StronglySorted
         (fun a b => (SelectedItem.score b <=? SelectedItem.score a)%float = true) ranked
    /\ selectNodes Examples.fallbackCache brain slot2 "How do I index a table?" 2
       = firstn (Z.to_nat 2) ranked
    /\ selectNodes Examples.fallbackCache brain slot2 "How do I index a table?" 2
       = selectTopItems (getAllNodes Examples.fallbackCache brain)
           "How do I index a table?" 2.
Proof.
  apply (selectNodes_fallback Examples.fallbackCache brain slot2
           "How do I index a table?" 2).
  - vm_compute. reflexivity.
  - lia.
  - intros n [<-|[<-|[]]] _; vm_compute; reflexivity.
Defined.

(** C6 as stated fails when a score is NaN: with the scores 2, NaN, 5, 3
    and 1 of five nodes of the type, none of them in the slot's index, the
    comparator [b.score - a.score] leaves the array as it is, and the top 2
    are the items with the scores 2 and NaN, not the one with the score
    5. *)
Lemma selectNodes_fallback_counterexample :
  List.filter (hasType brain) (getNodesForModel Examples.unrankedCache slot1) = []
  /\ selectNodes Examples.unrankedCache brain slot1 "zzz" 2
     = [SelectedItem.mk "a" "Alpha" "Alpha" 2; SelectedItem.mk "b" "Beta" "Beta" nan]%float
  /\ In (SelectedItem.mk "c" "Gamma" "Gamma" 5%float)
        (List.map (scoreNode "zzz") (getAllNodes Examples.unrankedCache brain)).
Proof.
  split; [vm_compute; reflexivity|]. split; [vm_compute; reflexivity|].
  vm_compute. right. right. left. reflexivity.
Qed.

(* ===================================================================== *)
(** * The catalog cache *)
(* ===================================================================== *)

Module CacheFacts.
Import Types Store Eff Async Js AutoRouter Spec.
Local Open Scope float_scope.

Lemma length_snoc {A} (l : list A) (a : A) : List.length (l ++ [a]) = S (List.length l).
Proof. rewrite length_app. simpl. lia. Qed.

(** A call within the window reads the clock and does nothing else. *)
Lemma refreshCache_within_window (env : Env.t) (w : World.t) :
  (Env.Date_now env (World.clock w) - Cache.lastCacheRefresh (World.router w)
   <? CACHE_TTL_MS) = true ->
  refreshCache env w = (Returned tt, tick w).
Proof.
  intros H. unfold refreshCache, bind, Date_now, gets, ret. cbn.
  rewrite H. reflexivity.
Qed.

(** A call outside the window whose three reads succeed. *)
Lemma refreshCache_success (env : Env.t) (w : World.t)
  (nodes : list NodeRow.t) (stacks : list StackRow.t) (domains : list DomainRow.t) :
  (Env.Date_now env (World.clock w) - Cache.lastCacheRefresh (World.router w)
   <? CACHE_TTL_MS) = false ->
  Env.nodeRows env (List.length (World.executed w)) = Returned nodes ->
  Env.stackRows env (S (List.length (World.executed w))) = Returned stacks ->
  Env.domainRows env (S (S (List.length (World.executed w)))) = Returned domains ->
  refreshCache env w
  = (Returned tt,
     World.mk
       (Cache.mk
          (labelIndexOf (List.map nodeOfRow nodes) (List.map stackOfRow stacks)
                        (List.map domainOfRow domains))
          (List.map nodeOfRow nodes) (List.map stackOfRow stacks)
          (List.map domainOfRow domains)
          (Env.Date_now env (World.clock w)))
       (World.handler w) (S (World.clock w))
       (World.executed w ++ [SelectNodes; SelectStacks; SelectDomains])).
Proof.
  intros Hout Hn Hs Hd.
  unfold refreshCache, bind, Date_now, gets, ret, tryCatch, execute, update, modify.
  cbn. rewrite Hout. cbn. rewrite Hn.
  rewrite !length_snoc. rewrite Hs, Hd. cbn.
  rewrite <- !app_assoc. reflexivity.
Qed.

(** If the first read fails nothing of the router's cache changes. *)
Lemma refreshCache_first_read_fails (env : Env.t) (w : World.t) (e : Error) :
  Env.nodeRows env (List.length (World.executed w)) = Thrown e ->
  exists w', refreshCache env w = (Returned tt, w')
             /\ World.router w' = World.router w.
Proof.
  intros Hn.
  unfold refreshCache, bind, Date_now, gets, ret, tryCatch, execute, update, modify.
  cbn. destruct (_ <? CACHE_TTL_MS); [eexists; split; reflexivity|].
  cbn. rewrite Hn. eexists; split; reflexivity.
Qed.

(** If the second read fails after the first has succeeded, [allNodes] is
    already replaced; the rest of the cache is as before. *)
Lemma refreshCache_second_read_fails (env : Env.t) (w : World.t)
  (nodes : list NodeRow.t) (e : Error) :
  (Env.Date_now env (World.clock w) - Cache.lastCacheRefresh (World.router w)
   <? CACHE_TTL_MS) = false ->
  Env.nodeRows env (List.length (World.executed w)) = Returned nodes ->
  Env.stackRows env (S (List.length (World.executed w))) = Thrown e ->
  refreshCache env w
  = (Returned tt,
     World.mk (Cache.setAllNodes (List.map nodeOfRow nodes) (World.router w))
       (World.handler w) (S (World.clock w))
       (World.executed w ++ [SelectNodes; SelectStacks])).
Proof.
  intros Hout Hn Hs.
  unfold refreshCache, bind, Date_now, gets, ret, tryCatch, execute, update, modify.
  cbn. rewrite Hout. cbn. rewrite Hn.
  rewrite !length_snoc. rewrite Hs. cbn.
  rewrite <- !app_assoc. reflexivity.
Qed.

(** Likewise for the third read: [allNodes] and [allStacks] are replaced,
    the domains, the label indices and the timestamp are not. *)
Lemma refreshCache_third_read_fails (env : Env.t) (w : World.t)
  (nodes : list NodeRow.t) (stacks : list StackRow.t) (e : Error) :
  (Env.Date_now env (World.clock w) - Cache.lastCacheRefresh (World.router w)
   <? CACHE_TTL_MS) = false ->
  Env.nodeRows env (List.length (World.executed w)) = Returned nodes ->
  Env.stackRows env (S (List.length (World.executed w))) = Returned stacks ->
  Env.domainRows env (S (S (List.length (World.executed w)))) = Thrown e ->
  refreshCache env w
  = (Returned tt,
     World.mk
       (Cache.setAllStacks (List.map stackOfRow stacks)
          (Cache.setAllNodes (List.map nodeOfRow nodes) (World.router w)))
       (World.handler w) (S (World.clock w))
       (World.executed w ++ [SelectNodes; SelectStacks; SelectDomains])).
Proof.
  intros Hout Hn Hs Hd.
  unfold refreshCache, bind, Date_now, gets, ret, tryCatch, execute, update, modify.
  cbn. rewrite Hout. cbn. rewrite Hn.
  rewrite !length_snoc. rewrite Hs, Hd. cbn.
  rewrite <- !app_assoc. reflexivity.
Qed.

End CacheFacts.

(** C8, as amended.  After a successful refresh, a second [refreshCache]
    call whose clock reading lies within 60000 ms of the first one's is a
    no-op: it returns without executing a statement and leaves the
    snapshot, the label indices and the refresh timestamp as they are.  The
    two calls together load the catalog once: the statements executed are
    the three reads (nodes, stacks, domains) of the first call. *)
Theorem refreshCache_twice_within_ttl
  (env : Env.t) (w w' : World.t)
  (nodes : list NodeRow.t) (stacks : list StackRow.t) (domains : list DomainRow.t) :
  (Env.Date_now env (World.clock w) - Cache.lastCacheRefresh (World.router w)
   <? CACHE_TTL_MS)%float = false ->
  Env.nodeRows env (List.length (World.executed w)) = Returned nodes ->
  Env.stackRows env (S (List.length (World.executed w))) = Returned stacks ->
  Env.domainRows env (S (S (List.length (World.executed w)))) = Returned domains ->
  World.router w' = World.router (snd (refreshCache env w)) ->
  (Env.Date_now env (World.clock w') - Env.Date_now env (World.clock w)
   <? 60000)%float = true ->
  fst (refreshCache env w) = Returned tt
  /\ World.executed (snd (refreshCache env w))
     = World.executed w ++ [SelectNodes; SelectStacks; SelectDomains]
  /\ Cache.lastCacheRefresh (World.router (snd (refreshCache env w)))
     = Env.Date_now env (World.clock w)
  /\ fst (refreshCache env w') = Returned tt
  /\ World.router (snd (refreshCache env w')) = World.router (snd (refreshCache env w))
  /\ World.executed (snd (refreshCache env w')) = World.executed w'.
Proof.
  intros Hout Hn Hs Hd Hr Hin.
  rewrite (CacheFacts.refreshCache_success env w nodes stacks domains Hout Hn Hs Hd) in *.
  simpl in Hr. simpl.
  rewrite (CacheFacts.refreshCache_within_window env w').
  - simpl. repeat split; auto.
  - rewrite Hr. simpl. exact Hin.
Qed.

Lemma refreshCache_twice_witness :
  World.executed
    (snd (refreshCache Examples.healthy (snd (refreshCache Examples.healthy World.initial))))
  = [SelectNodes; SelectStacks; SelectDomains].
Proof.
  pose proof (refreshCache_twice_within_ttl Examples.healthy World.initial
                (snd (refreshCache Examples.healthy World.initial))
                Examples.someNodes Examples.someStacks Examples.someDomains) as H.
  destruct H as (_ & H1 & _ & _ & _ & H2).
  - vm_compute. reflexivity.
  - reflexivity.
  - reflexivity.
  - reflexivity.
  - reflexivity.
  - vm_compute. reflexivity.
  - rewrite H2. exact H1.
Defined.

(** C8 as stated fails on the count: the two calls execute three reads of
    the store, not one. *)
Lemma refreshCache_twice_counterexample :
  fst (refreshCache Examples.healthy World.initial) = Returned tt
  /\ (Env.Date_now Examples.healthy
        (World.clock (snd (refreshCache Examples.healthy World.initial)))
      - Cache.lastCacheRefresh
          (World.router (snd (refreshCache Examples.healthy World.initial)))
      <? 60000)%float = true
  /\ List.length
       (World.executed
          (snd (refreshCache Examples.healthy
                  (snd (refreshCache Examples.healthy World.initial)))))
     = 3.
Proof. repeat split; vm_compute; reflexivity. Qed.

(** C3, at a failing input.  The store answers a first refresh; 61 seconds
    later the read of the stacks fails after the read of the nodes has
    succeeded.  The call returns normally, but [allNodes] already holds the
    new rows while the label indices and the timestamp are the old ones:
    the previous snapshot is not left unchanged. *)
Theorem refreshCache_tears_snapshot :
  fst (refreshCache Examples.flaky Examples.refreshedOnce) = Returned tt
  /\ Cache.allNodes (World.router (snd (refreshCache Examples.flaky Examples.refreshedOnce)))
     = List.map nodeOfRow Examples.moreNodes
  /\ Cache.allNodes (World.router (snd (refreshCache Examples.flaky Examples.refreshedOnce)))
     <> Cache.allNodes (World.router Examples.refreshedOnce)
  /\ Cache.labelIndex (World.router (snd (refreshCache Examples.flaky Examples.refreshedOnce)))
     = Cache.labelIndex (World.router Examples.refreshedOnce)
  /\ snapshot (World.router (snd (refreshCache Examples.flaky Examples.refreshedOnce)))
     <> snapshot (World.router Examples.refreshedOnce).
Proof.
  split; [vm_compute; reflexivity|].
  split; [vm_compute; reflexivity|].
  assert (Hne : Cache.allNodes
                  (World.router (snd (refreshCache Examples.flaky Examples.refreshedOnce)))
                <> Cache.allNodes (World.router Examples.refreshedOnce)).
  { vm_compute. discriminate. }
  split; [exact Hne|].
  split; [vm_compute; reflexivity|].
  intros E. apply Hne. unfold snapshot in E. congruence.
Qed.

(* ===================================================================== *)
(** * The entry point *)
(* ===================================================================== *)

Module HandlerFacts.
Import Types Store Eff Async Js Algorithms AutoRouter Handler Spec.
Import SortFacts AlgorithmFacts QualityFacts.
Local Open Scope float_scope.

Lemma total_ret {A} (a : A) (P : A -> Prop) : P a -> total (ret a) P.
Proof. intros H env w. exists a, w. auto. Qed.

Lemma total_bind {A B} (c : M A) (k : A -> M B) (P : A -> Prop) (Q : B -> Prop) :
  total c P -> (forall a, P a -> total (k a) Q) -> total (bind c k) Q.
Proof.
  intros Hc Hk env w. destruct (Hc env w) as (a & w1 & E1 & H1 & Pa).
  destruct (Hk a Pa env w1) as (b & w2 & E2 & H2 & Qb).
  exists b, w2. unfold bind. rewrite E1, E2. split; [reflexivity|].
  split; [congruence|exact Qb].
Qed.

Lemma total_weaken {A} (c : M A) (P Q : A -> Prop) :
  total c P -> (forall a, P a -> Q a) -> total c Q.
Proof.
  intros Hc HPQ env w. destruct (Hc env w) as (a & w' & E & H & Pa). eauto 6.
Qed.

Lemma total_tryCatch {A} (body : M A) (handler : Error -> M A) (P : A -> Prop) :
  total body P -> total (tryCatch body handler) P.
Proof.
  intros Hb env w. destruct (Hb env w) as (a & w' & E & H & Pa).
  exists a, w'. unfold tryCatch. rewrite E. auto.
Qed.

Lemma total_Date_now : total Date_now (fun _ => True).
Proof. intros env w. eexists _, _. unfold Date_now. split; [reflexivity|]. auto. Qed.

Lemma total_gets {A} (f : World.t -> A) : total (gets f) (fun _ => True).
Proof. intros env w. exists (f w), w. auto. Qed.

(** A statement whose failure is caught. *)
Lemma total_execute_caught {A B} (stmt : Statement) (reply : Env.t -> nat -> Outcome A)
  (k : A -> B) (b : B) :
  total (tryCatch (bind (execute stmt reply) (fun a => ret (k a))) (fun _ => ret b))
        (fun _ => True).
Proof.
  intros env w. unfold tryCatch, bind, execute, ret.
  destruct (reply env _); eexists _, _; (split; [reflexivity|]); auto.
Qed.

Lemma total_refreshCache : total refreshCache (fun _ => True).
Proof.
  intros env w.
  unfold refreshCache, bind, Date_now, gets, ret, tryCatch, execute,
    AutoRouter.update, modify.
  cbn. destruct (_ <? CACHE_TTL_MS); [eexists _, _; split; [reflexivity|auto]|].
  cbn. destruct (Env.nodeRows env _); [|eexists _, _; split; [reflexivity|auto]].
  destruct (Env.stackRows env _); [|eexists _, _; split; [reflexivity|auto]].
  destruct (Env.domainRows env _); eexists _, _; (split; [reflexivity|auto]).
Qed.

Lemma total_getMemories (aiType : AIType) (domainIds : list string) (limit : Z) :
  total (getMemories aiType domainIds limit) (fun _ => True).
Proof.
  unfold getMemories. destruct (List.length domainIds =? 0)%nat.
  - apply total_ret. exact I.
  - apply total_execute_caught.
Qed.

Lemma total_autoRoute (aiType : AIType) (slot : Slot) (prompt : string) (mode : DeviceMode) :
  total (autoRoute aiType slot prompt mode) (fun _ => True).
Proof.
  unfold autoRoute.
  eapply total_bind; [apply total_refreshCache|]. intros _ _.
  eapply total_bind; [apply total_gets|]. intros c _. cbv zeta.
  eapply total_bind; [apply total_getMemories|]. intros ms _.
  apply total_ret. exact I.
Qed.

Lemma total_callAIModel (config : AIModelConfig.t) (prompt : string) :
  total (callAIModel config prompt) (fun _ => True).
Proof.
  intros env w. unfold callAIModel, tryCatch, ret.
  destruct (Env.generate env config prompt); eexists _, _; (split; [reflexivity|]); auto.
Qed.

Lemma total_insert_caught (stmt : Statement) :
  total (tryCatch (execute stmt (fun env n => Env.insertReply env n stmt))
                  (fun _ => ret tt))
        (fun _ => True).
Proof.
  intros env w. unfold tryCatch, execute, ret.
  destruct (Env.insertReply env _ stmt); eexists _, _; (split; [reflexivity|]); auto.
Qed.

Lemma total_logRoutingDecision aiType slot mode prompt routing timeMs :
  total (logRoutingDecision aiType slot mode prompt routing timeMs) (fun _ => True).
Proof. apply total_insert_caught. Qed.

Lemma total_logResponse (result : AISystemResult.t) :
  total (logResponse result) (fun _ => True).
Proof. apply total_insert_caught. Qed.

(** A model task always returns a response for its slot: a failure of the
    store or of the model client ends in a response, not in an exception. *)
Lemma total_executeModel (aiType : AIType) (slot : Slot) (prompt : string)
  (mode : DeviceMode) (config : AIModelConfig.t) :
  total (executeModel aiType slot prompt mode config)
        (fun r => ModelResponse.modelSlot r = slot).
Proof.
  unfold executeModel.
  eapply total_bind; [apply total_Date_now|]. intros startTime _.
  apply total_tryCatch.
  eapply total_bind; [apply total_autoRoute|]. intros routing _. cbv zeta.
  eapply total_bind; [apply total_callAIModel|]. intros response _.
  eapply total_bind; [apply total_Date_now|]. intros now _.
  eapply total_bind; [apply total_tryCatch, total_logRoutingDecision|]. intros _ _.
  apply total_ret. reflexivity.
Qed.

Lemma refreshModelConfig_returns (env : Env.t) (w : World.t) :
  exists w', refreshModelConfig env w = (Returned tt, w').
Proof.
  unfold refreshModelConfig, bind, Date_now, gets, ret, tryCatch, execute,
    Handler.update, modify.
  cbn. destruct (_ <? CONFIG_CACHE_TTL_MS); [eauto|].
  cbn. destruct (Env.configRows env _); eauto.
Qed.

(** A slot has a configuration exactly when a row is cached for it. *)
Lemma getModelConfig_None (h : ConfigCache.t) (aiType : AIType) (slot : Slot) :
  getModelConfig h aiType slot = None <-> noConfigRows h aiType slot.
Proof.
  unfold getModelConfig, noConfigRows. cbv zeta.
  destruct (default [] _) as [|c cs]; simpl.
  - tauto.
  - destruct (AIModelConfig.isPrimary c); [split; discriminate|].
    destruct (List.find AIModelConfig.isPrimary cs); split; discriminate.
Qed.

(** The fused answer is never the empty string. *)
Lemma fusedAnswer_nonempty (t : AIType) (input : KnowledgeAlgorithmInput.t) :
  KnowledgeAlgorithmOutput.fusedAnswer (algorithm t input) <> "".
Proof.
  destruct (validResponsesOf input) as [|r0 rs] eqn:Ev.
  - rewrite (algorithm_no_valid t input Ev). destruct t; discriminate.
  - assert (Hv : validResponsesOf input <> []) by (rewrite Ev; discriminate).
    destruct (algorithm_valid t input Hv) as (primary & rest & Es & -> & _).
    assert (Hin : In primary (sortedScores t input)) by (rewrite Es; left; reflexivity).
    apply sortedScores_In in Hin as (r & Hr & ->). simpl.
    apply (validResponsesOf_In input), isValid_spec in Hr as [_ Ht].
    apply trim_nonempty, Ht.
Qed.

Lemma runKnowledgeAlgorithm_algorithm (input : KnowledgeAlgorithmInput.t) :
  runKnowledgeAlgorithm input = algorithm (KnowledgeAlgorithmInput.aiType input) input.
Proof. unfold runKnowledgeAlgorithm. destruct (KnowledgeAlgorithmInput.aiType input); reflexivity. Qed.

End HandlerFacts.

(** C4, as amended.  [executeAISystem] throws only when, after the refresh
    of the model configuration, no configuration row is cached for at least
    one of the three slots of the requested type (the error is "Missing
    model configuration"); in every other case - whatever the store, the
    clock and the model client do, including failures of single model slots
    and of logging - it returns a well-formed [AISystemResult]. *)
Theorem executeAISystem_throws_only_for_missing_config
  (aiType : AIType) (prompt : string) (mode : DeviceMode) (env : Env.t) (w : World.t) :
  exists o w',
    executeAISystem aiType prompt mode env w = (o, w')
    /\ World.handler w' = World.handler (snd (refreshModelConfig env (tick w)))
    /\ match o with
       | Thrown e =>
           e = missingConfiguration aiType
           /\ exists slot, noConfigRows (World.handler w') aiType slot
       | Returned r =>
           (forall slot, ~ noConfigRows (World.handler w') aiType slot)
           /\ wellFormed aiType prompt mode r
       end.
Proof.
  unfold executeAISystem.
  unfold bind at 1. unfold Date_now at 1. fold (tick w).
  destruct (HandlerFacts.refreshModelConfig_returns env (tick w)) as (w1 & E1).
  unfold bind at 1. rewrite E1. simpl snd.
  unfold bind at 1. unfold gets at 1.
  destruct (getModelConfig (World.handler w1) aiType slot1) as [config1|] eqn:G1;
    [|eexists _, _; split; [reflexivity|]; split; [reflexivity|];
      split; [reflexivity|]; exists slot1; apply HandlerFacts.getModelConfig_None, G1].
  destruct (getModelConfig (World.handler w1) aiType slot2) as [config2|] eqn:G2;
    [|eexists _, _; split; [reflexivity|]; split; [reflexivity|];
      split; [reflexivity|]; exists slot2; apply HandlerFacts.getModelConfig_None, G2].
  destruct (getModelConfig (World.handler w1) aiType slot3) as [config3|] eqn:G3;
    [|eexists _, _; split; [reflexivity|]; split; [reflexivity|];
      split; [reflexivity|]; exists slot3; apply HandlerFacts.getModelConfig_None, G3].
  destruct (HandlerFacts.total_executeModel aiType slot1 prompt mode config1 env w1)
    as (r1 & w2 & E2 & H2 & S1).
  unfold bind at 1. rewrite E2.
  destruct (HandlerFacts.total_executeModel aiType slot2 prompt mode config2 env w2)
    as (r2 & w3 & E3 & H3 & S2).
  unfold bind at 1. rewrite E3.
  destruct (HandlerFacts.total_executeModel aiType slot3 prompt mode config3 env w3)
    as (r3 & w4 & E4 & H4 & S3).
  unfold bind at 1. rewrite E4. cbv zeta.
  unfold bind at 1. unfold Date_now at 1.
  set (w5 := World.mk _ _ _ _).
  set (result := AISystemResult.mk _ _ _ _ _ _ _ _ _ _).
  destruct (HandlerFacts.total_tryCatch _ (fun _ => ret tt) _
              (HandlerFacts.total_logResponse result) env w5)
    as (u & w6 & E6 & H6 & _).
  unfold bind. unfold swallow. rewrite E6. unfold ret.
  exists (Returned result), w6. split; [reflexivity|].
  assert (Hh : World.handler w6 = World.handler w1).
  { rewrite H6. subst w5. simpl. congruence. }
  split; [exact Hh|]. split.
  - intros slot Hno. rewrite Hh in Hno.
    apply HandlerFacts.getModelConfig_None in Hno. destruct slot; congruence.
  - unfold wellFormed. subst result. simpl.
    repeat (split; [solve [auto]|]).
    rewrite HandlerFacts.runKnowledgeAlgorithm_algorithm.
    apply HandlerFacts.fusedAnswer_nonempty.
Qed.

(** C4 as stated fails: rows for slots 1 and 2 of [brain] are present, so
    the rows of the type are not entirely absent, yet the call throws
    because slot 3 has none. *)
Lemma executeAISystem_counterexample :
  fst (executeAISystem brain "hello" professional Examples.slot3Unconfigured World.initial)
  = Thrown (missingConfiguration brain)
  /\ ~ noConfigRows
       (World.handler
          (snd (executeAISystem brain "hello" professional
                  Examples.slot3Unconfigured World.initial)))
       brain slot1.
Proof.
  split; [vm_compute; reflexivity|].
  unfold noConfigRows. vm_compute. discriminate.
Qed.

(* ===================================================================== *)
(** * Further properties: the knowledge algorithms *)
(* ===================================================================== *)

Module FusionFacts.
Import Types Js Algorithms Spec SortFacts AlgorithmFacts QualityFacts WeightFacts.
Local Open Scope float_scope.

Lemma overlap_sym (words1 words2 : gset string) :
  size (filter (fun w => w ∈ words2) words1) = size (filter (fun w => w ∈ words1) words2).
Proof.
  f_equal. apply set_eq. intros w. rewrite !elem_of_filter. tauto.
Qed.

(** On the quality values the comparator of the sort is the strict order
    of the floats, which is total and transitive there. *)
Lemma values_cmp (a b : float) :
  In a qualityValues -> In b qualityValues -> (0 <? b - a) = (a <? b).
Proof.
  intros Ha Hb.
  assert (H : PrimFloat.Leibniz.eqb (if 0 <? b - a then 1 else 0) (if a <? b then 1 else 0)
              = true).
  { revert a b Ha Hb.
    apply (forallb_In2 qualityValues
             (fun a b => PrimFloat.Leibniz.eqb (if 0 <? b - a then 1 else 0)
                                               (if a <? b then 1 else 0))).
    vm_compute. reflexivity. }
  destruct (0 <? b - a), (a <? b); try reflexivity; vm_compute in H; discriminate.
Qed.

Lemma values_total (a b : float) :
  In a qualityValues -> In b qualityValues -> (a <? b) = false -> (b <=? a) = true.
Proof.
  intros Ha Hb.
  assert (H : (a <? b) || (b <=? a) = true).
  { revert a b Ha Hb.
    apply (forallb_In2 qualityValues (fun a b => (a <? b) || (b <=? a))).
    vm_compute. reflexivity. }
  intros E. rewrite E in H. exact H.
Qed.

Lemma values_lt_le (a b : float) :
  In a qualityValues -> In b qualityValues -> (a <? b) = true -> (a <=? b) = true.
Proof.
  intros Ha Hb.
  assert (H : implb (a <? b) (a <=? b) = true).
  { revert a b Ha Hb.
    apply (forallb_In2 qualityValues (fun a b => implb (a <? b) (a <=? b))).
    vm_compute. reflexivity. }
  intros E. rewrite E in H. exact H.
Qed.

Lemma values_trans (a b c : float) :
  In a qualityValues -> In b qualityValues -> In c qualityValues ->
  (a <=? b) = true -> (b <=? c) = true -> (a <=? c) = true.
Proof.
  intros Ha Hb Hc.
  assert (H : implb ((a <=? b) && (b <=? c)) (a <=? c) = true).
  { revert a b c Ha Hb Hc.
    apply (forallb_In3 qualityValues
             (fun a b c => implb ((a <=? b) && (b <=? c)) (a <=? c))).
    vm_compute. reflexivity. }
  intros E1 E2. rewrite E1, E2 in H. exact H.
Qed.

Lemma values_refl (a : float) : In a qualityValues -> (a <=? a) = true.
Proof.
  revert a. apply (forallb_In1 qualityValues (fun a => a <=? a)).
  vm_compute. reflexivity.
Qed.

(** The head of the sorted scores has the greatest quality. *)
Lemma sort_head_greatest (scores : list Scored.t) :
  (forall s, In s scores -> In (Scored.quality s) qualityValues) ->
  forall h rest, sort byQualityDesc scores = h :: rest ->
  forall s, In s scores -> (Scored.quality s <=? Scored.quality h) = true.
Proof.
  induction scores as [|x l IH]; intros HV h rest Es s Hs; [contradiction|].
  assert (HVl : forall s, In s l -> In (Scored.quality s) qualityValues).
  { intros s' Hs'. apply HV. right. exact Hs'. }
  assert (Hx : In (Scored.quality x) qualityValues) by (apply HV; left; reflexivity).
  unfold sort in Es. simpl in Es. fold (sort byQualityDesc l) in Es.
  destruct (sort byQualityDesc l) as [|y l'] eqn:El.
  - apply sort_nil_inv in El. subst l. simpl in Es. injection Es as <- _.
    destruct Hs as [<-|[]]. apply values_refl, Hx.
  - assert (Hy : In (Scored.quality y) qualityValues).
    { apply HVl. apply (sort_In byQualityDesc). rewrite El. left. reflexivity. }
    specialize (IH HVl y l' eq_refl).
    simpl in Es. unfold byQualityDesc at 1 in Es.
    rewrite (values_cmp _ _ Hx Hy) in Es.
    destruct (Scored.quality x <? Scored.quality y) eqn:E.
    + injection Es as <- _. destruct Hs as [<-|Hs].
      * apply values_lt_le; assumption.
      * apply IH, Hs.
    + injection Es as <- _. destruct Hs as [<-|Hs].
      * apply values_refl, Hx.
      * apply (values_trans _ (Scored.quality y)); auto.
        apply values_total; assumption.
Qed.

Lemma heart_quality_range (q : float) (consensus : bool) :
  In q qualityValues ->
  (0.5 <=? Math.min 1 (q + (if consensus then 0.1 else 0))) = true
  /\ (Math.min 1 (q + (if consensus then 0.1 else 0)) <=? 1) = true.
Proof.
  intros Hq.
  assert (H : (0.5 <=? Math.min 1 (q + (if consensus then 0.1 else 0)))
              && (Math.min 1 (q + (if consensus then 0.1 else 0)) <=? 1) = true).
  { revert q Hq. destruct consensus;
      apply (forallb_In1 qualityValues); vm_compute; reflexivity. }
  apply andb_true_iff in H. exact H.
Qed.

Lemma system_quality_range (q : float) (consensus : bool) :
  In q qualityValues ->
  (0.4 <=? (if consensus then q else q * 0.8)) = true
  /\ ((if consensus then q else q * 0.8) <=? 1) = true.
Proof.
  intros Hq.
  assert (H : (0.4 <=? (if consensus then q else q * 0.8))
              && ((if consensus then q else q * 0.8) <=? 1) = true).
  { revert q Hq. destruct consensus;
      apply (forallb_In1 qualityValues); vm_compute; reflexivity. }
  apply andb_true_iff in H. exact H.
Qed.

Lemma sortedScores_values (t : AIType) (input : KnowledgeAlgorithmInput.t) (s : Scored.t) :
  In s (sortedScores t input) -> In (Scored.quality s) qualityValues.
Proof.
  intros Hs. apply sortedScores_In in Hs as (r & Hr & ->). simpl.
  apply qualityIn_value, (validResponsesOf_In input), Hr.
Qed.

End FusionFacts.

(** X1.  [calculateSimilarity] is symmetric in its two texts. *)
Theorem calculateSimilarity_symmetric (text1 text2 : string) :
  calculateSimilarity text1 text2 = calculateSimilarity text2 text1.
Proof.
  unfold calculateSimilarity.
  rewrite (orb_comm (negb (truthy text1))).
  destruct (negb (truthy text2) || negb (truthy text1)); [reflexivity|].
  cbv zeta.
  rewrite (orb_comm (size (wordSet text1) =? 0)%nat).
  destruct ((size (wordSet text2) =? 0)%nat || (size (wordSet text1) =? 0)%nat);
    [reflexivity|].
  rewrite FusionFacts.overlap_sym, Nat.max_comm. reflexivity.
Qed.

(** X2.  Whenever a knowledge algorithm (brain, heart or system) is given a
    valid response, its fused answer is the text, and its selected primary
    the slot, of a valid response whose quality no valid response
    exceeds. *)
Theorem primary_has_greatest_quality (t : AIType) (input : KnowledgeAlgorithmInput.t) :
  validResponsesOf input <> [] ->
  exists r,
    In r (validResponsesOf input)
    /\ KnowledgeAlgorithmOutput.fusedAnswer (algorithm t input) = ModelResponse.response r
    /\ KnowledgeAlgorithmOutput.selectedPrimary (algorithm t input)
       = ModelResponse.modelSlot r
    /\ forall r', In r' (validResponsesOf input) ->
                  (qualityIn t r' <=? qualityIn t r)%float = true.
Proof.
  intros Hv.
  destruct (AlgorithmFacts.algorithm_valid t input Hv) as (primary & rest & Es & Ef & Ep & _).
  assert (Hin : In primary (sortedScores t input)) by (rewrite Es; left; reflexivity).
  destruct (QualityFacts.sortedScores_In t input primary Hin) as (r & Hr & Epr).
  exists r. rewrite Ef, Ep, Epr. simpl.
  split; [exact Hr|]. split; [reflexivity|]. split; [reflexivity|].
  intros r' Hr'.
  assert (Hs' : In (Scored.mk r' (qualityIn t r')) (scoresIn t (validResponsesOf input))).
  { rewrite AlgorithmFacts.scoresIn_map. apply in_map_iff. exists r'. auto. }
  pose proof (FusionFacts.sort_head_greatest (scoresIn t (validResponsesOf input))) as H.
  specialize (H (fun s Hs => FusionFacts.sortedScores_values t input s
                               (proj2 (SortFacts.sort_In byQualityDesc _ s) Hs))).
  specialize (H primary rest Es _ Hs'). rewrite Epr in H. exact H.
Qed.

Lemma primary_has_greatest_quality_witness :
  exists r,
    In r (validResponsesOf Examples.threeValid)
    /\ KnowledgeAlgorithmOutput.fusedAnswer (systemKnowledgeAlgorithm Examples.threeValid)
       = ModelResponse.response r
    /\ KnowledgeAlgorithmOutput.selectedPrimary (systemKnowledgeAlgorithm Examples.threeValid)
       = ModelResponse.modelSlot r
    /\ forall r', In r' (validResponsesOf Examples.threeValid) ->
                  (systemQuality r' <=? systemQuality r)%float = true.
Proof.
  apply (primary_has_greatest_quality system Examples.threeValid).
  vm_compute. discriminate.
Defined.

(** X3.  With at least one valid response the quality score of the heart
    algorithm lies in [0.5, 1] and that of the system algorithm in
    [0.4, 1]: neither reports the zero of the failure answer. *)
Theorem heart_and_system_quality_score_range (input : KnowledgeAlgorithmInput.t) :
  validResponsesOf input <> [] ->
  ((0.5 <=? KnowledgeAlgorithmOutput.qualityScore (heartKnowledgeAlgorithm input))%float = true
   /\ (KnowledgeAlgorithmOutput.qualityScore (heartKnowledgeAlgorithm input) <=? 1)%float = true)
  /\ ((0.4 <=? KnowledgeAlgorithmOutput.qualityScore (systemKnowledgeAlgorithm input))%float = true
      /\ (KnowledgeAlgorithmOutput.qualityScore (systemKnowledgeAlgorithm input) <=? 1)%float = true).
Proof.
  intros Hv.
  assert (Hl : (List.length (validResponsesOf input) =? 0)%nat = false).
  { destruct (validResponsesOf input); [contradiction|reflexivity]. }
  split.
  - destruct (AlgorithmFacts.algorithm_valid heart input Hv) as (primary & rest & Es & _).
    assert (Hq : In (Scored.quality primary) qualityValues).
    { apply (FusionFacts.sortedScores_values heart input). rewrite Es. left. reflexivity. }
    unfold sortedScores in Es. simpl in Es.
    unfold heartKnowledgeAlgorithm. rewrite Hl, Es. simpl.
    apply FusionFacts.heart_quality_range, Hq.
  - destruct (AlgorithmFacts.algorithm_valid system input Hv) as (primary & rest & Es & _).
    assert (Hq : In (Scored.quality primary) qualityValues).
    { apply (FusionFacts.sortedScores_values system input). rewrite Es. left. reflexivity. }
    unfold sortedScores in Es. simpl in Es.
    unfold systemKnowledgeAlgorithm. rewrite Hl, Es. simpl.
    destruct (severityConsensusOf (validResponsesOf input)) eqn:Ec.
    + exact (FusionFacts.system_quality_range _ true Hq).
    + exact (FusionFacts.system_quality_range _ false Hq).
Qed.

Lemma heart_and_system_quality_score_witness :
  (0.5 <=? KnowledgeAlgorithmOutput.qualityScore
             (heartKnowledgeAlgorithm Examples.threeValid))%float = true.
Proof.
  refine (proj1 (proj1 (heart_and_system_quality_score_range Examples.threeValid _))).
  vm_compute. discriminate.
Defined.

(* ===================================================================== *)
(** * Further properties: the label index and the selection *)
(* ===================================================================== *)

Module IndexFacts.
Import Types Store Eff Async Js AutoRouter Spec Props SortFacts.
Local Open Scope float_scope.

Lemma pushAt_lookup `{Countable K} {A} (k k' : K) (x : A) (m : gmap K (list A)) :
  default [] (pushAt k' x m !! k)
  = default [] (m !! k) ++ (if bool_decide (k' = k) then [x] else []).
Proof.
  unfold pushAt. destruct (bool_decide_reflect (k' = k)) as [->|Hne].
  - rewrite lookup_insert_eq. reflexivity.
  - rewrite lookup_insert_ne by exact Hne. rewrite app_nil_r. reflexivity.
Qed.

Lemma fold_pushAt `{Countable K} {A} (key : A -> K) (l : list A) :
  forall (m : gmap K (list A)) (k : K),
    default [] (fold_left (fun m x => pushAt (key x) x m) l m !! k)
    = default [] (m !! k) ++ List.filter (fun x => bool_decide (key x = k)) l.
Proof.
  induction l as [|x l IH]; intros m k; simpl.
  - rewrite app_nil_r. reflexivity.
  - rewrite IH, pushAt_lookup.
    destruct (bool_decide (key x = k)); rewrite <- app_assoc; reflexivity.
Qed.

Lemma fold_pushAt_slot (l : list AINode.t) :
  forall (m : gmap Slot (list AINode.t)) (k : Slot),
    default []
      (fold_left (fun m n => match AINode.modelSlot n with
                             | Some slot => pushAt slot n m
                             | None => m
                             end) l m !! k)
    = default [] (m !! k)
      ++ List.filter (fun n => bool_decide (AINode.modelSlot n = Some k)) l.
Proof.
  induction l as [|x l IH]; intros m k; simpl.
  - rewrite app_nil_r. reflexivity.
  - rewrite IH. destruct (AINode.modelSlot x) as [slot|].
    + rewrite pushAt_lookup.
      destruct (bool_decide_reflect (slot = k)) as [->|Hne].
      * rewrite bool_decide_true by reflexivity. rewrite <- app_assoc. reflexivity.
      * rewrite bool_decide_false by congruence. rewrite app_nil_r. reflexivity.
    + rewrite bool_decide_false by discriminate. reflexivity.
Qed.

Lemma fold_insert_last {A} (key : A -> string) (l : list A) :
  forall (m : gmap string A) (k : string),
    fold_left (fun m x => <[key x := x]> m) l m !! k
    = match last (List.filter (fun x => bool_decide (key x = k)) l) with
      | Some x => Some x
      | None => m !! k
      end.
Proof.
  induction l as [|x l IH]; intros m k; simpl; [reflexivity|].
  rewrite IH.
  destruct (bool_decide_reflect (key x = k)) as [E|Hne].
  - destruct (List.filter _ l) as [|y l'] eqn:El; simpl.
    + rewrite E, lookup_insert_eq. reflexivity.
    + change (last (x :: y :: l')) with (last (y :: l')).
      destruct (last (y :: l')) eqn:Ey; [reflexivity|].
      apply last_None in Ey. discriminate.
  - destruct (last _); [reflexivity|]. apply lookup_insert_ne, Hne.
Qed.

(** The passes of [buildLabelIndex] touch one map each, the first one two. *)
Lemma indexNode_fold (l : list AINode.t) :
  forall idx,
    fold_left indexNode l idx
    = LabelIndex.mk
        (fold_left (fun m n => <[toUpperCase (AINode.label n) := n]> m) l
                   (LabelIndex.nodes idx))
        (LabelIndex.stacks idx) (LabelIndex.domains idx)
        (fold_left (fun m n => match AINode.modelSlot n with
                               | Some slot => pushAt slot n m
                               | None => m
                               end) l (LabelIndex.nodesByModel idx)).
Proof.
  induction l as [|x l IH]; intros [a b c d]; simpl; [reflexivity|].
  rewrite IH. reflexivity.
Qed.

Lemma indexStack_fold (l : list AIStack.t) :
  forall idx,
    fold_left indexStack l idx
    = LabelIndex.mk (LabelIndex.nodes idx)
        (fold_left (fun m s => pushAt (AIStack.nodeId s) s m) l (LabelIndex.stacks idx))
        (LabelIndex.domains idx) (LabelIndex.nodesByModel idx).
Proof.
  induction l as [|x l IH]; intros [a b c d]; simpl; [reflexivity|].
  rewrite IH. reflexivity.
Qed.

Lemma indexDomain_fold (l : list AIDomain.t) :
  forall idx,
    fold_left indexDomain l idx
    = LabelIndex.mk (LabelIndex.nodes idx) (LabelIndex.stacks idx)
        (fold_left (fun m d => pushAt (AIDomain.stackId d) d m) l (LabelIndex.domains idx))
        (LabelIndex.nodesByModel idx).
Proof.
  induction l as [|x l IH]; intros [a b c d]; simpl; [reflexivity|].
  rewrite IH. reflexivity.
Qed.

Lemma labelIndexOf_maps (nodes : list AINode.t) (stacks : list AIStack.t)
  (domains : list AIDomain.t) :
  labelIndexOf nodes stacks domains
  = LabelIndex.mk
      (fold_left (fun m n => <[toUpperCase (AINode.label n) := n]> m) nodes ∅)
      (fold_left (fun m s => pushAt (AIStack.nodeId s) s m) stacks ∅)
      (fold_left (fun m d => pushAt (AIDomain.stackId d) d m) domains ∅)
      (fold_left (fun m n => match AINode.modelSlot n with
                             | Some slot => pushAt slot n m
                             | None => m
                             end) nodes ∅).
Proof.
  unfold labelIndexOf. cbv zeta.
  rewrite indexDomain_fold, indexStack_fold, indexNode_fold. reflexivity.
Qed.

Lemma labelIndexOf_stacks nodes stacks domains (nodeId : string) :
  default [] (LabelIndex.stacks (labelIndexOf nodes stacks domains) !! nodeId)
  = List.filter (fun s => bool_decide (AIStack.nodeId s = nodeId)) stacks.
Proof. rewrite labelIndexOf_maps. simpl. rewrite fold_pushAt, lookup_empty. reflexivity. Qed.

Lemma labelIndexOf_domains nodes stacks domains (stackId : string) :
  default [] (LabelIndex.domains (labelIndexOf nodes stacks domains) !! stackId)
  = List.filter (fun d => bool_decide (AIDomain.stackId d = stackId)) domains.
Proof. rewrite labelIndexOf_maps. simpl. rewrite fold_pushAt, lookup_empty. reflexivity. Qed.

Lemma labelIndexOf_nodesByModel nodes stacks domains (slot : Slot) :
  default [] (LabelIndex.nodesByModel (labelIndexOf nodes stacks domains) !! slot)
  = List.filter (fun n => bool_decide (AINode.modelSlot n = Some slot)) nodes.
Proof.
  rewrite labelIndexOf_maps. simpl. rewrite fold_pushAt_slot, lookup_empty. reflexivity.
Qed.

Lemma default_Some {A} (o : option (list A)) (l : list A) :
  o = Some l -> default [] o = l.
Proof. intros ->. reflexivity. Qed.

Lemma labelIndexOf_keyed nodes stacks domains :
  keyedIndex (labelIndexOf nodes stacks domains).
Proof.
  split; [|split].
  - intros k l E s Hs. apply default_Some in E.
    rewrite labelIndexOf_stacks in E. subst l.
    apply filter_In in Hs as [_ Hs]. apply bool_decide_eq_true in Hs. exact Hs.
  - intros k l E s Hs. apply default_Some in E.
    rewrite labelIndexOf_domains in E. subst l.
    apply filter_In in Hs as [_ Hs]. apply bool_decide_eq_true in Hs. exact Hs.
  - intros k l E s Hs. apply default_Some in E.
    rewrite labelIndexOf_nodesByModel in E. subst l.
    apply filter_In in Hs as [_ Hs]. apply bool_decide_eq_true in Hs. exact Hs.
Qed.

(** What [refreshCache] can do to the index: nothing, or replace it by the
    index of the arrays it has just stored. *)
Lemma refreshCache_index (env : Env.t) (w : World.t) :
  exists w',
    refreshCache env w = (Returned tt, w')
    /\ (Cache.labelIndex (World.router w') = Cache.labelIndex (World.router w)
        /\ Cache.lastCacheRefresh (World.router w')
           = Cache.lastCacheRefresh (World.router w)
        \/ indexed (World.router w')
           /\ Cache.lastCacheRefresh (World.router w')
              = Env.Date_now env (World.clock w)).
Proof.
  unfold refreshCache, bind, Date_now, gets, ret, tryCatch, execute, update, modify.
  cbn.
  destruct (_ <? CACHE_TTL_MS); [eexists; split; [reflexivity|left; split; reflexivity]|].
  destruct (Env.nodeRows env _);
    [|eexists; split; [reflexivity|left; split; reflexivity]].
  destruct (Env.stackRows env _);
    [|eexists; split; [reflexivity|left; split; reflexivity]].
  destruct (Env.domainRows env _);
    [|eexists; split; [reflexivity|left; split; reflexivity]].
  eexists; split; [reflexivity|right; split; reflexivity].
Qed.

Lemma In_slice0 {A} (n : Z) (l : list A) (x : A) : In x (slice0 n l) -> In x l.
Proof.
  unfold slice0. destruct (n <? 0)%Z; intros Hx.
  - rewrite <- (firstn_skipn (List.length l - Z.to_nat (- n)) l).
    apply in_or_app. left. exact Hx.
  - rewrite <- (firstn_skipn (Z.to_nat n) l).
    apply in_or_app. left. exact Hx.
Qed.

Lemma In_top {A} (cmp : A -> A -> float) (n : Z) (l : list A) (x : A) :
  In x (slice0 n (sort cmp l)) -> In x l.
Proof. intros Hx. apply (sort_In cmp), (In_slice0 n), Hx. Qed.

Lemma selectDomains_parent (c : Cache.t) (stacks nodes : list SelectedItem.t)
  (prompt : string) (limit : Z) (d : SelectedDomain.t) :
  keyedIndex (Cache.labelIndex c) ->
  In d (selectDomains c stacks nodes prompt limit) ->
  exists s domain,
    In s stacks
    /\ In domain (getDomainsForStack c (SelectedItem.id s))
    /\ AIDomain.stackId domain = SelectedItem.id s
    /\ SelectedDomain.id d = AIDomain.id domain
    /\ SelectedDomain.name d = AIDomain.name domain
    /\ SelectedDomain.stackId d = SelectedItem.id s
    /\ SelectedDomain.stackLabel d = SelectedItem.label s.
Proof.
  intros (_ & Hk & _) Hd. unfold selectDomains in Hd. cbv zeta in Hd.
  apply in_flat_map in Hd as (s & Hs & Hd).
  apply In_top in Hd. apply in_map_iff in Hd as (dom & <- & Hdom).
  assert (Hkey : AIDomain.stackId dom = SelectedItem.id s).
  { destruct (LabelIndex.domains (Cache.labelIndex c) !! SelectedItem.id s) as [l|] eqn:E;
      simpl in Hdom; [|contradiction].
    apply (Hk _ _ E), Hdom. }
  exists s, dom. simpl. auto 8.
Qed.

(** [getMemories] and hence [autoRoute] leave the router's cache as
    [refreshCache] left it. *)
Lemma getMemories_router (aiType : AIType) (domainIds : list string) (limit : Z)
  (env : Env.t) (w : World.t) :
  World.router (snd (getMemories aiType domainIds limit env w)) = World.router w.
Proof.
  unfold getMemories.
  destruct domainIds as [|d ds]; simpl; unfold bind, ret, tryCatch, execute;
    [reflexivity|].
  destruct (Env.memoryRows env _ _ _ _); reflexivity.
Qed.

Lemma selectStacks_parent (c : Cache.t) (nodes : list SelectedItem.t)
  (prompt : string) (limit : Z) (s : SelectedItem.t) :
  keyedIndex (Cache.labelIndex c) ->
  In s (selectStacks c nodes prompt limit) ->
  exists n stack, In n nodes
                  /\ In stack (getStacksForNode c (SelectedItem.id n))
                  /\ AIStack.nodeId stack = SelectedItem.id n
                  /\ s = scoreStack prompt stack.
Proof.
  intros (Hk & _) Hs. unfold selectStacks in Hs.
  apply in_flat_map in Hs as (n & Hn & Hs).
  apply In_top in Hs. apply in_map_iff in Hs as (stack & <- & Hstack).
  exists n, stack. split; [exact Hn|]. split; [exact Hstack|]. split; [|reflexivity].
  destruct (LabelIndex.stacks (Cache.labelIndex c) !! SelectedItem.id n) as [l|] eqn:E;
    simpl in Hstack; [|contradiction].
  apply (Hk _ _ E), Hstack.
Qed.

Lemma autoRoute_selection (aiType : AIType) (slot : Slot) (prompt : string)
  (mode : DeviceMode) (env : Env.t) (w : World.t) :
  exists r w' w1,
    autoRoute aiType slot prompt mode env w = (Returned r, w')
    /\ refreshCache env w = (Returned tt, w1)
    /\ RoutingResult.nodes r
       = selectNodes (World.router w1) aiType slot prompt
           (ModeLimits.nodes (MODE_LIMITS mode))
    /\ RoutingResult.stacks r
       = selectStacks (World.router w1) (RoutingResult.nodes r) prompt
           (ModeLimits.stacks (MODE_LIMITS mode))
    /\ RoutingResult.domains r
       = selectDomains (World.router w1) (RoutingResult.stacks r) (RoutingResult.nodes r)
           prompt (ModeLimits.domains (MODE_LIMITS mode))
    /\ RoutingResult.confidence r = confidenceOf (RoutingResult.domains r)
    /\ RoutingResult.totalDomains r = List.length (RoutingResult.domains r)
    /\ RoutingResult.mode r = mode.
Proof.
  unfold autoRoute.
  destruct (RouterFacts.refreshCache_returns env w) as (w1 & E1).
  unfold bind at 1. rewrite E1.
  unfold bind at 1. unfold gets at 1. cbv zeta.
  set (c := World.router w1).
  set (nodes := selectNodes c aiType slot prompt _).
  set (stacks := selectStacks c nodes prompt _).
  set (domains := selectDomains c stacks nodes prompt _).
  destruct (RouterFacts.getMemories_returns aiType (List.map SelectedDomain.id domains) 5 env w1)
    as (ms & w2 & E2).
  unfold bind. rewrite E2. unfold ret.
  eexists _, w2, w1. split; [reflexivity|]. simpl. auto 10.
Qed.

Lemma refreshCache_keyed (env : Env.t) (w w' : World.t) :
  keyedIndex (Cache.labelIndex (World.router w)) ->
  refreshCache env w = (Returned tt, w') ->
  keyedIndex (Cache.labelIndex (World.router w')).
Proof.
  intros Hk E.
  destruct (refreshCache_index env w) as (w1 & E1 & [[Ei _]|[Ei _]]);
    rewrite E in E1; injection E1 as <-.
  - rewrite Ei. exact Hk.
  - rewrite Ei. apply labelIndexOf_keyed.
Qed.

Lemma autoRoute_router (aiType : AIType) (slot : Slot) (prompt : string)
  (mode : DeviceMode) (env : Env.t) (w : World.t) :
  World.router (snd (autoRoute aiType slot prompt mode env w))
  = World.router (snd (refreshCache env w)).
Proof.
  unfold autoRoute.
  destruct (RouterFacts.refreshCache_returns env w) as (w1 & E1).
  unfold bind at 1. rewrite E1.
  unfold bind at 1. unfold gets at 1. cbv zeta.
  set (domainIds := List.map SelectedDomain.id _).
  pose proof (getMemories_router aiType domainIds 5 env w1) as Hr.
  destruct (RouterFacts.getMemories_returns aiType domainIds 5 env w1) as (ms & w2 & E2).
  unfold bind. rewrite E2 in *. unfold ret. simpl in *. exact Hr.
Qed.

End IndexFacts.

(** X4.  After [buildLabelIndex] the lookups of the index are filters of
    the cached arrays, in array order: the stacks of a node are the stacks
    with that [nodeId], the domains of a stack the domains with that
    [stackId], the nodes of a model slot the nodes with that [modelSlot],
    and the node of a label is the last node whose upper-cased label is the
    upper-cased argument. *)
Theorem buildLabelIndex_lookups (c : Cache.t) :
  (forall nodeId,
      getStacksForNode (buildLabelIndex c) nodeId
      = List.filter (fun s => bool_decide (AIStack.nodeId s = nodeId)) (Cache.allStacks c))
  /\ (forall stackId,
         getDomainsForStack (buildLabelIndex c) stackId
         = List.filter (fun d => bool_decide (AIDomain.stackId d = stackId))
                       (Cache.allDomains c))
  /\ (forall slot,
         getNodesForModel (buildLabelIndex c) slot
         = List.filter (fun n => bool_decide (AINode.modelSlot n = Some slot))
                       (Cache.allNodes c))
  /\ (forall label,
         getNodesByLabel (buildLabelIndex c) label
         = last (List.filter
                   (fun n => bool_decide (toUpperCase (AINode.label n) = toUpperCase label))
                   (Cache.allNodes c))).
Proof.
  split; [|split; [|split]].
  - intros k. apply IndexFacts.labelIndexOf_stacks.
  - intros k. apply IndexFacts.labelIndexOf_domains.
  - intros k. apply IndexFacts.labelIndexOf_nodesByModel.
  - intros label. unfold getNodesByLabel, buildLabelIndex. simpl.
    rewrite IndexFacts.labelIndexOf_maps. simpl.
    rewrite IndexFacts.fold_insert_last, lookup_empty.
    destruct (last _); reflexivity.
Qed.

(** X5.  [refreshCache] never leaves a half-built index: whatever the clock
    and the store do, it returns, and afterwards either the index and the
    refresh timestamp are the ones from before the call, or the index is
    the one built from the three arrays now in the cache and the timestamp
    is the clock reading of this call. *)
Theorem refreshCache_index_old_or_rebuilt (env : Env.t) (w : World.t) :
  exists w',
    refreshCache env w = (Returned tt, w')
    /\ (Cache.labelIndex (World.router w') = Cache.labelIndex (World.router w)
        /\ Cache.lastCacheRefresh (World.router w')
           = Cache.lastCacheRefresh (World.router w)
        \/ Props.indexed (World.router w')
           /\ Cache.lastCacheRefresh (World.router w')
              = Env.Date_now env (World.clock w)).
Proof. apply IndexFacts.refreshCache_index. Qed.

(** X6.  From a world whose index is keyed (as the empty index of module
    load is, and as every index [refreshCache] builds is), [autoRoute]
    returns a result that follows the hierarchy of the index it leaves
    behind: every selected domain has the id and the name of a domain
    indexed under one of the selected stacks, whose [stackId] is that
    stack's id, and carries that stack's id and label; every selected stack
    is the scored form of a stack indexed under one of the selected nodes,
    whose [nodeId] is that node's id. *)
Theorem autoRoute_follows_hierarchy
  (aiType : AIType) (slot : Slot) (prompt : string) (mode : DeviceMode)
  (env : Env.t) (w : World.t) :
  Props.keyedIndex (Cache.labelIndex (World.router w)) ->
  exists r w',
    autoRoute aiType slot prompt mode env w = (Returned r, w')
    /\ (forall d, In d (RoutingResult.domains r) ->
          exists s domain,
            In s (RoutingResult.stacks r)
            /\ In domain (getDomainsForStack (World.router w') (SelectedItem.id s))
            /\ AIDomain.stackId domain = SelectedItem.id s
            /\ SelectedDomain.id d = AIDomain.id domain
            /\ SelectedDomain.name d = AIDomain.name domain
            /\ SelectedDomain.stackId d = SelectedItem.id s
            /\ SelectedDomain.stackLabel d = SelectedItem.label s)
    /\ (forall s, In s (RoutingResult.stacks r) ->
          exists n stack,
            In n (RoutingResult.nodes r)
            /\ In stack (getStacksForNode (World.router w') (SelectedItem.id n))
            /\ AIStack.nodeId stack = SelectedItem.id n
            /\ s = scoreStack prompt stack).
Proof.
  intros Hk.
  destruct (IndexFacts.autoRoute_selection aiType slot prompt mode env w)
    as (r & w' & w1 & E & E1 & En & Es & Ed & _).
  pose proof (IndexFacts.refreshCache_keyed env w w1 Hk E1) as Hk1.
  pose proof (IndexFacts.autoRoute_router aiType slot prompt mode env w) as Hr.
  rewrite E, E1 in Hr. simpl in Hr.
  exists r, w'. split; [exact E|]. rewrite Hr. split.
  - intros d Hd. rewrite Ed in Hd.
    apply (IndexFacts.selectDomains_parent _ _ _ _ _ _ Hk1 Hd).
  - intros s Hs. rewrite Es in Hs.
    apply (IndexFacts.selectStacks_parent _ _ _ _ _ Hk1 Hs).
Qed.

Lemma autoRoute_follows_hierarchy_witness :
  exists r w',
    autoRoute brain slot1 "How do I index a table?" advanced Examples.healthy World.initial
    = (Returned r, w')
    /\ (forall d, In d (RoutingResult.domains r) ->
          exists s domain,
            In s (RoutingResult.stacks r)
            /\ In domain (getDomainsForStack (World.router w') (SelectedItem.id s))
            /\ AIDomain.stackId domain = SelectedItem.id s
            /\ SelectedDomain.id d = AIDomain.id domain
            /\ SelectedDomain.name d = AIDomain.name domain
            /\ SelectedDomain.stackId d = SelectedItem.id s
            /\ SelectedDomain.stackLabel d = SelectedItem.label s)
    /\ (forall s, In s (RoutingResult.stacks r) ->
          exists n stack,
            In n (RoutingResult.nodes r)
            /\ In stack (getStacksForNode (World.router w') (SelectedItem.id n))
            /\ AIStack.nodeId stack = SelectedItem.id n
            /\ s = scoreStack "How do I index a table?" stack).
Proof.
  apply (autoRoute_follows_hierarchy brain slot1 "How do I index a table?" advanced
           Examples.healthy World.initial).
  unfold Props.keyedIndex. simpl.
  split; [|split]; intros k l E; rewrite lookup_empty in E; discriminate E.
Defined.



(* ===================================================================== *)
(** * Further properties: keyword scores and confidence *)
(* ===================================================================== *)

Module KeywordFacts.
Import Types Store Eff Async Js AutoRouter Spec ScoreFacts.

Lemma scoreByKeywords_sum (prompt : string) (keywords : list string)
  (label : option string) :
  scoreByKeywords prompt keywords label
  = labelPoints prompt label
    + list_sum (List.map (keywordPoints (toLowerCase prompt) (wordsOf prompt)) keywords).
Proof.
  rewrite scoreByKeywords_fold, fold_step_sum. f_equal. f_equal.
  apply map_ext. intros k. apply step_keywordPoints.
Qed.

Lemma keywordPoints_le (lowered : string) (tokens : list string) (k : string) :
  keywordPoints lowered tokens k <= 2.
Proof.
  unfold keywordPoints. cbv zeta.
  destruct (includes lowered _); [lia|]. destruct (existsb _ tokens); lia.
Qed.

Lemma labelPoints_le (prompt : string) (label : option string) :
  labelPoints prompt label <= 5.
Proof.
  unfold labelPoints. destruct label as [l|]; [|lia].
  destruct (truthy l && _); lia.
Qed.

Lemma list_sum_le (f : string -> nat) (b : nat) (l : list string) :
  (forall k, f k <= b) -> list_sum (List.map f l) <= b * List.length l.
Proof.
  intros Hf. induction l as [|k l IH]; simpl; [lia|].
  specialize (Hf k). lia.
Qed.

Lemma list_sum_perm (l l' : list nat) : Permutation l l' -> list_sum l = list_sum l'.
Proof. induction 1; simpl; lia. Qed.

Lemma lowerChar_idem (c : ascii) : lowerChar (lowerChar c) = lowerChar c.
Proof. destruct c as [[] [] [] [] [] [] [] []]; vm_compute; reflexivity. Qed.

Lemma toLowerCase_idem (s : string) : toLowerCase (toLowerCase s) = toLowerCase s.
Proof.
  induction s as [|c s IH]; simpl; [reflexivity|].
  rewrite lowerChar_idem, IH. reflexivity.
Qed.

Lemma truthy_toLowerCase (s : string) : truthy (toLowerCase s) = truthy s.
Proof. destruct s; reflexivity. Qed.

(** The score is a function of the lower-cased arguments. *)
Lemma labelPoints_lowered (prompt : string) (label : option string) :
  labelPoints prompt label
  = match option_map toLowerCase label with
    | Some l => if truthy l && includes (toLowerCase prompt) l then 5 else 0
    | None => 0
    end.
Proof.
  unfold labelPoints. destruct label as [l|]; simpl; [|reflexivity].
  rewrite truthy_toLowerCase. reflexivity.
Qed.

Lemma keywordPoints_lowered (lowered : string) (tokens keywords : list string) :
  List.map (keywordPoints lowered tokens) keywords
  = List.map (fun kw => if includes lowered kw then 2
                        else if existsb (fun t => includes kw t || includes t kw) tokens
                        then 1 else 0)
             (List.map toLowerCase keywords).
Proof. rewrite List.map_map. reflexivity. Qed.

End KeywordFacts.

Module ConfidenceFacts.
Import Types Store Eff Async Js AutoRouter Spec.
Local Open Scope float_scope.

Lemma SFcompare_refl (s : bool) (m : positive) (e : Z) :
  SFcompare (S754_finite s m e) (S754_finite s m e) = Some Eq.
Proof.
  simpl. destruct s; rewrite Z.compare_refl, Pos.compare_cont_refl; reflexivity.
Qed.

(** Only a NaN differs from itself, and nothing is below a NaN. *)
Lemma nan_not_above (x y : float) : is_nan y = true -> (x <? y) = false.
Proof.
  unfold is_nan. rewrite FloatAxioms.eqb_spec, FloatAxioms.ltb_spec.
  unfold SFeqb, SFltb.
  destruct (Prim2SF y) as [s| s| |s m e].
  - destruct s; discriminate.
  - destruct s; discriminate.
  - intros _. destruct (Prim2SF x) as [?|?| |? ? ?]; reflexivity.
  - rewrite SFcompare_refl. discriminate.
Qed.

Lemma min_1_le (x : float) : (1 <? Math.min 1 x) = false.
Proof.
  unfold Math.min. change (is_nan 1) with false. cbv iota.
  destruct (is_nan x) eqn:En; [apply nan_not_above, En|].
  destruct (1 <? x) eqn:E1; [reflexivity|].
  destruct (x <? 1); [exact E1|].
  change (get_sign 1) with false. exact E1.
Qed.

End ConfidenceFacts.

(** X8.  The keyword score is at most 5 for the label plus 2 for each
    keyword; without a label it is at most twice the number of keywords,
    and with neither label nor keywords it is 0. *)
Theorem scoreByKeywords_bounds (prompt : string) (keywords : list string)
  (label : option string) :
  scoreByKeywords prompt keywords label <= 5 + 2 * List.length keywords
  /\ scoreByKeywords prompt keywords None <= 2 * List.length keywords
  /\ scoreByKeywords prompt [] None = 0.
Proof.
  rewrite !KeywordFacts.scoreByKeywords_sum.
  pose proof (KeywordFacts.labelPoints_le prompt label) as Hl.
  pose proof (KeywordFacts.list_sum_le
                (keywordPoints (toLowerCase prompt) (wordsOf prompt)) 2 keywords
                (KeywordFacts.keywordPoints_le _ _)) as Hk.
  simpl labelPoints. simpl. lia.
Qed.

(** X9.  The keyword score ignores letter case: two calls whose prompts,
    keyword lists and labels agree after lower-casing give the same
    score. *)
Theorem scoreByKeywords_ignores_case
  (prompt prompt' : string) (keywords keywords' : list string)
  (label label' : option string) :
  toLowerCase prompt = toLowerCase prompt' ->
  List.map toLowerCase keywords = List.map toLowerCase keywords' ->
  option_map toLowerCase label = option_map toLowerCase label' ->
  scoreByKeywords prompt keywords label = scoreByKeywords prompt' keywords' label'.
Proof.
  intros Hp Hk Hl.
  rewrite !KeywordFacts.scoreByKeywords_sum, !KeywordFacts.labelPoints_lowered,
    !KeywordFacts.keywordPoints_lowered.
  unfold wordsOf. rewrite Hp, Hk, Hl. reflexivity.
Qed.

Lemma scoreByKeywords_ignores_case_witness :
  scoreByKeywords "How do I INDEX a table?" ["Sql"; "Index"] (Some "DataBase")
  = scoreByKeywords "how do i index a TABLE?" ["SQL"; "indeX"] (Some "database").
Proof.
  apply scoreByKeywords_ignores_case; reflexivity.
Defined.

(** X10.  The keyword score does not depend on the order of the
    keywords. *)
Theorem scoreByKeywords_keyword_order
  (prompt : string) (keywords keywords' : list string) (label : option string) :
  Permutation keywords keywords' ->
  scoreByKeywords prompt keywords label = scoreByKeywords prompt keywords' label.
Proof.
  intros Hp. rewrite !KeywordFacts.scoreByKeywords_sum. f_equal.
  apply KeywordFacts.list_sum_perm, Permutation_map, Hp.
Qed.

Lemma scoreByKeywords_keyword_order_witness :
  scoreByKeywords "How do I index a table?" ["sql"; "index"; "tab"] (Some "Database")
  = scoreByKeywords "How do I index a table?" ["tab"; "sql"; "index"] (Some "Database").
Proof.
  apply scoreByKeywords_keyword_order.
  apply Permutation_sym.
  apply (Permutation_cons_app (l := ["sql"; "index"]) ["sql"; "index"] [] "tab").
  apply Permutation_refl.
Defined.

(** X11.  The confidence [autoRoute] reports never exceeds 1, whatever the
    priorities in the cache are (a NaN included), and it is 0 when no
    domain is selected. *)
Theorem autoRoute_confidence_at_most_one
  (aiType : AIType) (slot : Slot) (prompt : string) (mode : DeviceMode)
  (env : Env.t) (w : World.t) :
  exists r w',
    autoRoute aiType slot prompt mode env w = (Returned r, w')
    /\ (1 <? RoutingResult.confidence r)%float = false
    /\ (RoutingResult.domains r = [] -> RoutingResult.confidence r = 0%float).
Proof.
  destruct (IndexFacts.autoRoute_selection aiType slot prompt mode env w)
    as (r & w' & w1 & E & _ & _ & _ & _ & Ec & _).
  exists r, w'. split; [exact E|]. rewrite Ec. split.
  - apply ConfidenceFacts.min_1_le.
  - intros ->. vm_compute. reflexivity.
Qed.

(* ===================================================================== *)
(** * Further properties: the model configuration and the context prompt *)
(* ===================================================================== *)

Module ConfigFacts.
Import Types Store Eff Async Js Algorithms AutoRouter Handler Spec Props.
Local Open Scope float_scope.

Lemma configKey_inj (t t' : AIType) (s s' : Slot) :
  configKey t s = configKey t' s' -> t = t' /\ s = s'.
Proof.
  destruct t, s, t', s'; intros H; try (split; reflexivity); vm_compute in H; discriminate.
Qed.

Lemma fold_addConfigRow (rows : list ConfigRow.t) (t : AIType) (s : Slot) :
  forall cache,
    default [] (fold_left addConfigRow rows cache !! configKey t s)
    = default [] (cache !! configKey t s) ++ List.map configOfRow (rowsOf t s rows).
Proof.
  induction rows as [|row rows IH]; intros cache; simpl.
  - rewrite app_nil_r. reflexivity.
  - rewrite IH. unfold addConfigRow. rewrite IndexFacts.pushAt_lookup.
    destruct (bool_decide_reflect
                (ConfigRow.ai_type row = t /\ ConfigRow.model_slot row = s)) as [[-> ->]|Hne].
    + rewrite bool_decide_true by reflexivity. rewrite <- app_assoc. reflexivity.
    + rewrite bool_decide_false.
      * rewrite app_nil_r. reflexivity.
      * intros E. apply Hne, configKey_inj, E.
Qed.

Lemma configCacheOf_lookup (rows : list ConfigRow.t) (t : AIType) (s : Slot) :
  default [] (configCacheOf rows !! configKey t s) = List.map configOfRow (rowsOf t s rows).
Proof. unfold configCacheOf. rewrite fold_addConfigRow, lookup_empty. reflexivity. Qed.

Lemma find_map {A B} (f : A -> B) (p : B -> bool) (l : list A) :
  List.find p (List.map f l) = option_map f (List.find (fun a => p (f a)) l).
Proof.
  induction l as [|a l IH]; simpl; [reflexivity|].
  destruct (p (f a)); [reflexivity|exact IH].
Qed.


End ConfigFacts.

Module PromptFacts.
Import Types Store Eff Async Js Algorithms AutoRouter Handler Spec Props.

Lemma append_cons (x : ascii) (a b : string) : String x a +:+ b = String x (a +:+ b).
Proof. reflexivity. Qed.

Lemma append_assoc (a b c : string) : (a +:+ b) +:+ c = a +:+ (b +:+ c).
Proof.
  induction a as [|x a IH]; [reflexivity|]. rewrite !append_cons, IH. reflexivity.
Qed.

Lemma append_nil_r (a : string) : a +:+ "" = a.
Proof.
  induction a as [|x a IH]; [reflexivity|]. rewrite append_cons, IH. reflexivity.
Qed.

Lemma join_cons (sep x y : string) (l : list string) :
  join sep (x :: y :: l) = x +:+ sep +:+ join sep (y :: l).
Proof. reflexivity. Qed.

Lemma join_app (sep : string) (l : list string) (y : string) (l' : list string) :
  forall x, join sep ((x :: l) ++ y :: l') = join sep (x :: l) +:+ sep +:+ join sep (y :: l').
Proof.
  induction l as [|z l IH]; intros x.
  - reflexivity.
  - change ((x :: z :: l) ++ y :: l') with (x :: (z :: l) ++ y :: l').
    change ((z :: l) ++ y :: l') with (z :: (l ++ y :: l')).
    rewrite join_cons.
    change (z :: (l ++ y :: l')) with ((z :: l) ++ y :: l').
    rewrite IH, join_cons, !append_assoc. reflexivity.
Qed.

Lemma join_head (sep x : string) (l : list string) :
  exists rest, join sep (x :: l) = x +:+ rest /\ (l = [] -> rest = "").
Proof.
  destruct l as [|y l].
  - exists "". split; [symmetry; apply append_nil_r|reflexivity].
  - exists (sep +:+ join sep (y :: l)). split; [apply join_cons|discriminate].
Qed.

End PromptFacts.


(** X13.  On the configuration built from the rows of a refresh,
    [getModelConfig] answers from the rows of the requested type and slot
    alone: the first of them that is primary, else the first of them, else
    null. *)
Theorem getModelConfig_of_rows
  (rows : list ConfigRow.t) (stamp : float) (aiType : AIType) (slot : Slot) :
  getModelConfig (ConfigCache.mk (configCacheOf rows) stamp) aiType slot
  = match List.find ConfigRow.is_primary (Props.rowsOf aiType slot rows) with
    | Some row => Some (configOfRow row)
    | None => option_map configOfRow (head (Props.rowsOf aiType slot rows))
    end.
Proof.
  unfold getModelConfig. cbv zeta. simpl ConfigCache.modelConfigCache.
  rewrite ConfigFacts.configCacheOf_lookup, ConfigFacts.find_map.
  simpl. destruct (List.find _ (Props.rowsOf aiType slot rows)); simpl; [reflexivity|].
  destruct (Props.rowsOf aiType slot rows); reflexivity.
Qed.

(** X14.  The enriched prompt opens with the context header and ends with
    the user's request, verbatim and unshortened, under its heading; with
    no domain expertise and no memory there is nothing in between. *)
Theorem buildContextPrompt_shape (originalPrompt : string) (routing : RoutingResult.t) :
  exists middle,
    buildContextPrompt originalPrompt routing
    = ("[Context: " +:+ join " | " (List.map pathOf (RoutingResult.domains routing)) +:+ "]")
      +:+ middle
      +:+ String "010" (String "010" ("[User Request:]" +:+ String "010" originalPrompt))
    /\ (systemPromptsOf (RoutingResult.domains routing) = [] ->
        RoutingResult.memories routing = [] -> middle = "").
Proof.
  unfold buildContextPrompt. cbv zeta.
  set (hdr := "[Context: " +:+ _ +:+ "]").
  set (sys := slice0 2 (systemPromptsOf _)).
  set (A := if (0 <? List.length sys)%nat
            then [""; "[Domain Expertise:]"; join (String "010" "") sys] else []).
  set (B := if (0 <? List.length (RoutingResult.memories routing))%nat
            then [""; "[Relevant Memories:]"]
                 ++ List.map (fun mem => "- " +:+ substring0 200 (AIMemory.content mem) +:+ "...")
                      (slice0 3 (RoutingResult.memories routing))
            else []).
  assert (E : (if (0 <? List.length (RoutingResult.memories routing))%nat
               then (if (0 <? List.length sys)%nat
                     then [hdr] ++ [""; "[Domain Expertise:]"; join (String "010" "") sys]
                     else [hdr])
                    ++ [""; "[Relevant Memories:]"]
                    ++ List.map
                         (fun mem => "- " +:+ substring0 200 (AIMemory.content mem) +:+ "...")
                         (slice0 3 (RoutingResult.memories routing))
               else (if (0 <? List.length sys)%nat
                     then [hdr] ++ [""; "[Domain Expertise:]"; join (String "010" "") sys]
                     else [hdr]))
              = hdr :: (A ++ B)).
  { subst A B. destruct (0 <? List.length sys)%nat;
      destruct (0 <? List.length (RoutingResult.memories routing))%nat; simpl;
      rewrite ?app_nil_r; reflexivity. }
  rewrite E.
  change ((hdr :: A ++ B) ++ [""; "[User Request:]"; originalPrompt])
    with ((hdr :: (A ++ B)) ++ "" :: ["[User Request:]"; originalPrompt]).
  rewrite PromptFacts.join_app.
  destruct (PromptFacts.join_head (String "010" "") hdr (A ++ B)) as (middle & Em & Hm).
  exists middle. rewrite Em. split.
  - rewrite !PromptFacts.append_assoc. reflexivity.
  - intros Hs Hmem. apply Hm. subst A B sys. rewrite Hs, Hmem. reflexivity.
Qed.

(* ===================================================================== *)
(** * Further properties: the model tasks and the entry point *)
(* ===================================================================== *)

Module SystemFacts.
Import Types Store Eff Async Js Algorithms AutoRouter Handler Spec Props.
Import SortFacts AlgorithmFacts QualityFacts.
Local Open Scope float_scope.

Lemma autoRoute_withinLimits (aiType : AIType) (slot : Slot) (prompt : string)
  (mode : DeviceMode) (env : Env.t) (w : World.t) :
  exists r w',
    autoRoute aiType slot prompt mode env w = (Returned r, w')
    /\ World.handler w' = World.handler w
    /\ withinLimits mode r.
Proof.
  destruct (IndexFacts.autoRoute_selection aiType slot prompt mode env w)
    as (r & w' & w1 & E & _ & En & Es & Ed & _ & Et & Em).
  destruct (HandlerFacts.total_autoRoute aiType slot prompt mode env w)
    as (r' & w'' & E' & Hh & _).
  rewrite E in E'. injection E' as <- <-.
  exists r, w'. split; [exact E|]. split; [exact Hh|].
  unfold withinLimits. rewrite Ed, Es, En.
  split; [exact Em|]. split; [|split; [|split]].
  - apply RouterFacts.selectNodes_length. destruct mode; simpl; lia.
  - apply RouterFacts.selectStacks_length. destruct mode; simpl; lia.
  - apply RouterFacts.selectDomains_length. destruct mode; simpl; lia.
  - rewrite <- En, <- Es, <- Ed. exact Et.
Qed.

(** A model task always runs to its end: the [catch] of [executeModel] is
    never entered, and the routing of the response is the one [autoRoute]
    returns after the first clock reading. *)
Lemma executeModel_routed (aiType : AIType) (slot : Slot) (prompt : string)
  (mode : DeviceMode) (config : AIModelConfig.t) (env : Env.t) (w : World.t) :
  exists r w' w1,
    executeModel aiType slot prompt mode config env w = (Returned r, w')
    /\ World.handler w' = World.handler w
    /\ autoRoute aiType slot prompt mode env (tick w)
       = (Returned (ModelResponse.routing r), w1)
    /\ answered env prompt mode slot config r.
Proof.
  unfold executeModel.
  unfold bind at 1. unfold Date_now at 1. fold (tick w).
  destruct (autoRoute_withinLimits aiType slot prompt mode env (tick w))
    as (routing & w1 & E1 & H1 & Hl).
  unfold tryCatch at 1. unfold bind at 1. rewrite E1. cbv zeta.
  unfold bind at 1. unfold callAIModel, tryCatch at 1, ret at 1.
  assert (Eg : match Env.generate env config (buildContextPrompt prompt routing) with
               | Returned a => (Returned a, w1)
               | Thrown _ => (Returned ("", false), w1)
               end
               = (Returned (replyOf env config (buildContextPrompt prompt routing)), w1)).
  { unfold replyOf. destruct (Env.generate env config _); reflexivity. }
  rewrite Eg. clear Eg.
  unfold bind at 1. unfold Date_now at 1.
  set (w2 := World.mk _ _ _ _).
  set (timeMs := _ - _).
  destruct (HandlerFacts.total_tryCatch _ (fun _ => ret tt) _
              (HandlerFacts.total_logRoutingDecision aiType slot mode prompt routing timeMs)
              env w2)
    as (u & w3 & E3 & H3 & _).
  unfold bind. unfold swallow. rewrite E3. unfold ret.
  eexists _, w3, w1. split; [reflexivity|]. split; [|split].
  - rewrite H3. subst w2. simpl. rewrite H1. reflexivity.
  - reflexivity.
  - unfold answered. simpl. repeat (split; [reflexivity|]).
    split; [|exact Hl]. destruct (replyOf env config _); reflexivity.
Qed.

Lemma executeModel_answered (aiType : AIType) (slot : Slot) (prompt : string)
  (mode : DeviceMode) (config : AIModelConfig.t) (env : Env.t) (w : World.t) :
  exists r w',
    executeModel aiType slot prompt mode config env w = (Returned r, w')
    /\ World.handler w' = World.handler w
    /\ answered env prompt mode slot config r.
Proof.
  destruct (executeModel_routed aiType slot prompt mode config env w)
    as (r & w' & w1 & E & H & _ & A).
  exists r, w'. auto.
Qed.

Lemma configured_true (h : ConfigCache.t) (aiType : AIType) :
  configured h aiType = true ->
  exists c1 c2 c3,
    getModelConfig h aiType slot1 = Some c1
    /\ getModelConfig h aiType slot2 = Some c2
    /\ getModelConfig h aiType slot3 = Some c3.
Proof.
  unfold configured.
  destruct (getModelConfig h aiType slot1) as [c1|]; [|discriminate].
  destruct (getModelConfig h aiType slot2) as [c2|]; [|discriminate].
  destruct (getModelConfig h aiType slot3) as [c3|]; [|discriminate].
  intros _. exists c1, c2, c3. auto.
Qed.

(** The two ways [executeAISystem] ends. *)
Lemma executeAISystem_missing (aiType : AIType) (prompt : string) (mode : DeviceMode)
  (env : Env.t) (w : World.t) :
  configured (refreshed env w) aiType = false ->
  exists w', executeAISystem aiType prompt mode env w
             = (Thrown (missingConfiguration aiType), w').
Proof.
  unfold refreshed, configured, executeAISystem.
  unfold bind at 1. unfold Date_now at 1. fold (tick w).
  destruct (HandlerFacts.refreshModelConfig_returns env (tick w)) as (w1 & E1).
  unfold bind at 1. rewrite E1. simpl snd.
  unfold bind at 1. unfold gets at 1.
  destruct (getModelConfig (World.handler w1) aiType slot1); [|eauto].
  destruct (getModelConfig (World.handler w1) aiType slot2); [|eauto].
  destruct (getModelConfig (World.handler w1) aiType slot3); [discriminate|eauto].
Qed.

Lemma executeAISystem_configured (aiType : AIType) (prompt : string) (mode : DeviceMode)
  (env : Env.t) (w : World.t) :
  configured (refreshed env w) aiType = true ->
  exists r w' c1 c2 c3,
    executeAISystem aiType prompt mode env w = (Returned r, w')
    /\ World.handler w' = refreshed env w
    /\ getModelConfig (refreshed env w) aiType slot1 = Some c1
    /\ getModelConfig (refreshed env w) aiType slot2 = Some c2
    /\ getModelConfig (refreshed env w) aiType slot3 = Some c3
    /\ answered env prompt mode slot1 c1 (AISystemResult.model1Response r)
    /\ answered env prompt mode slot2 c2 (AISystemResult.model2Response r)
    /\ answered env prompt mode slot3 c3 (AISystemResult.model3Response r)
    /\ AISystemResult.finalAnswer r
       = KnowledgeAlgorithmOutput.fusedAnswer
           (algorithm aiType (KnowledgeAlgorithmInput.mk aiType prompt (responsesOf r)))
    /\ AISystemResult.qualityScore r
       = KnowledgeAlgorithmOutput.qualityScore
           (algorithm aiType (KnowledgeAlgorithmInput.mk aiType prompt (responsesOf r)))
    /\ AISystemResult.knowledgeAlgorithmResult r
       = join (String "010" "")
           (KnowledgeAlgorithmOutput.reasoning
              (algorithm aiType (KnowledgeAlgorithmInput.mk aiType prompt (responsesOf r)))).
Proof.
  intros Hc. apply configured_true in Hc as (c1 & c2 & c3 & G1 & G2 & G3).
  unfold executeAISystem.
  unfold bind at 1. unfold Date_now at 1. fold (tick w).
  unfold refreshed in *.
  destruct (HandlerFacts.refreshModelConfig_returns env (tick w)) as (w1 & E1).
  unfold bind at 1. rewrite E1 in *. simpl snd in *.
  unfold bind at 1. unfold gets at 1. rewrite G1, G2, G3.
  destruct (executeModel_answered aiType slot1 prompt mode c1 env w1)
    as (r1 & w2 & E2 & H2 & A1).
  unfold bind at 1. rewrite E2.
  destruct (executeModel_answered aiType slot2 prompt mode c2 env w2)
    as (r2 & w3 & E3 & H3 & A2).
  unfold bind at 1. rewrite E3.
  destruct (executeModel_answered aiType slot3 prompt mode c3 env w3)
    as (r3 & w4 & E4 & H4 & A3).
  unfold bind at 1. rewrite E4. cbv zeta.
  unfold bind at 1. unfold Date_now at 1.
  set (w5 := World.mk _ _ _ _).
  set (result := AISystemResult.mk _ _ _ _ _ _ _ _ _ _).
  destruct (HandlerFacts.total_tryCatch _ (fun _ => ret tt) _
              (HandlerFacts.total_logResponse result) env w5)
    as (u & w6 & E6 & H6 & _).
  unfold bind. unfold swallow. rewrite E6. unfold ret.
  exists result, w6, c1, c2, c3. split; [reflexivity|].
  split; [rewrite H6; subst w5; simpl; congruence|].
  subst result. unfold responsesOf. simpl.
  rewrite HandlerFacts.runKnowledgeAlgorithm_algorithm. simpl.
  auto 12.
Qed.

(** The fused answer is the failure text or the text of a valid response. *)
Lemma fusedAnswer_source (t : AIType) (input : KnowledgeAlgorithmInput.t) :
  validResponsesOf input = []
  /\ KnowledgeAlgorithmOutput.fusedAnswer (algorithm t input) = failureText t
  /\ KnowledgeAlgorithmOutput.qualityScore (algorithm t input) = 0
  \/ exists r,
       In r (KnowledgeAlgorithmInput.responses input)
       /\ isValid r = true
       /\ KnowledgeAlgorithmOutput.fusedAnswer (algorithm t input) = ModelResponse.response r.
Proof.
  destruct (validResponsesOf input) as [|r0 rs] eqn:Ev.
  - left. rewrite (algorithm_no_valid t input Ev). destruct t; auto.
  - right.
    assert (Hv : validResponsesOf input <> []) by (rewrite Ev; discriminate).
    destruct (algorithm_valid t input Hv) as (primary & rest & Es & -> & _).
    assert (Hin : In primary (sortedScores t input)) by (rewrite Es; left; reflexivity).
    apply sortedScores_In in Hin as (r & Hr & ->). simpl.
    exists r. unfold validResponsesOf in Hr. apply filter_In in Hr as [Hr Hval]. auto.
Qed.

(** With every client call failing, all three responses are invalid. *)
Lemma executeAISystem_all_fail
  (aiType : AIType) (prompt : string) (mode : DeviceMode) (env : Env.t) (w : World.t) :
  configured (refreshed env w) aiType = true ->
  (forall config enriched, snd (replyOf env config enriched) = false) ->
  exists r w',
    executeAISystem aiType prompt mode env w = (Returned r, w')
    /\ AISystemResult.finalAnswer r = failureText aiType
    /\ AISystemResult.qualityScore r = 0%float
    /\ (forall m, In m (responsesOf r) -> ModelResponse.success m = false).
Proof.
  intros Hc Hfail.
  destruct (executeAISystem_configured aiType prompt mode env w Hc)
    as (r & w' & c1 & c2 & c3 & E & _ & _ & _ & _ & A1 & A2 & A3 & Ef & Eq & _).
  assert (Hs : forall m, In m (responsesOf r) -> ModelResponse.success m = false).
  { intros m [<-|[<-|[<-|[]]]].
    - destruct A1 as (_ & _ & _ & _ & Er & _).
      specialize (Hfail c1 (buildContextPrompt prompt
                              (ModelResponse.routing (AISystemResult.model1Response r)))).
      rewrite <- Er in Hfail. exact Hfail.
    - destruct A2 as (_ & _ & _ & _ & Er & _).
      specialize (Hfail c2 (buildContextPrompt prompt
                              (ModelResponse.routing (AISystemResult.model2Response r)))).
      rewrite <- Er in Hfail. exact Hfail.
    - destruct A3 as (_ & _ & _ & _ & Er & _).
      specialize (Hfail c3 (buildContextPrompt prompt
                              (ModelResponse.routing (AISystemResult.model3Response r)))).
      rewrite <- Er in Hfail. exact Hfail. }
  exists r, w'. split; [exact E|]. rewrite Ef, Eq.
  assert (Hv : validResponsesOf (KnowledgeAlgorithmInput.mk aiType prompt (responsesOf r))
               = []).
  { unfold validResponsesOf, responsesOf, isValid. simpl.
    rewrite (Hs (AISystemResult.model1Response r)) by (simpl; auto).
    rewrite (Hs (AISystemResult.model2Response r)) by (simpl; auto).
    rewrite (Hs (AISystemResult.model3Response r)) by (simpl; auto).
    reflexivity. }
  rewrite (AlgorithmFacts.algorithm_no_valid aiType _ Hv).
  split; [reflexivity|]. split; [reflexivity|exact Hs].
Qed.


End SystemFacts.

(** X15.  A model task always returns, and never through its [catch]: the
    routing of the response is the very result that [autoRoute] returns for
    the task's type, slot, prompt and mode from the world after the task's
    first clock reading; the response carries the slot and the configured
    provider and model, no error, that routing - of the requested mode and
    within its limits - and as text and success flag the client's reply to
    the prompt enriched from that routing (the empty text and [false] when
    the client throws). *)
Theorem executeModel_always_answers
  (aiType : AIType) (slot : Slot) (prompt : string) (mode : DeviceMode)
  (config : AIModelConfig.t) (env : Env.t) (w : World.t) :
  exists r w' w1,
    executeModel aiType slot prompt mode config env w = (Returned r, w')
    /\ World.handler w' = World.handler w
    /\ autoRoute aiType slot prompt mode env (tick w)
       = (Returned (ModelResponse.routing r), w1)
    /\ Props.answered env prompt mode slot config r.
Proof. apply SystemFacts.executeModel_routed. Qed.

(** X16.  When the three slots are configured, [executeAISystem] returns an
    answer it did not invent: either no response is valid, and the answer
    is the failure text of the AI type with quality score 0, or the answer
    is the text of one of the three responses, a successful one. *)
Theorem executeAISystem_answer_source
  (aiType : AIType) (prompt : string) (mode : DeviceMode) (env : Env.t) (w : World.t) :
  Props.configured (Props.refreshed env w) aiType = true ->
  exists r w',
    executeAISystem aiType prompt mode env w = (Returned r, w')
    /\ ((forall m, In m (Props.responsesOf r) -> isValid m = false)
        /\ AISystemResult.finalAnswer r = failureText aiType
        /\ AISystemResult.qualityScore r = 0%float
        \/ exists m,
             In m (Props.responsesOf r)
             /\ ModelResponse.success m = true
             /\ AISystemResult.finalAnswer r = ModelResponse.response m).
Proof.
  intros Hc.
  destruct (SystemFacts.executeAISystem_configured aiType prompt mode env w Hc)
    as (r & w' & c1 & c2 & c3 & E & _ & _ & _ & _ & _ & _ & _ & Ef & Eq & _).
  exists r, w'. split; [exact E|]. rewrite Ef, Eq.
  destruct (SystemFacts.fusedAnswer_source aiType
              (KnowledgeAlgorithmInput.mk aiType prompt (Props.responsesOf r)))
    as [(Hv & Ha & Hq)|(m & Hm & Hval & Ha)].
  - left. split; [|split; assumption].
    intros m Hm. destruct (isValid m) eqn:Em; [|reflexivity].
    assert (Hin : In m (validResponsesOf
                          (KnowledgeAlgorithmInput.mk aiType prompt (Props.responsesOf r)))).
    { apply filter_In. split; assumption. }
    rewrite Hv in Hin. contradiction.
  - right. exists m. split; [exact Hm|]. split; [|exact Ha].
    apply AlgorithmFacts.isValid_spec in Hval as [Hs _]. exact Hs.
Qed.

Lemma executeAISystem_answer_source_witness :
  exists r w',
    executeAISystem brain "How do I index a table?" advanced Examples.healthy World.initial
    = (Returned r, w')
    /\ ((forall m, In m (Props.responsesOf r) -> isValid m = false)
        /\ AISystemResult.finalAnswer r = failureText brain
        /\ AISystemResult.qualityScore r = 0%float
        \/ exists m,
             In m (Props.responsesOf r)
             /\ ModelResponse.success m = true
             /\ AISystemResult.finalAnswer r = ModelResponse.response m).
Proof.
  apply (executeAISystem_answer_source brain "How do I index a table?" advanced
           Examples.healthy World.initial).
  vm_compute. reflexivity.
Defined.

(** X17.  When the three slots are configured and every call of the model
    client fails or throws, [executeAISystem] does not throw: it returns
    the failure text of the AI type with quality score 0, every response
    marked unsuccessful. *)
Theorem executeAISystem_degrades_when_models_fail
  (aiType : AIType) (prompt : string) (mode : DeviceMode) (env : Env.t) (w : World.t) :
  Props.configured (Props.refreshed env w) aiType = true ->
  (forall config enriched, snd (Props.replyOf env config enriched) = false) ->
  exists r w',
    executeAISystem aiType prompt mode env w = (Returned r, w')
    /\ AISystemResult.finalAnswer r = failureText aiType
    /\ AISystemResult.qualityScore r = 0%float
    /\ (forall m, In m (Props.responsesOf r) -> ModelResponse.success m = false).
Proof. apply SystemFacts.executeAISystem_all_fail. Qed.

Lemma executeAISystem_degrades_witness :
  exists r w',
    executeAISystem brain "How do I index a table?" standard Props.unreachable World.initial
    = (Returned r, w')
    /\ AISystemResult.finalAnswer r = failureText brain
    /\ AISystemResult.qualityScore r = 0%float
    /\ (forall m, In m (Props.responsesOf r) -> ModelResponse.success m = false).
Proof.
  apply (executeAISystem_degrades_when_models_fail brain "How do I index a table?" standard
           Props.unreachable World.initial).
  - vm_compute. reflexivity.
  - intros config enriched. reflexivity.
Defined.

(** X18.  When a slot of the type is left without a configuration after the
    refresh, [executeAISystem] throws "Missing model configuration for AI
    type: ..." before any routing: the router's cache is not touched and no
    statement other than the configuration read is executed. *)
Theorem executeAISystem_missing_configuration_is_early
  (aiType : AIType) (prompt : string) (mode : DeviceMode) (env : Env.t) (w : World.t) :
  Props.configured (Props.refreshed env w) aiType = false ->
  exists w',
    executeAISystem aiType prompt mode env w = (Thrown (missingConfiguration aiType), w')
    /\ World.router w' = World.router w
    /\ (World.executed w' = World.executed w
        \/ World.executed w' = World.executed w ++ [SelectModelConfig]).
Proof.
  intros Hc.
  unfold Props.refreshed, Props.configured in Hc. unfold executeAISystem.
  unfold bind at 1. unfold Date_now at 1. fold (tick w).
  assert (Hr : exists w1,
             refreshModelConfig env (tick w) = (Returned tt, w1)
             /\ World.router w1 = World.router w
             /\ (World.executed w1 = World.executed w
                 \/ World.executed w1 = World.executed w ++ [SelectModelConfig])).
  { unfold refreshModelConfig, bind, Date_now, gets, ret, tryCatch, execute,
      Handler.update, modify.
    cbn. destruct (_ <? CONFIG_CACHE_TTL_MS)%float; [eexists; repeat split; left; reflexivity|].
    cbn. destruct (Env.configRows env _);
      eexists; repeat split; right; reflexivity. }
  destruct Hr as (w1 & E1 & Hrouter & Hexec).
  unfold bind at 1. rewrite E1 in *. simpl snd in Hc.
  unfold bind at 1. unfold gets at 1.
  destruct (getModelConfig (World.handler w1) aiType slot1);
    [|exists w1; split; [reflexivity|split; assumption]].
  destruct (getModelConfig (World.handler w1) aiType slot2);
    [|exists w1; split; [reflexivity|split; assumption]].
  destruct (getModelConfig (World.handler w1) aiType slot3);
    [discriminate|exists w1; split; [reflexivity|split; assumption]].
Qed.

Lemma executeAISystem_missing_configuration_witness :
  exists w',
    executeAISystem brain "hello" professional Examples.slot3Unconfigured World.initial
    = (Thrown (missingConfiguration brain), w')
    /\ World.router w' = World.router World.initial
    /\ (World.executed w' = World.executed World.initial
        \/ World.executed w' = World.executed World.initial ++ [SelectModelConfig]).
Proof.
  apply (executeAISystem_missing_configuration_is_early brain "hello" professional
           Examples.slot3Unconfigured World.initial).
  vm_compute. reflexivity.
Defined.

(* ===================================================================== *)
(** * Further properties: Brain AI and Heart AI *)
(* ===================================================================== *)

Module BlockFacts.
Import Types Js HeartAI.

Lemma includes_unfold (s p : string) :
  includes s p
  = startsWith s p || match s with "" => false | String _ s' => includes s' p end.
Proof. destruct s; reflexivity. Qed.

Lemma startsWith_includes (s p : string) : startsWith s p = true -> includes s p = true.
Proof. intros H. rewrite includes_unfold, H. reflexivity. Qed.

Lemma includes_tail (c : ascii) (s p : string) :
  includes (String c s) p = false -> includes s p = false.
Proof.
  rewrite includes_unfold. intros H. apply orb_false_iff in H as [_ H]. exact H.
Qed.

Lemma includes_head (c : ascii) (s p : string) :
  includes (String c s) p = false -> startsWith (String c s) p = false.
Proof.
  rewrite includes_unfold. intros H. apply orb_false_iff in H as [H _]. exact H.
Qed.

Lemma matchAt_fence (s : string) (m : string * nat) :
  matchAt s = Some m -> startsWith s fence = true.
Proof. unfold matchAt. destruct (startsWith s fence); [reflexivity|discriminate]. Qed.

Lemma blocksFrom_no_fence (s : string) :
  forall skip, includes s fence = false -> blocksFrom skip s = [].
Proof.
  induction s as [|c s IH]; intros skip H; [reflexivity|].
  pose proof (includes_tail _ _ _ H) as Ht.
  simpl. destruct skip as [|k]; [|apply IH, Ht].
  destruct (matchAt (String c s)) as [[body len]|] eqn:Em; [|apply IH, Ht].
  apply matchAt_fence in Em. rewrite (includes_head _ _ _ H) in Em. discriminate.
Qed.

(** Prefixes and suffixes. *)
Lemma startsWith_app (s t p : string) :
  startsWith s p = true -> startsWith (s +:+ t) p = true.
Proof.
  revert p. induction s as [|c s IH]; intros [|a p] H;
    try (destruct t; reflexivity); try discriminate H.
  simpl in H. apply andb_true_iff in H as [Hc Hs].
  rewrite PromptFacts.append_cons. simpl. rewrite Hc. apply IH, Hs.
Qed.

Lemma includes_app_l (s t p : string) :
  includes s p = true -> includes (s +:+ t) p = true.
Proof.
  induction s as [|c s IH]; intros H.
  - rewrite includes_unfold, orb_false_r in H.
    apply startsWith_includes. apply (startsWith_app "" t p H).
  - rewrite includes_unfold in H. apply orb_true_iff in H as [H|H].
    + apply startsWith_includes, startsWith_app, H.
    + rewrite PromptFacts.append_cons, includes_unfold, (IH H). apply orb_true_r.
Qed.

Lemma includes_app_r (s t p : string) :
  includes t p = true -> includes (s +:+ t) p = true.
Proof.
  intros H. induction s as [|c s IH]; [exact H|].
  rewrite PromptFacts.append_cons, includes_unfold, IH. apply orb_true_r.
Qed.

Lemma trimStart_suffix (s : string) : exists pre, s = pre +:+ trimStart s.
Proof.
  induction s as [|c s (pre & IH)]; [exists ""; reflexivity|].
  simpl. destruct (isWhiteSpace c).
  - exists (String c pre). rewrite PromptFacts.append_cons, <- IH. reflexivity.
  - exists "". reflexivity.
Qed.

Lemma trimEnd_prefix (s : string) : exists post, s = trimEnd s +:+ post.
Proof.
  induction s as [|c s (post & IH)]; [exists ""; reflexivity|].
  simpl. destruct (trimEnd s) as [|d t] eqn:Et.
  - destruct (isWhiteSpace c).
    + exists (String c s). reflexivity.
    + exists s. reflexivity.
  - exists post. rewrite PromptFacts.append_cons, <- IH. reflexivity.
Qed.

Lemma includes_trim (s p : string) : includes (trim s) p = true -> includes s p = true.
Proof.
  unfold trim. intros H.
  destruct (trimEnd_prefix (trimStart s)) as (post & E1).
  destruct (trimStart_suffix s) as (pre & E2).
  rewrite E2. apply includes_app_r. rewrite E1. apply includes_app_l, H.
Qed.

Lemma untilFence_unfold (s : string) :
  untilFence s
  = if startsWith s fence then Some ""
    else match s with
         | "" => None
         | String c s' =>
             match untilFence s' with
             | Some body => Some (String c body)
             | None => None
             end
         end.
Proof. destruct s; reflexivity. Qed.

Lemma untilFence_prefix (s body : string) :
  untilFence s = Some body -> exists rest, s = body +:+ rest.
Proof.
  revert body. induction s as [|c s IH]; intros body; rewrite untilFence_unfold.
  - simpl. discriminate.
  - destruct (startsWith (String c s) fence).
    + intros [= <-]. exists (String c s). reflexivity.
    + destruct (untilFence s) as [b|]; [|discriminate].
      intros [= <-]. destruct (IH b eq_refl) as (rest & ->).
      exists rest. reflexivity.
Qed.

Lemma untilFence_no_fence (s body : string) :
  untilFence s = Some body -> includes body fence = false.
Proof.
  revert body. induction s as [|c s IH]; intros body.
  - simpl. discriminate.
  - intros H. rewrite untilFence_unfold in H.
    destruct (startsWith (String c s) fence) eqn:Es.
    + injection H as <-. reflexivity.
    + destruct (untilFence s) as [b|] eqn:Eb; [|discriminate].
      injection H as <-.
      destruct (untilFence_prefix s b Eb) as (rest & Er).
      rewrite includes_unfold, (IH b eq_refl), orb_false_r.
      destruct (startsWith (String c b) fence) eqn:Ec; [|reflexivity].
      apply (startsWith_app _ rest) in Ec.
      rewrite PromptFacts.append_cons, <- Er, Es in Ec. discriminate.
Qed.

Lemma matchAt_no_fence (s body : string) (len : nat) :
  matchAt s = Some (body, len) -> includes body fence = false.
Proof.
  unfold matchAt. destruct (startsWith s fence); [|discriminate].
  destruct (afterInfo (drop 3 s)) as [[rest n]|]; [|discriminate].
  destruct (untilFence rest) as [b|] eqn:Eb; [|discriminate].
  intros [= <- _]. apply (untilFence_no_fence rest), Eb.
Qed.

Lemma blocksFrom_fence_free (s : string) (block : string) :
  forall skip, In block (blocksFrom skip s) -> includes block fence = false.
Proof.
  induction s as [|c s IH]; intros skip H; [contradiction|].
  simpl in H. destruct skip as [|k]; [|apply (IH k), H].
  destruct (matchAt (String c s)) as [[body len]|] eqn:Em; [|apply (IH 0), H].
  destruct H as [<-|H]; [|exact (IH _ H)].
  destruct (includes (trim body) fence) eqn:Et; [|reflexivity].
  apply includes_trim in Et. rewrite (matchAt_no_fence _ _ _ Em) in Et. discriminate.
Qed.

(** The round trip of a fenced block. *)
Lemma afterInfo_info (info rest : string) :
  forallb isWordChar (list_ascii_of_string info) = true ->
  afterInfo (info +:+ String "010" rest) = Some (rest, String.length info).
Proof.
  induction info as [|c info IH]; intros H; [reflexivity|].
  simpl in H. apply andb_true_iff in H as [Hc Hi].
  rewrite PromptFacts.append_cons. simpl. rewrite Hc, (IH Hi). reflexivity.
Qed.

Lemma drop_app (a b : string) : drop (String.length a) (a +:+ b) = b.
Proof. induction a as [|c a IH]; [destruct b; reflexivity|exact IH]. Qed.

Lemma untilFence_content (content post : string) :
  forallb (fun c => negb (code c =? 96)%N) (list_ascii_of_string content) = true ->
  untilFence (content +:+ String "010" (fence +:+ post)) = Some (content +:+ String "010" "").
Proof.
  induction content as [|c content IH]; intros H; [destruct post; reflexivity|].
  simpl in H. apply andb_true_iff in H as [Hc Hi].
  rewrite !PromptFacts.append_cons.
  rewrite untilFence_unfold, (IH Hi).
  assert (Ef : startsWith (String c (content +:+ String "010" (fence +:+ post))) fence = false).
  { change (startsWith (String c (content +:+ String "010" (fence +:+ post))) fence)
      with (Ascii.eqb "`" c
            && startsWith (content +:+ String "010" (fence +:+ post)) "``").
    destruct (Ascii.eqb_spec "`"%char c) as [<-|_]; [|reflexivity].
    vm_compute in Hc. discriminate Hc. }
  rewrite Ef. reflexivity.
Qed.

Lemma blocksFrom_skip_all (s : string) :
  forall skip, String.length s <= skip -> blocksFrom skip s = [].
Proof.
  induction s as [|c s IH]; intros skip H; [reflexivity|].
  simpl in *. destruct skip as [|k]; [lia|]. apply IH. lia.
Qed.

Lemma length_append (a b : string) :
  String.length (a +:+ b) = String.length a + String.length b.
Proof.
  induction a as [|c a IH]; [reflexivity|].
  rewrite PromptFacts.append_cons. simpl. rewrite IH. reflexivity.
Qed.

Lemma trimEnd_snoc (s : string) (c : ascii) :
  isWhiteSpace c = true -> trimEnd (s +:+ String c "") = trimEnd s.
Proof.
  intros Hc. induction s as [|a s IH].
  - simpl. rewrite Hc. reflexivity.
  - rewrite PromptFacts.append_cons. simpl. rewrite IH. reflexivity.
Qed.

Lemma trim_snoc (s : string) (c : ascii) :
  isWhiteSpace c = true -> trim (s +:+ String c "") = trim s.
Proof.
  intros Hc. unfold trim. induction s as [|a s IH].
  - simpl. rewrite Hc. reflexivity.
  - rewrite PromptFacts.append_cons. simpl. destruct (isWhiteSpace a); [exact IH|].
    rewrite <- PromptFacts.append_cons. apply trimEnd_snoc, Hc.
Qed.

End BlockFacts.

Module WrapperFacts.
Import Types Store Eff Async Js Algorithms AutoRouter Handler Spec Props BrainAI.
Local Open Scope float_scope.

Lemma answered_totalDomains env prompt mode slot config (r : ModelResponse.t) :
  answered env prompt mode slot config r ->
  (Z.of_nat (RoutingResult.totalDomains (ModelResponse.routing r))
   <= ModeLimits.nodes (MODE_LIMITS mode) * ModeLimits.stacks (MODE_LIMITS mode)
      * ModeLimits.domains (MODE_LIMITS mode))%Z.
Proof.
  intros (_ & _ & _ & _ & _ & _ & Hn & Hs & Hd & ->).
  destruct mode; simpl in *; lia.
Qed.

Lemma blocksFrom_plain (pre rest : string) :
  forallb (fun c => negb (code c =? 96)%N) (list_ascii_of_string pre) = true ->
  HeartAI.blocksFrom 0 (pre +:+ rest) = HeartAI.blocksFrom 0 rest.
Proof.
  induction pre as [|c pre IH]; intros H; [reflexivity|].
  simpl in H. apply andb_true_iff in H as [Hc Hp].
  rewrite PromptFacts.append_cons.
  change (HeartAI.blocksFrom 0 (String c (pre +:+ rest)))
    with (match HeartAI.matchAt (String c (pre +:+ rest)) with
          | Some (body, len) =>
              trim body :: HeartAI.blocksFrom (len - 1) (pre +:+ rest)
          | None => HeartAI.blocksFrom 0 (pre +:+ rest)
          end).
  assert (Em : HeartAI.matchAt (String c (pre +:+ rest)) = None).
  { unfold HeartAI.matchAt.
    change (startsWith (String c (pre +:+ rest)) HeartAI.fence)
      with (Ascii.eqb "`" c && startsWith (pre +:+ rest) "``").
    destruct (Ascii.eqb_spec "`"%char c) as [<-|_]; [|reflexivity].
    vm_compute in Hc. discriminate Hc. }
  rewrite Em. apply IH, Hp.
Qed.

Lemma blocksFrom_skip_app (a b : string) :
  HeartAI.blocksFrom (String.length a) (a +:+ b) = HeartAI.blocksFrom 0 b.
Proof.
  induction a as [|c a IH]; [destruct b; reflexivity|].
  rewrite PromptFacts.append_cons. exact IH.
Qed.

Lemma matchAt_fenced (info content post : string) :
  forallb isWordChar (list_ascii_of_string info) = true ->
  forallb (fun c => negb (code c =? 96)%N) (list_ascii_of_string content) = true ->
  HeartAI.matchAt
    (HeartAI.fence +:+ info +:+ String "010" (content +:+ String "010" (HeartAI.fence +:+ post)))
  = Some (content +:+ String "010" "",
          (3 + String.length info + 1 + String.length (content +:+ String "010" "") + 3)%nat).
Proof.
  intros Hi Hc. unfold HeartAI.matchAt.
  rewrite (BlockFacts.startsWith_app HeartAI.fence _ HeartAI.fence eq_refl).
  change 3%nat with (String.length HeartAI.fence) at 1.
  rewrite BlockFacts.drop_app, (BlockFacts.afterInfo_info _ _ Hi),
    (BlockFacts.untilFence_content _ _ Hc).
  reflexivity.
Qed.

End WrapperFacts.

(** X19.  A text without a code fence has no code block. *)
Theorem extractCodeBlocks_without_fence (text : string) :
  includes text "```" = false -> HeartAI.extractCodeBlocks text = [].
Proof. apply BlockFacts.blocksFrom_no_fence. Qed.

Lemma extractCodeBlocks_without_fence_witness :
  HeartAI.extractCodeBlocks heartFailure = [].
Proof. apply extractCodeBlocks_without_fence. reflexivity. Defined.

(** X20.  No extracted code block contains a code fence. *)
Theorem extractCodeBlocks_fence_free (text block : string) :
  In block (HeartAI.extractCodeBlocks text) -> includes block "```" = false.
Proof. apply BlockFacts.blocksFrom_fence_free. Qed.

Lemma extractCodeBlocks_fence_free_witness :
  includes "let x = 1;" "```" = false.
Proof.
  apply (extractCodeBlocks_fence_free
           ("Try:" +:+ HeartAI.newline +:+ "```ts" +:+ HeartAI.newline +:+ "  let x = 1;"
            +:+ HeartAI.newline +:+ "``` and ```" +:+ HeartAI.newline +:+ "y```")).
  vm_compute. left. reflexivity.
Defined.

(** X21.  A fenced block is read back: in a text made of a prefix without
    back-ticks, a fence with a language tag of word characters, a line
    feed, a content without back-ticks, a line feed, a closing fence and a
    rest that holds no further fence, the one code block is the trimmed
    content. *)
Theorem extractCodeBlocks_reads_fenced_block (pre info content post : string) :
  Props.backtickFree pre = true ->
  Props.wordChars info = true ->
  Props.backtickFree content = true ->
  includes post "```" = false ->
  HeartAI.extractCodeBlocks
    (pre +:+ "```" +:+ info +:+ String "010" (content +:+ String "010" ("```" +:+ post)))
  = [trim content].
Proof.
  intros Hpre Hinfo Hcontent Hpost. unfold HeartAI.extractCodeBlocks.
  rewrite (WrapperFacts.blocksFrom_plain _ _ Hpre).
  pose proof (WrapperFacts.matchAt_fenced info content post Hinfo Hcontent) as Em.
  set (body := content +:+ String "010" "") in *.
  set (tail := "``" +:+ info +:+ String "010" (content +:+ String "010" "```")).
  assert (Es : "```" +:+ info +:+ String "010" (content +:+ String "010" ("```" +:+ post))
               = String "`" (tail +:+ post)).
  { subst tail. rewrite !PromptFacts.append_assoc.
    change ("```" +:+ info +:+ String "010" (content +:+ String "010" ("```" +:+ post)))
      with (String "`" ("``" +:+ info +:+ String "010" (content +:+ String "010" ("```" +:+ post)))).
    f_equal. f_equal. f_equal.
    rewrite !PromptFacts.append_cons. f_equal.
    rewrite PromptFacts.append_assoc. reflexivity. }
  unfold HeartAI.fence in Em. rewrite Es in *.
  change (HeartAI.blocksFrom 0 (String "`" (tail +:+ post)))
    with (match HeartAI.matchAt (String "`" (tail +:+ post)) with
          | Some (body, len) => trim body :: HeartAI.blocksFrom (len - 1) (tail +:+ post)
          | None => HeartAI.blocksFrom 0 (tail +:+ post)
          end).
  rewrite Em.
  assert (El : (3 + String.length info + 1 + String.length body + 3 - 1)%nat
               = String.length tail).
  { subst tail body. rewrite !BlockFacts.length_append. simpl.
    rewrite !BlockFacts.length_append. simpl. lia. }
  rewrite El, WrapperFacts.blocksFrom_skip_app,
    (BlockFacts.blocksFrom_no_fence post 0 Hpost).
  subst body. rewrite BlockFacts.trim_snoc by reflexivity. reflexivity.
Qed.

Lemma extractCodeBlocks_reads_fenced_block_witness :
  HeartAI.extractCodeBlocks
    ("Fix: " +:+ "```" +:+ "ts" +:+ String "010" ("  let x = 1; " +:+ String "010" ("```" +:+ " done")))
  = [trim "  let x = 1; "].
Proof.
  apply (extractCodeBlocks_reads_fenced_block "Fix: " "ts" "  let x = 1; " " done");
    reflexivity.
Defined.

(** X22.  [executeBrainAI] never throws.  The mode of the response is the
    request's mode when it has one; else the default of the request's
    device class - standard for mobile and tablet, professional for laptop,
    advanced for desktop and server; else professional.  Its [success] flag
    says exactly whether the three brain slots are configured after the
    refresh: if not, the answer is "Brain AI encountered an error. Please
    try again.", the log is "Error: Missing model configuration for AI
    type: brain" and every metric is zeroed (times, score and domain count
    0, and for each model empty provider and model, time 0, no success and
    no node, stack or domain); if so, the answer is not empty and
    [metrics.totalDomains] is at most three times the product of the
    mode's limits (6, 24 or 81).  Failing models never turn [success]
    off. *)
Theorem executeBrainAI_never_throws
  (request : BrainAI.BrainAIRequest.t) (env : Env.t) (w : World.t) :
  exists resp w',
    BrainAI.executeBrainAI request env w = (Returned resp, w')
    /\ BrainAI.BrainAIResponse.mode resp
       = match BrainAI.BrainAIRequest.mode request,
               BrainAI.BrainAIRequest.deviceClass request with
         | Some m, _ => m
         | None, Some mobile => standard
         | None, Some tablet => standard
         | None, Some laptop => professional
         | None, Some desktop => advanced
         | None, Some server => advanced
         | None, None => professional
         end
    /\ BrainAI.BrainAIResponse.success resp
       = Props.configured (Props.refreshed env w) brain
    /\ (BrainAI.BrainAIResponse.success resp = false ->
        BrainAI.BrainAIResponse.answer resp
        = "Brain AI encountered an error. Please try again."
        /\ BrainAI.BrainAIResponse.knowledgeAlgorithmLog resp
           = "Error: Missing model configuration for AI type: brain"
        /\ BrainAI.BrainAIResponse.metrics resp
           = BrainAI.Metrics.mk 0 0 0
               (BrainAI.ModelMetrics.mk "" "" 0 false [] [] [])
               (BrainAI.ModelMetrics.mk "" "" 0 false [] [] [])
               (BrainAI.ModelMetrics.mk "" "" 0 false [] [] []))
    /\ (BrainAI.BrainAIResponse.success resp = true ->
        BrainAI.BrainAIResponse.answer resp <> ""
        /\ (Z.of_nat (BrainAI.Metrics.totalDomains (BrainAI.BrainAIResponse.metrics resp))
            <= 3 * (ModeLimits.nodes (MODE_LIMITS (BrainAI.BrainAIResponse.mode resp))
                    * ModeLimits.stacks (MODE_LIMITS (BrainAI.BrainAIResponse.mode resp))
                    * ModeLimits.domains (MODE_LIMITS (BrainAI.BrainAIResponse.mode resp))))%Z).
Proof.
  set (mode := BrainAI.modeOf (BrainAI.BrainAIRequest.mode request)
                              (BrainAI.BrainAIRequest.deviceClass request)).
  assert (Hmode : mode
                  = match BrainAI.BrainAIRequest.mode request,
                          BrainAI.BrainAIRequest.deviceClass request with
                    | Some m, _ => m
                    | None, Some mobile => standard
                    | None, Some tablet => standard
                    | None, Some laptop => professional
                    | None, Some desktop => advanced
                    | None, Some server => advanced
                    | None, None => professional
                    end).
  { subst mode. destruct (BrainAI.BrainAIRequest.mode request) as [m|]; [reflexivity|].
    destruct (BrainAI.BrainAIRequest.deviceClass request) as [[]|]; reflexivity. }
  unfold BrainAI.executeBrainAI. fold mode. cbv zeta.
  destruct (Props.configured (Props.refreshed env w) brain) eqn:Hc.
  - destruct (SystemFacts.executeAISystem_configured brain
                (BrainAI.BrainAIRequest.prompt request) mode env w Hc)
      as (r & w' & c1 & c2 & c3 & E & _ & _ & _ & _ & A1 & A2 & A3 & Ef & _).
    unfold tryCatch, bind. rewrite E. unfold ret.
    eexists _, w'. split; [reflexivity|]. simpl.
    split; [exact Hmode|]. split; [reflexivity|]. split; [discriminate|].
    intros _. split.
    + rewrite Ef. apply HandlerFacts.fusedAnswer_nonempty.
    + unfold BrainAI.totalDomainsOf.
      apply WrapperFacts.answered_totalDomains in A1, A2, A3. lia.
  - destruct (SystemFacts.executeAISystem_missing brain
                (BrainAI.BrainAIRequest.prompt request) mode env w Hc) as (w' & E).
    unfold tryCatch, bind. rewrite E. unfold ret.
    eexists _, w'. split; [reflexivity|]. simpl.
    split; [exact Hmode|]. split; [reflexivity|]. split; [|discriminate].
    intros _. auto.
Qed.

(** X23.  When the three heart slots are configured and every call of the
    model client fails or throws, [executeHeartAI] still reports
    [success: true]: its answer is the failure comment of the heart
    algorithm, with no code block and quality score 0. *)
Theorem executeHeartAI_reports_success_when_models_fail
  (request : HeartAI.HeartAIRequest.t) (env : Env.t) (w : World.t) :
  Props.configured (Props.refreshed env w) heart = true ->
  (forall config enriched, snd (Props.replyOf env config enriched) = false) ->
  exists resp w',
    HeartAI.executeHeartAI request env w = (Returned resp, w')
    /\ HeartAI.HeartAIResponse.success resp = true
    /\ HeartAI.HeartAIResponse.answer resp = heartFailure
    /\ HeartAI.HeartAIResponse.codeBlocks resp = []
    /\ HeartAI.Metrics.qualityScore (HeartAI.HeartAIResponse.metrics resp) = 0%float.
Proof.
  intros Hc Hfail. unfold HeartAI.executeHeartAI. cbv zeta.
  destruct (SystemFacts.executeAISystem_all_fail heart (HeartAI.enrich request)
              (BrainAI.modeOf (HeartAI.HeartAIRequest.mode request)
                              (HeartAI.HeartAIRequest.deviceClass request))
              env w Hc Hfail)
    as (r & w' & E & Ef & Eq & _).
  unfold tryCatch, bind. rewrite E. unfold ret.
  eexists _, w'. split; [reflexivity|]. simpl.
  rewrite Ef, Eq. simpl. auto.
Qed.

Lemma executeHeartAI_reports_success_witness :
  exists resp w',
    HeartAI.executeHeartAI
      (HeartAI.HeartAIRequest.mk "Why does the build fail?" None None None)
      Props.unreachable World.initial
    = (Returned resp, w')
    /\ HeartAI.HeartAIResponse.success resp = true
    /\ HeartAI.HeartAIResponse.answer resp = heartFailure
    /\ HeartAI.HeartAIResponse.codeBlocks resp = []
    /\ HeartAI.Metrics.qualityScore (HeartAI.HeartAIResponse.metrics resp) = 0%float.
Proof.
  apply (executeHeartAI_reports_success_when_models_fail
           (HeartAI.HeartAIRequest.mk "Why does the build fail?" None None None)
           Props.unreachable World.initial).
  - vm_compute. reflexivity.
  - intros config enriched. reflexivity.
Defined.

(* ===================================================================== *)
(** * Further properties: forced refresh, memories, invalid responses *)
(* ===================================================================== *)

Module RefreshFacts.
Import Types Store Eff Async Js Algorithms AutoRouter Handler Spec Props.
Local Open Scope float_scope.

(** Subtracting the zero timestamp changes nothing. *)
Lemma sub_zero (x : float) : x - 0 = x.
Proof.
  apply Prim2SF_inj. rewrite FloatAxioms.sub_spec.
  change (Prim2SF 0) with (S754_zero false).
  destruct (Prim2SF x) as [[]|[]| |s m e]; reflexivity.
Qed.

Lemma filter_idem {A} (p : A -> bool) (l : list A) :
  List.filter p (List.filter p l) = List.filter p l.
Proof.
  induction l as [|a l IH]; simpl; [reflexivity|].
  destruct (p a) eqn:E; simpl; rewrite ?E, IH; reflexivity.
Qed.

End RefreshFacts.

(** X24.  [forceRefreshCache] does not honour the 60 s window: whenever the
    clock reads at least 60000 and the three reads succeed, it replaces the
    router's cache by the arrays of the rows read, their index and the new
    timestamp, however recent the last refresh was. *)
Theorem forceRefreshCache_reloads (env : Env.t) (w : World.t)
  (nodes : list NodeRow.t) (stacks : list StackRow.t) (domains : list DomainRow.t) :
  (Env.Date_now env (World.clock w) <? CACHE_TTL_MS)%float = false ->
  Env.nodeRows env (List.length (World.executed w)) = Returned nodes ->
  Env.stackRows env (S (List.length (World.executed w))) = Returned stacks ->
  Env.domainRows env (S (S (List.length (World.executed w)))) = Returned domains ->
  exists w',
    forceRefreshCache env w = (Returned tt, w')
    /\ World.router w'
       = Cache.mk
           (labelIndexOf (List.map nodeOfRow nodes) (List.map stackOfRow stacks)
                         (List.map domainOfRow domains))
           (List.map nodeOfRow nodes) (List.map stackOfRow stacks)
           (List.map domainOfRow domains)
           (Env.Date_now env (World.clock w))
    /\ World.executed w' = World.executed w ++ [SelectNodes; SelectStacks; SelectDomains].
Proof.
  intros Hout Hn Hs Hd.
  unfold forceRefreshCache, bind at 1, AutoRouter.update, modify.
  set (w0 := World.setRouter _ w).
  assert (E : refreshCache env w0
              = (Returned tt,
                 World.mk
                   (Cache.mk
                      (labelIndexOf (List.map nodeOfRow nodes) (List.map stackOfRow stacks)
                                    (List.map domainOfRow domains))
                      (List.map nodeOfRow nodes) (List.map stackOfRow stacks)
                      (List.map domainOfRow domains)
                      (Env.Date_now env (World.clock w0)))
                   (World.handler w0) (S (World.clock w0))
                   (World.executed w0 ++ [SelectNodes; SelectStacks; SelectDomains]))).
  { apply CacheFacts.refreshCache_success; subst w0; simpl; try assumption.
    rewrite RefreshFacts.sub_zero. exact Hout. }
  rewrite E. eexists. split; [reflexivity|]. split; reflexivity.
Qed.

Lemma forceRefreshCache_reloads_witness :
  exists w',
    forceRefreshCache Examples.healthy Examples.refreshedOnce = (Returned tt, w')
    /\ World.router w'
       = Cache.mk
           (labelIndexOf (List.map nodeOfRow Examples.someNodes)
                         (List.map stackOfRow Examples.someStacks)
                         (List.map domainOfRow Examples.someDomains))
           (List.map nodeOfRow Examples.someNodes) (List.map stackOfRow Examples.someStacks)
           (List.map domainOfRow Examples.someDomains)
           (Env.Date_now Examples.healthy (World.clock Examples.refreshedOnce))
    /\ World.executed w'
       = World.executed Examples.refreshedOnce ++ [SelectNodes; SelectStacks; SelectDomains].
Proof.
  apply (forceRefreshCache_reloads Examples.healthy Examples.refreshedOnce
           Examples.someNodes Examples.someStacks Examples.someDomains);
    vm_compute; reflexivity.
Defined.

(** X25.  [getMemories] never throws and touches neither cache.  Without a
    domain id it returns no memory and executes no statement; otherwise it
    executes exactly one query, for the pool "brain" when the AI type is
    brain and for the pool "shared" when it is heart or system, and
    returns the rows of the reply, or no memory when the query fails. *)
Theorem getMemories_never_throws
  (aiType : AIType) (domainIds : list string) (limit : Z) (env : Env.t) (w : World.t) :
  exists memories w',
    getMemories aiType domainIds limit env w = (Returned memories, w')
    /\ World.router w' = World.router w
    /\ World.handler w' = World.handler w
    /\ (domainIds = [] -> memories = [] /\ w' = w)
    /\ (domainIds <> [] ->
        let pool := match aiType with brain => "brain" | _ => "shared" end in
        World.executed w' = World.executed w ++ [SelectMemories pool domainIds limit]
        /\ memories
           = match Env.memoryRows env (List.length (World.executed w)) pool domainIds limit with
             | Returned rows => List.map memoryOfRow rows
             | Thrown _ => []
             end).
Proof.
  unfold getMemories.
  destruct domainIds as [|d ds]; simpl; unfold bind, ret, tryCatch, execute.
  - exists [], w. split; [reflexivity|]. split; [reflexivity|]. split; [reflexivity|].
    split; [intros _; split; reflexivity|intros Hne; contradiction].
  - assert (Ep : (if bool_decide (aiType = brain) then "brain" else "shared")
                 = match aiType with brain => "brain" | _ => "shared" end).
    { destruct aiType; reflexivity. }
    rewrite Ep.
    destruct (Env.memoryRows env _ _ _ _); eexists _, _; (split; [reflexivity|]);
      (split; [reflexivity|]); (split; [reflexivity|]);
      (split; [discriminate|intros _; split; reflexivity]).
Qed.

(** X26.  Failed and blank responses, and the prompt, have no influence on
    the result of a knowledge algorithm: each of the three gives the same
    output - answer, quality score, reasoning, primary and weights - on the
    valid responses alone, under any prompt. *)
Theorem algorithm_uses_valid_responses_only
  (t : AIType) (input : KnowledgeAlgorithmInput.t) (prompt' : string) :
  algorithm t input
  = algorithm t (KnowledgeAlgorithmInput.mk (KnowledgeAlgorithmInput.aiType input) prompt'
                   (validResponsesOf input)).
Proof.
  assert (E : validResponsesOf
                (KnowledgeAlgorithmInput.mk (KnowledgeAlgorithmInput.aiType input) prompt'
                   (validResponsesOf input))
              = validResponsesOf input).
  { unfold validResponsesOf. simpl. apply RefreshFacts.filter_idem. }
  destruct t; simpl;
    unfold brainKnowledgeAlgorithm, heartKnowledgeAlgorithm, systemKnowledgeAlgorithm;
    rewrite E; reflexivity.
Qed.

(** X27.  The prompt that [executeHeartAI] passes on contains the request's
    prompt verbatim, whatever context is wrapped around it. *)
Theorem enrich_keeps_prompt (request : HeartAI.HeartAIRequest.t) :
  includes (HeartAI.enrich request) (HeartAI.HeartAIRequest.prompt request) = true.
Proof.
  unfold HeartAI.enrich. cbv zeta.
  set (p := HeartAI.HeartAIRequest.prompt request).
  assert (H0 : includes p p = true).
  { apply BlockFacts.startsWith_includes.
    induction p as [|c p IH]; [reflexivity|]. simpl. rewrite Ascii.eqb_refl. exact IH. }
  set (p1 := match HeartAI.field HeartAI.Context.codeFile _ with
             | Some codeFile => _
             | None => p
             end).
  assert (H1 : includes p1 p = true).
  { subst p1. destruct (HeartAI.field HeartAI.Context.codeFile _); [|exact H0].
    rewrite <- !PromptFacts.append_assoc. apply BlockFacts.includes_app_r, H0. }
  set (p2 := match HeartAI.field HeartAI.Context.errorMessage _ with
             | Some errorMessage => _
             | None => p1
             end).
  assert (H2 : includes p2 p = true).
  { subst p2. destruct (HeartAI.field HeartAI.Context.errorMessage _); [|exact H1].
    rewrite <- !PromptFacts.append_assoc. apply BlockFacts.includes_app_r, H1. }
  destruct (HeartAI.field HeartAI.Context.stackTrace _); [|exact H2].
  apply BlockFacts.includes_app_l, H2.
Qed.
